(** * AgentCore Gateway Tools API (ts-version): a shallow embedding

    The NestJS services and controller of [ts-version/src] are embedded as
    functions in a small monad that threads the history of the requests
    sent to the remote services (Bedrock AgentCore control plane, S3, STS,
    the HTTP client) and propagates JavaScript exceptions.  The remote
    services are not part of the repository: they enter as an oracle
    [send] that answers a command given the history so far. *)

From Stdlib Require Import String Ascii List ZArith QArith Bool Lia DecimalString.
Import ListNotations.
Open Scope string_scope.

Set Warnings "-register-all".

(** ** JavaScript values *)

(** A JavaScript [number].  Finite doubles are rationals, and every
    comparison made by the code is against the constants 1 and 1000, which
    are exact, so a finite double is kept as the rational it denotes. *)
Inductive number : Type :=
| NaN
| Infinity
| NegInfinity
| Finite (q : Q).

(** [a < b] on numbers: any comparison with [NaN] is false. *)
Definition number_lt (a b : number) : bool :=
  match a, b with
  | NaN, _ | _, NaN => false
  | Infinity, _ => false
  | _, NegInfinity => false
  | NegInfinity, _ => true
  | _, Infinity => true
  | Finite x, Finite y => negb (Qle_bool y x)
  end.

Definition number_of_Z (z : Z) : number := Finite (inject_Z z).

(** JSON data: request bodies, command inputs and service responses. *)
Inductive json : Type :=
| JNull
| JBool (b : bool)
| JNum (n : number)
| JStr (s : string)
| JArr (items : list json)
| JObj (fields : list (string * json)).

(** The fields of a JavaScript object, in insertion order. *)
Definition obj : Type := list (string * json).

(** A JavaScript value that may be [undefined] ([None]). *)
Definition value : Type := option json.

(** Truthiness, as tested by [if (x)], [!x], [x && y] and [x || y]. *)
Definition truthy (v : value) : bool :=
  match v with
  | None => false
  | Some JNull => false
  | Some (JBool b) => b
  | Some (JNum NaN) => false
  | Some (JNum (Finite q)) => negb (Qnum q =? 0)%Z
  | Some (JNum _) => true
  | Some (JStr s) => negb (s =? "")
  | Some (JArr _) => true
  | Some (JObj _) => true
  end.

Definition truthy_string (s : option string) : bool :=
  match s with
  | Some s => negb (s =? "")
  | None => false
  end.

(** [o[k]] on the fields of an object. *)
Fixpoint assoc (k : string) (fs : obj) : value :=
  match fs with
  | [] => None
  | (k', v) :: rest => if k' =? k then Some v else assoc k rest
  end.

(** [o[k] = x] on the fields of an object: the binding is replaced in
    place, or appended when the key is new. *)
Fixpoint set_field (k : string) (x : json) (fs : obj) : obj :=
  match fs with
  | [] => [(k, x)]
  | (k', v) :: rest =>
      if k' =? k then (k', x) :: rest else (k', v) :: set_field k x rest
  end.

(** [v.k] for a value [v] that is neither [null] nor [undefined], and a
    key that is no built-in property of strings, numbers or arrays (the
    code only uses [mcp], [openApiSchema], [s3], [uri], [openapi] and
    [swagger] on request data). *)
Definition get (v : json) (k : string) : value :=
  match v with
  | JObj fs => assoc k fs
  | _ => None
  end.

(** Optional chaining [v?.k]. *)
Definition opt_get (v : value) (k : string) : value :=
  match v with
  | None | Some JNull => None
  | Some j => get j k
  end.

(** Rendering inside a template literal of a string that may be
    [undefined]. *)
Definition tpl (s : option string) : string :=
  match s with
  | Some s => s
  | None => "undefined"
  end.

Definition dquote : string := String (ascii_of_nat 34) EmptyString.

(** ** Exceptions *)

(** The body that NestJS sends for an [HttpException]: the string or the
    object given to its constructor. *)
Inductive http_payload : Type :=
| PayloadText (message : string)
| PayloadStatusError (status : Z) (error : string).

Inductive exn : Type :=
| Error (message : string)
| TypeError (message : string)
| ServiceException (name : string) (Code : option string)
    (httpStatusCode : option Z) (message : string)
| HttpException (response : http_payload) (status : Z)
| BadRequestException (message : string).

Definition exn_name (e : exn) : string :=
  match e with
  | Error _ => "Error"
  | TypeError _ => "TypeError"
  | ServiceException n _ _ _ => n
  | HttpException _ _ => "HttpException"
  | BadRequestException _ => "BadRequestException"
  end.

Definition exn_Code (e : exn) : option string :=
  match e with
  | ServiceException _ c _ _ => c
  | _ => None
  end.

Definition exn_httpStatusCode (e : exn) : option Z :=
  match e with
  | ServiceException _ _ s _ => s
  | _ => None
  end.

Definition exn_message (e : exn) : string :=
  match e with
  | Error m | TypeError m | BadRequestException m => m
  | ServiceException _ _ _ m => m
  | HttpException (PayloadText m) _ => m
  | HttpException (PayloadStatusError _ _) _ => "Http Exception"
  end.

Definition instanceof_BadRequestException (e : exn) : bool :=
  match e with
  | BadRequestException _ => true
  | _ => false
  end.

Definition code_is (e : exn) (c : string) : bool :=
  match exn_Code e with
  | Some c' => c' =? c
  | None => false
  end.

(** ** Commands sent to the remote services *)

Module ListTargets.
Record params : Type := mk {
  gatewayIdentifier : string;
  maxResults : option number;
  nextToken : option string }.
End ListTargets.

Module ListGateways.
Record params : Type := mk {
  maxResults : option number;
  nextToken : option string }.
End ListGateways.

Module CreateTarget.
Record params : Type := mk {
  gatewayIdentifier : string;
  name : string;
  description : string;
  targetConfiguration : json;
  credentialProviderConfigurations : json }.
End CreateTarget.

(** The input of [UpdateGatewayTargetCommand]: a property that was never
    set, or set to [undefined], is [None]. *)
Module Update.
Record params : Type := mk {
  gatewayIdentifier : string;
  targetId : string;
  name : string;
  targetConfiguration : value;
  credentialProviderConfigurations : value;
  description : option string }.

Definition with_targetConfiguration (c : value) (p : params) : params :=
  mk (gatewayIdentifier p) (targetId p) (name p) c
     (credentialProviderConfigurations p) (description p).

Definition with_credentialProviderConfigurations (c : value) (p : params)
  : params :=
  mk (gatewayIdentifier p) (targetId p) (name p) (targetConfiguration p) c
     (description p).

Definition with_description (d : option string) (p : params) : params :=
  mk (gatewayIdentifier p) (targetId p) (name p) (targetConfiguration p)
     (credentialProviderConfigurations p) d.
End Update.

Inductive command : Type :=
| GetGatewayTargetCommand (gatewayIdentifier targetId : string)
| ListGatewayTargetsCommand (input : ListTargets.params)
| CreateGatewayTargetCommand (input : CreateTarget.params)
| UpdateGatewayTargetCommand (input : Update.params)
| DeleteGatewayTargetCommand (gatewayIdentifier targetId : string)
| ListGatewaysCommand (input : ListGateways.params)
| CreateApiKeyCredentialProviderCommand (name apiKey : option string)
| HeadBucketCommand (Bucket : string)
| CreateBucketCommand (Bucket : string) (LocationConstraint : option string)
| PutObjectCommand (Bucket Key Body ContentType : string)
| GetCallerIdentityCommand
| AxiosGet (url : string).

(** The requests sent so far, most recent first. *)
Definition history : Type := list command.

(** A remote service: the answer to a command, given what was sent before. *)
Definition service : Type := history -> command -> exn + obj.

(** ** The monad of the service methods: exceptions over the history *)

Definition io (A : Type) : Type := history -> (exn + A) * history.

Definition ret {A : Type} (a : A) : io A := fun h => (inr a, h).

Definition throw {A : Type} (e : exn) : io A := fun h => (inl e, h).

Definition bind {A B : Type} (c : io A) (k : A -> io B) : io B :=
  fun h =>
    match c h with
    | (inr a, h') => k a h'
    | (inl e, h') => (inl e, h')
    end.

Definition try_catch {A : Type} (c : io A) (handler : exn -> io A) : io A :=
  fun h =>
    match c h with
    | (inl e, h') => handler e h'
    | (inr a, h') => (inr a, h')
    end.

Definition lift {A : Type} (r : exn + A) : io A := fun h => (r, h).

Declare Scope io_scope.
Delimit Scope io_scope with io.
Notation "x <- c ;; k" := (bind c (fun x => k))
  (at level 61, c at next level, right associativity) : io_scope.
Notation "' pat <- c ;; k" :=
  (bind c (fun x => match x with pat => k end))
  (at level 61, pat pattern, c at next level, right associativity) : io_scope.
Notation "'try' c 'catch' h" := (try_catch c h)
  (at level 60, c at level 59, h at level 59) : io_scope.
Open Scope io_scope.

(** The update calls found in a history. *)
Definition update_calls (h : history) : list Update.params :=
  flat_map (fun c => match c with
                     | UpdateGatewayTargetCommand p => [p]
                     | _ => []
                     end) h.

(** ** Property assignment along a path *)

(** [o.k1.k2...kn = x] in strict mode (module and class code is always
    strict).  Reading a property of [null] or [undefined] and creating a
    property on a primitive both raise a [TypeError].  The assignment
    mutates the objects in place, so every alias of [o] sees the result,
    which is what this function returns.  A property added to an array is
    no element of it and is absent from its JSON rendering: the array is
    returned as it was. *)
Fixpoint assign (path : list string) (x : json) (o : json) : exn + json :=
  match path with
  | [] => inr x
  | [k] =>
      match o with
      | JObj fs => inr (JObj (set_field k x fs))
      | JArr _ => inr o
      | JNull => inl (TypeError "Cannot set properties of null")
      | _ => inl (TypeError "Cannot create property on a primitive")
      end
  | k :: rest =>
      match o with
      | JNull => inl (TypeError "Cannot read properties of null")
      | JObj fs =>
          match assoc k fs with
          | None => inl (TypeError "Cannot read properties of undefined")
          | Some child =>
              match assign rest x child with
              | inr child' => inr (JObj (set_field k child' fs))
              | inl e => inl e
              end
          end
      | _ => inl (TypeError "Cannot read properties of undefined")
      end
  end.

Definition s3_uri_path : list string := ["mcp"; "openApiSchema"; "s3"; "uri"].

(** [c?.mcp?.openApiSchema?.s3?.uri] *)
Definition s3_uri_of (c : value) : value :=
  opt_get (opt_get (opt_get (opt_get c "mcp") "openApiSchema") "s3") "uri".

(** The guarded assignment of [updateGatewayTarget]:
    [if (cfg.mcp?.openApiSchema?.s3) cfg.mcp.openApiSchema.s3.uri = uri],
    returning the configuration as every alias of it sees it afterwards.
    It is reached with [cfg] and [uri] both truthy. *)
Definition splice_s3_uri (uri cfg : value) : exn + value :=
  match cfg, uri with
  | Some c, Some u =>
      if truthy (opt_get (opt_get (get c "mcp") "openApiSchema") "s3")
      then match assign s3_uri_path u c with
           | inr c' => inr (Some c')
           | inl e => inl e
           end
      else inr cfg
  | _, _ => inr cfg
  end.

(** [hay.includes(needle)] *)
Fixpoint includes (needle hay : string) : bool :=
  prefix needle hay ||
  match hay with
  | EmptyString => false
  | String _ rest => includes needle rest
  end.

(** [x || d] on strings that may be [undefined]. *)
Definition or_default (x : option string) (d : string) : string :=
  if truthy_string x then tpl x else d.

(** [Buffer.toString('hex')] *)
Definition hex_digit (n : N) : ascii :=
  match n with
  | 0 => "0" | 1 => "1" | 2 => "2" | 3 => "3" | 4 => "4" | 5 => "5"
  | 6 => "6" | 7 => "7" | 8 => "8" | 9 => "9" | 10 => "a" | 11 => "b"
  | 12 => "c" | 13 => "d" | 14 => "e" | _ => "f"
  end%N%char.

Definition hex_of_byte (b : Byte.byte) : string :=
  let n := Byte.to_N b in
  String (hex_digit (n / 16)) (String (hex_digit (n mod 16)) EmptyString).

Definition to_hex (bs : list Byte.byte) : string :=
  String.concat "" (map hex_of_byte bs).

(** An integer inside a template literal. *)
Definition decimal (z : Z) : string := NilZero.string_of_int (Z.to_int z).

(** A property that the SDK types as [string | undefined]. *)
Definition string_field (k : string) (o : obj) : option string :=
  match assoc k o with
  | Some (JStr s) => Some s
  | _ => None
  end.

(** ** api/dtos/index.ts *)

Module AuthConfig.
Record dto : Type := mk {
  api_key : option string;
  api_key_param_name : option string;
  api_key_location : option string }.
End AuthConfig.

Module Auth.
Record dto : Type := mk {
  type : string;
  provider_name : option string;
  config : option AuthConfig.dto }.
End Auth.

Module ApiInfo.
Record dto : Type := mk {
  method : string;
  url : string;
  query_params : value;
  headers : value;
  body_schema : value;
  description : option string }.
End ApiInfo.

Module FromUrl.
Record request : Type := mk {
  gateway_id : string;
  tool_name : string;
  openapi_spec_url : string;
  auth : option Auth.dto }.
End FromUrl.

Module FromApiInfo.
Record request : Type := mk {
  gateway_id : string;
  tool_name : string;
  api_info : ApiInfo.dto;
  auth : option Auth.dto }.
End FromApiInfo.

Module FromSpec.
Record request : Type := mk {
  gateway_id : string;
  tool_name : string;
  openapi_spec : value;
  auth : option Auth.dto }.
End FromSpec.

Module UpdateTool.
Record request : Type := mk {
  target_name : string;
  target_configuration : value;
  credential_provider_configurations : value;
  description : option string }.
End UpdateTool.

(** The object a controller method returns; a property may hold
    [undefined]. *)
Definition reply : Type := list (string * value).

(** ** The HTTP surface

    What NestJS sends for the outcome of a controller method: the returned
    object with the success status of the route, the payload and status of
    an [HttpException], the standard body of a [BadRequestException], and
    a plain 500 for any other exception that escapes. *)
Inductive http_body : Type :=
| BodyReply (r : reply)
| BodyStatusError (status : Z) (error : string)
| BodyStatusMessage (statusCode : Z) (message : string) (error : option string).

Record http_response : Type := mk_response {
  status_code : Z;
  body : http_body }.

Definition nest_respond (success : Z) (r : exn + reply) : http_response :=
  match r with
  | inr v => mk_response success (BodyReply v)
  | inl (HttpException (PayloadStatusError s e) status) =>
      mk_response status (BodyStatusError s e)
  | inl (HttpException (PayloadText m) status) =>
      mk_response status (BodyStatusMessage status m None)
  | inl (BadRequestException m) =>
      mk_response 400 (BodyStatusMessage 400 m (Some "Bad Request"))
  | inl _ =>
      mk_response 500 (BodyStatusMessage 500 "Internal server error" None)
  end.

Definition INTERNAL_SERVER_ERROR : Z := 500.
Definition NOT_FOUND : Z := 404.

(** ** services/tools/tools.service.ts *)

Section Services.

(** The remote services, and what the code reads from its environment:
    [process.env.AWS_DEFAULT_REGION || 'us-east-1'],
    [process.env.OPENAPI_SPECS_BUCKET || '...'], the clock [Date.now()]
    (milliseconds), [crypto.randomBytes] and [JSON.stringify]. *)
Variable send : service.
Variable awsRegion : string.
Variable OPENAPI_SPECS_BUCKET : string.
Variable Date_now : history -> Z.
Variable randomBytes : history -> nat -> list Byte.byte.
Variable JSON_stringify : json -> string.

(** [OpenApiGeneratorService.generateOpenApiSpec], which builds a fresh
    specification object from strings and request data; it sends nothing
    and is kept abstract. *)
Variable generateOpenApiSpec :
  string -> string -> string -> value -> value -> value -> option string ->
  json.

Definition client_send (cmd : command) : io obj :=
  fun h => (send h cmd, cmd :: h).

Definition target_not_found (targetId gatewayId : string) : exn :=
  Error ("Target '" ++ targetId ++ "' not found on gateway '" ++ gatewayId ++ "'").

Definition getGatewayTarget (gatewayId targetId : string) : io obj :=
  try client_send (GetGatewayTargetCommand gatewayId targetId)
  catch (fun error =>
    if exn_name error =? "ResourceNotFoundException"
    then throw (target_not_found targetId gatewayId)
    else throw error).

Definition maxResults_error : exn :=
  Error "maxResults must be between 1 and 1000".

Definition listGatewayTargets (gatewayId : string)
    (maxResults : option number) (nextToken : option string) : io obj :=
  let listParams := ListTargets.mk gatewayId None None in
  listParams <-
    match maxResults with
    | Some m =>
        if number_lt m (number_of_Z 1) || number_lt (number_of_Z 1000) m
        then throw maxResults_error
        else ret (ListTargets.mk (ListTargets.gatewayIdentifier listParams)
                    (Some m) (ListTargets.nextToken listParams))
    | None => ret listParams
    end ;;
  let listParams :=
    if truthy_string nextToken
    then ListTargets.mk (ListTargets.gatewayIdentifier listParams)
           (ListTargets.maxResults listParams) nextToken
    else listParams in
  try client_send (ListGatewayTargetsCommand listParams)
  catch (fun error => throw error).

Definition target_config (openApiS3Uri : string) : json :=
  JObj [("mcp", JObj [("openApiSchema",
          JObj [("s3", JObj [("uri", JStr openApiS3Uri)])])])].

Definition api_key_credential_config
    (apiKeyParamName : string) (providerArn : json) (apiKeyLocation : string)
  : json :=
  JObj [("credentialProviderType", JStr "API_KEY");
        ("credentialProvider",
         JObj [("apiKeyCredentialProvider",
                JObj [("credentialParameterName", JStr apiKeyParamName);
                      ("providerArn", providerArn);
                      ("credentialLocation", JStr apiKeyLocation)])])].

Definition target_exists (targetName gatewayId : string) : exn :=
  Error ("Target '" ++ targetName ++ "' already exists on gateway " ++ gatewayId).

Definition createGatewayTarget (gatewayId targetName openApiS3Uri : string)
    (apiKeyCredentialProviderArn : string)
    (apiKeyParamName apiKeyLocation : option string)
    (description : option string) : io obj :=
  let apiKeyParamName :=
    match apiKeyParamName with Some p => p | None => "api_key" end in
  let apiKeyLocation :=
    match apiKeyLocation with Some l => l | None => "QUERY_PARAMETER" end in
  let targetConfig := target_config openApiS3Uri in
  let credentialConfigs :=
    JArr [api_key_credential_config apiKeyParamName
            (JStr apiKeyCredentialProviderArn) apiKeyLocation] in
  try
    client_send (CreateGatewayTargetCommand
      (CreateTarget.mk gatewayId targetName
         (if truthy_string description then tpl description
          else "OpenAPI target: " ++ targetName)
         targetConfig credentialConfigs))
  catch (fun error =>
    if code_is error "ConflictException"
    then throw (target_exists targetName gatewayId)
    else throw error).

Definition config_required : exn :=
  Error "target_configuration is required when updating tool if existing target cannot be retrieved".

Definition updateGatewayTarget (gatewayId targetId targetName : string)
    (targetConfiguration : value) (description : option string)
    (credentialProviderConfigurations : value) : io obj :=
  (* Fetch existing target to preserve S3 URI and credentials if not provided *)
  existingTarget <-
    (try (t <- getGatewayTarget gatewayId targetId ;; ret (Some t))
     catch (fun e => ret None)) ;;
  (* If target_configuration not provided, use existing *)
  finalTargetConfiguration <-
    (if negb (truthy targetConfiguration) then
       match existingTarget with
       | Some t => ret (assoc "targetConfiguration" t)
       | None => throw config_required
       end
     else ret targetConfiguration) ;;
  (* Build update parameters *)
  let updateParams :=
    Update.mk gatewayId targetId targetName finalTargetConfiguration
      None None in
  (* If target_configuration has an empty S3 URI, preserve existing one *)
  updateParams <-
    match existingTarget with
    | Some t =>
        if truthy finalTargetConfiguration then
          let existingS3Uri := s3_uri_of (assoc "targetConfiguration" t) in
          let newS3Uri := s3_uri_of finalTargetConfiguration in
          if negb (truthy newS3Uri) && truthy existingS3Uri then
            spliced <- lift (splice_s3_uri existingS3Uri finalTargetConfiguration) ;;
            ret (Update.with_targetConfiguration spliced updateParams)
          else ret updateParams
        else ret updateParams
    | None => ret updateParams
    end ;;
  (* Add credential configurations if provided *)
  let updateParams :=
    match credentialProviderConfigurations with
    | Some _ =>
        Update.with_credentialProviderConfigurations
          credentialProviderConfigurations updateParams
    | None =>
        match existingTarget with
        | Some t =>
            let existingCreds := assoc "credentialProviderConfigurations" t in
            if truthy existingCreds
            then Update.with_credentialProviderConfigurations existingCreds
                   updateParams
            else updateParams
        | None => updateParams
        end
    end in
  (* Add optional parameters if provided *)
  let updateParams :=
    match description with
    | Some _ => Update.with_description description updateParams
    | None => updateParams
    end in
  try client_send (UpdateGatewayTargetCommand updateParams)
  catch (fun error =>
    if exn_name error =? "ResourceNotFoundException"
    then throw (target_not_found targetId gatewayId)
    else throw error).

Definition deleteGatewayTarget (gatewayId targetId : string) : io obj :=
  try client_send (DeleteGatewayTargetCommand gatewayId targetId)
  catch (fun error =>
    if exn_name error =? "ResourceNotFoundException"
    then throw (target_not_found targetId gatewayId)
    else throw error).


(** ** services/gateways/gateway.service.ts *)

Definition listGateways (maxResults : option number)
    (nextToken : option string) : io obj :=
  let listParams := ListGateways.mk None None in
  listParams <-
    match maxResults with
    | Some m =>
        if number_lt m (number_of_Z 1) || number_lt (number_of_Z 1000) m
        then throw maxResults_error
        else ret (ListGateways.mk (Some m) (ListGateways.nextToken listParams))
    | None => ret listParams
    end ;;
  let listParams :=
    if truthy_string nextToken
    then ListGateways.mk (ListGateways.maxResults listParams) nextToken
    else listParams in
  try client_send (ListGatewaysCommand listParams)
  catch (fun error => throw error).

(** ** services/credentials/credentials.service.ts *)

Definition provider_exists (providerName : option string) : exn :=
  Error ("Credential provider '" ++ tpl providerName ++ "' already exists. "
         ++ "Please use a unique name or handle provider updates manually.").

Definition createOrGetApiKeyCredentialProvider
    (providerName apiKey : option string) : io string :=
  try
    (response <-
       client_send (CreateApiKeyCredentialProviderCommand providerName apiKey) ;;
     let credentialProviderArn :=
       or_default (string_field "credentialProviderArn" response) "" in
     ret credentialProviderArn)
  catch (fun error =>
    if includes "already exists" (exn_message error)
       || code_is error "EntityAlreadyExists"
    then throw (provider_exists providerName)
    else throw error).

(** ** services/s3/s3.service.ts *)

Definition bucket_missing (error : exn) : bool :=
  code_is error "NoSuchBucket" ||
  match exn_httpStatusCode error with
  | Some s => (s =? 404)%Z
  | None => false
  end.

Definition bucket_already_there (createError : exn) : bool :=
  code_is createError "BucketAlreadyOwnedByYou" ||
  code_is createError "BucketAlreadyExists".

Definition create_bucket_command (bucketName : string) : command :=
  CreateBucketCommand bucketName
    (if negb (awsRegion =? "us-east-1") then Some awsRegion else None).

Definition ensureS3Bucket (bucketName : option string) : io string :=
  bucketName <-
    (if negb (truthy_string bucketName) then
       identity <- client_send GetCallerIdentityCommand ;;
       let accountId := string_field "Account" identity in
       ret ("agentcore-gateways-targets-openapi-specs-" ++ tpl accountId
            ++ "-" ++ awsRegion)
     else ret (tpl bucketName)) ;;
  _ <-
    (try (_ <- client_send (HeadBucketCommand bucketName) ;; ret tt)
     catch (fun error =>
       if bucket_missing error then
         (* Bucket doesn't exist, create it *)
         try (_ <- client_send (create_bucket_command bucketName) ;; ret tt)
         catch (fun createError =>
           if bucket_already_there createError then ret tt
           else throw createError)
       else throw error)) ;;
  ret bucketName.

Definition object_key (gatewayId toolName : string) (timestamp : Z)
    (randomId : string) : string :=
  "gateways/" ++ gatewayId ++ "/tools/" ++ toolName ++ "/"
  ++ decimal timestamp ++ "-" ++ randomId ++ ".json".

Definition uploadOpenApiSpec (specJson : json) (toolName gatewayId : string)
    (bucketName : option string) : io string :=
  finalBucketName <- ensureS3Bucket bucketName ;;
  (* Build hierarchical object key *)
  timestamp <- (fun h => (inr (Date_now h / 1000)%Z, h)) ;;
  randomId <- (fun h => (inr (to_hex (randomBytes h 8)), h)) ;;
  let objectKey := object_key gatewayId toolName timestamp randomId in
  let body := JSON_stringify specJson in
  _ <- client_send
         (PutObjectCommand finalBucketName objectKey body "application/json") ;;
  let s3Uri := "s3://" ++ finalBucketName ++ "/" ++ objectKey in
  ret s3Uri.

(** ** api/validations/validations.service.ts *)

Definition validateAuth (auth : option Auth.dto) : exn + unit :=
  match auth with
  | None => inr tt
  | Some a =>
      if negb (Auth.type a =? "api_key") then inr tt
      else if negb (truthy_string
                      (match Auth.config a with
                       | Some c => AuthConfig.api_key c
                       | None => None
                       end))
      then inl (BadRequestException
                  ("api_key is required in auth.config when auth.type is "
                   ++ dquote ++ "api_key" ++ dquote))
      else if negb (truthy_string (Auth.provider_name a))
      then inl (BadRequestException
                  ("auth.provider_name is required when auth.type is "
                   ++ dquote ++ "api_key" ++ dquote))
      else inr tt
  end.

Definition validateOpenApiSpec (spec : value) : exn + unit :=
  match spec with
  | None => inl (TypeError "Cannot read properties of undefined")
  | Some JNull => inl (TypeError "Cannot read properties of null")
  | Some j =>
      if negb (truthy (get j "openapi")) && negb (truthy (get j "swagger"))
      then inl (BadRequestException
                  "OpenAPI spec must contain 'openapi' or 'swagger' field")
      else inr tt
  end.

(** ** api/app.controller.ts *)

Definition internal_server_error (error : exn) : exn :=
  HttpException (PayloadStatusError INTERNAL_SERVER_ERROR (exn_message error))
    INTERNAL_SERVER_ERROR.

Definition registerToolWithGateway (gatewayId targetName openApiS3Uri : string)
    (auth : option Auth.dto) (description : option string) : io obj :=
  let apiKey := Some "placeholder-not-used" in
  let apiKeyProviderName := Some (targetName ++ "-placeholder-apikey") in
  let apiKeyParamName := "X-Placeholder-Auth" in
  let apiKeyLocation := "HEADER" in
  '(apiKey, apiKeyProviderName, apiKeyParamName, apiKeyLocation) <-
    match auth with
    | Some a =>
        if Auth.type a =? "api_key" then
          match Auth.config a with
          | Some c =>
              ret (AuthConfig.api_key c, Auth.provider_name a,
                   or_default (AuthConfig.api_key_param_name c) "api_key",
                   or_default (AuthConfig.api_key_location c) "QUERY_PARAMETER")
          | None => throw (TypeError "Cannot read properties of undefined")
          end
        else ret (apiKey, apiKeyProviderName, apiKeyParamName, apiKeyLocation)
    | None => ret (apiKey, apiKeyProviderName, apiKeyParamName, apiKeyLocation)
    end ;;
  credentialProviderArn <-
    createOrGetApiKeyCredentialProvider apiKeyProviderName apiKey ;;
  createGatewayTarget gatewayId targetName openApiS3Uri credentialProviderArn
    (Some apiKeyParamName) (Some apiKeyLocation) description.

Definition tool_created (toolName gatewayId : string) : string :=
  "Tool '" ++ toolName ++ "' successfully created and registered on gateway "
  ++ gatewayId.

Definition createToolWithSpec (gatewayId toolName : string) (spec : json)
    (auth : option Auth.dto) (description : option string) : io reply :=
  (* Upload spec to S3 *)
  s3Uri <- uploadOpenApiSpec spec toolName gatewayId
             (Some OPENAPI_SPECS_BUCKET) ;;
  (* Register tool with gateway *)
  result <- registerToolWithGateway gatewayId toolName s3Uri auth description ;;
  ret [("status", Some (JStr "success"));
       ("tool_name", Some (JStr toolName));
       ("gateway_id", Some (JStr gatewayId));
       ("openapi_spec_path", Some (JStr s3Uri));
       ("message", Some (JStr (tool_created toolName gatewayId)));
       ("target_id", assoc "targetId" result);
       ("gateway_arn", assoc "gatewayArn" result);
       ("description", assoc "description" result);
       ("created_at", assoc "createdAt" result);
       ("updated_at", assoc "updatedAt" result);
       ("last_synchronized_at", assoc "lastSynchronizedAt" result);
       ("target_status", assoc "status" result);
       ("status_reasons", assoc "statusReasons" result);
       ("target_configuration", assoc "targetConfiguration" result);
       ("credential_provider_configurations",
        assoc "credentialProviderConfigurations" result)].

(** After [validateOpenApiSpec] has passed, the specification is neither
    [null] nor [undefined]. *)
Definition validated_spec (spec : value) : io json :=
  _ <- lift (validateOpenApiSpec spec) ;;
  match spec with
  | Some j => ret j
  | None => throw (TypeError "Cannot read properties of undefined")
  end.

Definition downloadAndCreateTool (gatewayId toolName specUrl : string)
    (auth : option Auth.dto) : io reply :=
  response <- client_send (AxiosGet specUrl) ;;
  let spec := assoc "data" response in
  spec <- validated_spec spec ;;
  createToolWithSpec gatewayId toolName spec auth None.

Definition createToolFromUrl (request : FromUrl.request) : io reply :=
  try
    (_ <- lift (validateAuth (FromUrl.auth request)) ;;
     downloadAndCreateTool (FromUrl.gateway_id request)
       (FromUrl.tool_name request) (FromUrl.openapi_spec_url request)
       (FromUrl.auth request))
  catch (fun error => throw (internal_server_error error)).

Definition createToolFromApiInfo (request : FromApiInfo.request) : io reply :=
  try
    (_ <- lift (validateAuth (FromApiInfo.auth request)) ;;
     let api_info := FromApiInfo.api_info request in
     let spec :=
       generateOpenApiSpec (FromApiInfo.tool_name request)
         (ApiInfo.method api_info) (ApiInfo.url api_info)
         (ApiInfo.query_params api_info) (ApiInfo.headers api_info)
         (ApiInfo.body_schema api_info) (ApiInfo.description api_info) in
     createToolWithSpec (FromApiInfo.gateway_id request)
       (FromApiInfo.tool_name request) spec (FromApiInfo.auth request)
       (ApiInfo.description api_info))
  catch (fun error => throw (internal_server_error error)).

Definition createToolFromSpec (request : FromSpec.request) : io reply :=
  try
    (_ <- lift (validateAuth (FromSpec.auth request)) ;;
     spec <- validated_spec (FromSpec.openapi_spec request) ;;
     createToolWithSpec (FromSpec.gateway_id request)
       (FromSpec.tool_name request) spec (FromSpec.auth request) None)
  catch (fun error =>
    if instanceof_BadRequestException error then throw error
    else throw (internal_server_error error)).

Definition tool_updated (targetName targetId gatewayId : string) : string :=
  "Tool '" ++ targetName ++ "' (target " ++ targetId
  ++ ") successfully updated on gateway '" ++ gatewayId ++ "'".

Definition updateTool (gatewayId targetId : string)
    (request : UpdateTool.request) : io reply :=
  try
    (response <-
       updateGatewayTarget gatewayId targetId (UpdateTool.target_name request)
         (UpdateTool.target_configuration request)
         (UpdateTool.description request)
         (UpdateTool.credential_provider_configurations request) ;;
     ret [("status", Some (JStr "success"));
          ("tool_name", Some (JStr (UpdateTool.target_name request)));
          ("target_id",
           if truthy (assoc "targetId" response) then assoc "targetId" response
           else Some (JStr targetId));
          ("gateway_id", Some (JStr gatewayId));
          ("message",
           Some (JStr (tool_updated (UpdateTool.target_name request)
                         targetId gatewayId)));
          ("gateway_arn", assoc "gatewayArn" response);
          ("description", assoc "description" response);
          ("created_at", assoc "createdAt" response);
          ("updated_at", assoc "updatedAt" response);
          ("last_synchronized_at", assoc "lastSynchronizedAt" response);
          ("target_status", assoc "status" response);
          ("status_reasons", assoc "statusReasons" response);
          ("target_configuration", assoc "targetConfiguration" response);
          ("credential_provider_configurations",
           assoc "credentialProviderConfigurations" response)])
  catch (fun error =>
    if includes "not found" (exn_message error)
    then throw (HttpException (PayloadText (exn_message error)) NOT_FOUND)
    else throw (internal_server_error error)).

(** A route: the controller method run from a given history, answered by
    the framework.  The method is run on a body that the global
    [ValidationPipe] of main.ts has accepted against the DTO class of the
    route; a body that the pipe refuses does not reach the method. *)
Definition route (success : Z) (handler : io reply) (h : history)
  : http_response * history :=
  let (r, h') := handler h in (nest_respond success r, h').

Definition POST_tools_from_url (request : FromUrl.request) :=
  route 201 (createToolFromUrl request).

Definition POST_tools_from_api_info (request : FromApiInfo.request) :=
  route 201 (createToolFromApiInfo request).

Definition POST_tools_from_spec (request : FromSpec.request) :=
  route 201 (createToolFromSpec request).

End Services.

(** ** api/app.controller.ts: the routes that read, list and delete *)

Module AppController.

(** The object returned by the two list routes. *)
Record listing : Type := mk_listing {
  status : string;
  message : string;
  items : list reply;
  next_token : value }.

(** What the framework sends for a controller method: the returned value
    with the success status of the route, or the response of the
    exception as [nest_respond] builds it. *)
Inductive outcome (A : Type) : Type :=
| Answered (status : Z) (body : A)
| Refused (response : http_response).
Arguments Answered {A} status body.
Arguments Refused {A} response.

Definition answer {A : Type} (success : Z) (r : exn + A) : outcome A :=
  match r with
  | inr v => Answered success v
  | inl e => Refused (nest_respond success (inl e))
  end.

Definition serve {A : Type} (success : Z) (handler : io A) (h : history)
  : outcome A * history :=
  let (r, h') := handler h in (answer success r, h').

(** [(response.items || [])]: a truthy value that is no array has no
    [map] to call. *)
Definition items_or_empty (response : obj) : exn + list json :=
  if truthy (assoc "items" response) then
    match assoc "items" response with
    | Some (JArr l) => inr l
    | _ => inl (TypeError "(response.items || []).map is not a function")
    end
  else inr [].

(** [items.map(f)], where [f] reads properties of the item and so raises
    on [null]. *)
Fixpoint map_items (f : json -> reply) (l : list json) : exn + list reply :=
  match l with
  | [] => inr []
  | JNull :: _ => inl (TypeError "Cannot read properties of null")
  | item :: rest =>
      match map_items f rest with
      | inr rest' => inr (f item :: rest')
      | inl e => inl e
      end
  end.

Definition gateway_summary (item : json) : reply :=
  [("gateway_id", get item "gatewayId");
   ("name", get item "name");
   ("description", get item "description");
   ("gateway_status", get item "status");
   ("authorizer_type", get item "authorizerType");
   ("protocol_type", get item "protocolType");
   ("created_at", get item "createdAt");
   ("updated_at", get item "updatedAt")].

Definition target_summary (item : json) : reply :=
  [("target_id", get item "targetId");
   ("name", get item "name");
   ("description", get item "description");
   ("target_status", get item "status");
   ("created_at", get item "createdAt");
   ("updated_at", get item "updatedAt")].

Definition retrieved (n : nat) (what : string) : string :=
  "Retrieved " ++ decimal (Z.of_nat n) ++ " " ++ what.

Section Routes.

Variable send : service.

Definition check_maxResults (maxResults : option number) : io unit :=
  match maxResults with
  | Some m =>
      if number_lt m (number_of_Z 1) || number_lt (number_of_Z 1000) m
      then throw (BadRequestException "maxResults must be between 1 and 1000")
      else ret tt
  | None => ret tt
  end.

Definition listGateways (maxResults : option number)
    (nextToken : option string) : io listing :=
  try
    (_ <- check_maxResults maxResults ;;
     response <- listGateways send maxResults nextToken ;;
     raw <- lift (items_or_empty response) ;;
     items <- lift (map_items gateway_summary raw) ;;
     ret (mk_listing "success" (retrieved (List.length items) "gateway(s)")
            items (assoc "nextToken" response)))
  catch (fun error => throw (internal_server_error error)).

Definition listTools (gatewayId : string) (maxResults : option number)
    (nextToken : option string) : io listing :=
  try
    (_ <- check_maxResults maxResults ;;
     response <- listGatewayTargets send gatewayId maxResults nextToken ;;
     raw <- lift (items_or_empty response) ;;
     items <- lift (map_items target_summary raw) ;;
     ret (mk_listing "success" (retrieved (List.length items) "target(s)")
            items (assoc "nextToken" response)))
  catch (fun error => throw (internal_server_error error)).

(** The [catch] of the routes that answer 404: the status is chosen by the
    text of the message. *)
Definition not_found_or_500 {A : Type} (error : exn) : io A :=
  if includes "not found" (exn_message error)
  then throw (HttpException (PayloadText (exn_message error)) NOT_FOUND)
  else throw (internal_server_error error).

Definition getTool (gatewayId targetId : string) : io reply :=
  try
    (response <- getGatewayTarget send gatewayId targetId ;;
     ret [("status", Some (JStr "success"));
          ("message",
           Some (JStr ("Gateway target '"
                       ++ tpl (string_field "name" response)
                       ++ "' retrieved successfully")));
          ("target_id", assoc "targetId" response);
          ("name", assoc "name" response);
          ("description", assoc "description" response);
          ("gateway_arn", assoc "gatewayArn" response);
          ("created_at", assoc "createdAt" response);
          ("updated_at", assoc "updatedAt" response);
          ("last_synchronized_at", assoc "lastSynchronizedAt" response);
          ("target_status", assoc "status" response);
          ("status_reasons", assoc "statusReasons" response);
          ("target_configuration", assoc "targetConfiguration" response);
          ("credential_provider_configurations",
           assoc "credentialProviderConfigurations" response)])
  catch not_found_or_500.

(** [x || d] on values. *)
Definition value_or (x : value) (d : json) : value :=
  if truthy x then x else Some d.

Definition deleteTool (gatewayId targetId : string) : io reply :=
  try
    (response <- deleteGatewayTarget send gatewayId targetId ;;
     ret [("status", value_or (assoc "status" response) (JStr "DELETING"));
          ("target_id", value_or (assoc "targetId" response) (JStr targetId));
          ("gateway_id", Some (JStr gatewayId));
          ("gateway_arn", assoc "gatewayArn" response);
          ("status_reasons", assoc "statusReasons" response);
          ("message",
           Some (JStr ("Tool '" ++ targetId
                       ++ "' deletion initiated on gateway '" ++ gatewayId
                       ++ "'")))])
  catch not_found_or_500.

End Routes.

End AppController.

(** ** services/gateways/gateway.service.ts and the gateway routes

    The gateway methods talk to the control plane through commands of
    their own; they run in the same kind of monad, over the history of
    those commands. *)

Module Gateway.

Module Create.
Record params : Type := mk {
  name : string;
  protocolType : string;
  authorizerType : string;
  roleArn : string;
  description : option string }.
End Create.

Module Update.
Record params : Type := mk {
  gatewayIdentifier : string;
  name : string;
  protocolType : string;
  authorizerType : string;
  roleArn : string;
  description : option string;
  authorizerConfiguration : value }.
End Update.

Inductive command : Type :=
| GetGatewayCommand (gatewayIdentifier : string)
| CreateGatewayCommand (input : Create.params)
| UpdateGatewayCommand (input : Update.params)
| DeleteGatewayCommand (gatewayIdentifier : string).

Definition history : Type := list command.

Definition service : Type := history -> command -> exn + obj.

Definition io (A : Type) : Type := history -> (exn + A) * history.

Definition ret {A : Type} (a : A) : io A := fun h => (inr a, h).

Definition throw {A : Type} (e : exn) : io A := fun h => (inl e, h).

Definition bind {A B : Type} (c : io A) (k : A -> io B) : io B :=
  fun h =>
    match c h with
    | (inr a, h') => k a h'
    | (inl e, h') => (inl e, h')
    end.

Definition try_catch {A : Type} (c : io A) (handler : exn -> io A) : io A :=
  fun h =>
    match c h with
    | (inl e, h') => handler e h'
    | (inr a, h') => (inr a, h')
    end.

Declare Scope gateway_scope.
Delimit Scope gateway_scope with gateway.
Notation "x <- c ;; k" := (bind c (fun x => k))
  (at level 61, c at next level, right associativity) : gateway_scope.
Notation "'try' c 'catch' h" := (try_catch c h)
  (at level 60, c at level 59, h at level 59) : gateway_scope.
Local Open Scope gateway_scope.

(** api/dtos/index.ts *)

Module Cognito.
Record dto : Type := mk {
  user_pool_id : option string;
  client_id : option string;
  discovery_url : option string }.

(** The decorators of [CognitoAuthConfigDto]: each of the three settings
    is [@IsString].  The global [ValidationPipe] of main.ts checks them
    before the controller runs and refuses a body in which one of them is
    not a string; the empty string is a string. *)
Definition accepted (c : dto) : bool :=
  match user_pool_id c, client_id c, discovery_url c with
  | Some _, Some _, Some _ => true
  | _, _, _ => false
  end.
End Cognito.

Module CreateRequest.
Record dto : Type := mk {
  gateway_name : string;
  description : option string;
  auth_config : option Cognito.dto }.
End CreateRequest.

Module CreateNoAuthRequest.
Record dto : Type := mk {
  gateway_name : string;
  description : option string }.
End CreateNoAuthRequest.

Module UpdateRequest.
Record dto : Type := mk {
  name : string;
  protocol_type : string;
  authorizer_type : string;
  role_arn : string;
  description : option string }.
End UpdateRequest.

(** The fields that the routes copy from the gateway returned by the
    service, the same in [getGateway], [createGateway],
    [createGatewayNoAuth] and [updateGateway]. *)
Definition gateway_fields (response : obj) : reply :=
  [("gateway_id", assoc "gatewayId" response);
   ("gateway_url", assoc "gatewayUrl" response);
   ("gateway_arn", assoc "gatewayArn" response);
   ("name", assoc "name" response);
   ("description", assoc "description" response);
   ("created_at", assoc "createdAt" response);
   ("updated_at", assoc "updatedAt" response);
   ("gateway_status", assoc "status" response);
   ("status_reasons", assoc "statusReasons" response);
   ("authorizer_type", assoc "authorizerType" response);
   ("protocol_type", assoc "protocolType" response);
   ("role_arn", assoc "roleArn" response);
   ("authorizer_configuration", assoc "authorizerConfiguration" response);
   ("protocol_configuration", assoc "protocolConfiguration" response);
   ("exception_level", assoc "exceptionLevel" response);
   ("interceptor_configurations", assoc "interceptorConfigurations" response);
   ("policy_engine_configuration", assoc "policyEngineConfiguration" response);
   ("kms_key_arn", assoc "kmsKeyArn" response);
   ("workload_identity_details", assoc "workloadIdentityDetails" response)].

Definition gateway_reply (message : string) (response : obj) : reply :=
  ("status", Some (JStr "success")) :: ("message", Some (JStr message))
  :: gateway_fields response.

Definition gateway_not_found (gatewayId : string) : exn :=
  Error ("Gateway '" ++ gatewayId ++ "' not found").

Definition auth_fields_required : exn :=
  Error "auth_config.client_id and auth_config.discovery_url are required for authenticated gateways".

Definition authorizer_types : list string := ["CUSTOM_JWT"; "AWS_IAM"; "NONE"].

Section Gateways.

(** The control plane and [JSON.stringify]. *)
Variable send : service.
Variable JSON_stringify : json -> string.

Definition client_send (cmd : command) : io obj :=
  fun h => (send h cmd, cmd :: h).

(** services/gateways/gateway.service.ts *)

Definition getGateway (gatewayId : string) : io obj :=
  try client_send (GetGatewayCommand gatewayId)
  catch (fun error =>
    if exn_name error =? "ResourceNotFoundException"
    then throw (gateway_not_found gatewayId)
    else throw error).

Definition createGatewayWithAuth (gatewayName roleArn : string)
    (authConfig : value) (description : option string) : io obj :=
  if negb (truthy (opt_get authConfig "client_id"))
     || negb (truthy (opt_get authConfig "discovery_url"))
  then throw auth_fields_required
  else client_send (CreateGatewayCommand
         (Create.mk gatewayName "MCP" "CUSTOM_JWT" roleArn description)).

Definition createGatewayWithoutAuth (gatewayName roleArn : string)
    (description : option string) : io obj :=
  client_send (CreateGatewayCommand
    (Create.mk gatewayName "MCP" "NONE" roleArn description)).

Definition invalid_response (response : obj) : exn :=
  Error ("Invalid gateway response: " ++ JSON_stringify (JObj response)).

Definition createGateway (gatewayName roleArn : string)
    (isAuthenticated : bool) (authConfig : value)
    (description : option string) : io obj :=
  try
    (response <-
       (if isAuthenticated
        then createGatewayWithAuth gatewayName roleArn authConfig description
        else createGatewayWithoutAuth gatewayName roleArn description) ;;
     let gatewayId := assoc "gatewayId" response in
     let gatewayUrl := assoc "gatewayUrl" response in
     if negb (truthy gatewayId) || negb (truthy gatewayUrl)
     then throw (invalid_response response)
     else ret response)
  catch (fun error => throw error).

Definition updateGateway (gatewayId name protocolType authorizerType
    roleArn : string) (description : option string)
    (authorizerConfiguration : value) : io obj :=
  let updateParams :=
    Update.mk gatewayId name protocolType authorizerType roleArn None None in
  let updateParams :=
    match description with
    | Some _ =>
        Update.mk (Update.gatewayIdentifier updateParams)
          (Update.name updateParams) (Update.protocolType updateParams)
          (Update.authorizerType updateParams) (Update.roleArn updateParams)
          description (Update.authorizerConfiguration updateParams)
    | None => updateParams
    end in
  let updateParams :=
    match authorizerConfiguration with
    | Some _ =>
        Update.mk (Update.gatewayIdentifier updateParams)
          (Update.name updateParams) (Update.protocolType updateParams)
          (Update.authorizerType updateParams) (Update.roleArn updateParams)
          (Update.description updateParams) authorizerConfiguration
    | None => updateParams
    end in
  try client_send (UpdateGatewayCommand updateParams)
  catch (fun error =>
    if exn_name error =? "ResourceNotFoundException"
    then throw (gateway_not_found gatewayId)
    else throw error).

Definition deleteGateway (gatewayId : string) : io unit :=
  try (_ <- client_send (DeleteGatewayCommand gatewayId) ;; ret tt)
  catch (fun error => throw error).

End Gateways.

(** What the framework sends for a gateway route. *)
Definition route (success : Z) (handler : io reply) (h : history)
  : http_response * history :=
  let (r, h') := handler h in (nest_respond success r, h').

End Gateway.

(** The gateway methods of the controller, api/app.controller.ts.

    A method is run on the body of a request after the global
    [ValidationPipe] of main.ts has accepted that body against the DTO
    class of the method; a body that the pipe refuses never reaches the
    method.  The definitions below are the methods; what the pipe accepts
    is a condition on the request where a property depends on it
    ([Cognito.accepted] for the settings of an authenticated gateway). *)

Module GatewayRoutes.

Import Gateway.
Local Open Scope gateway_scope.

Definition role_not_configured : exn :=
  BadRequestException "GATEWAY_ROLE_ARN environment variable is not configured".

Definition missing_auth_config : exn :=
  BadRequestException
    "Missing required auth_config fields: user_pool_id, client_id, discovery_url".

Definition bad_authorizer_type : exn :=
  BadRequestException
    "authorizer_type must be one of: CUSTOM_JWT, AWS_IAM, NONE".

Definition bad_protocol_type : exn :=
  BadRequestException "protocol_type must be MCP".

(** [request.auth_config?.field] *)
Definition cognito_field (f : Cognito.dto -> option string)
    (c : option Cognito.dto) : option string :=
  match c with
  | Some c => f c
  | None => None
  end.

(** [list.includes(x)] on strings. *)
Definition includes_string (x : string) (l : list string) : bool :=
  existsb (String.eqb x) l.

Section Routes.

Variable send : service.
Variable JSON_stringify : json -> string.
Variable GATEWAY_ROLE_ARN : option string.

Definition not_found_or_500 {A : Type} (error : exn) : io A :=
  if includes "not found" (exn_message error)
  then throw (HttpException (PayloadText (exn_message error)) NOT_FOUND)
  else throw (internal_server_error error).

Definition getGateway (gatewayId : string) : io reply :=
  try
    (response <- Gateway.getGateway send gatewayId ;;
     ret (gateway_reply
            ("Gateway '" ++ tpl (string_field "name" response)
             ++ "' retrieved successfully") response))
  catch not_found_or_500.

Definition createGateway (request : CreateRequest.dto) : io reply :=
  try
    (roleArn <-
       (if negb (truthy_string GATEWAY_ROLE_ARN) then throw role_not_configured
        else ret (tpl GATEWAY_ROLE_ARN)) ;;
     (* Validate auth_config has required fields *)
     let auth_config := CreateRequest.auth_config request in
     _ <-
       (if negb (truthy_string (cognito_field Cognito.user_pool_id auth_config))
           || negb (truthy_string (cognito_field Cognito.client_id auth_config))
           || negb (truthy_string
                      (cognito_field Cognito.discovery_url auth_config))
        then throw missing_auth_config
        else ret tt) ;;
     let authConfig :=
       JObj [("client_id",
              JStr (tpl (cognito_field Cognito.client_id auth_config)));
             ("discovery_url",
              JStr (tpl (cognito_field Cognito.discovery_url auth_config)))] in
     gatewayInfo <-
       Gateway.createGateway send JSON_stringify
         (CreateRequest.gateway_name request) roleArn true (Some authConfig)
         (CreateRequest.description request) ;;
     ret (gateway_reply
            ("Gateway '" ++ CreateRequest.gateway_name request
             ++ "' successfully created") gatewayInfo))
  catch (fun error => throw (internal_server_error error)).

Definition createGatewayNoAuth (request : CreateNoAuthRequest.dto)
  : io reply :=
  try
    (roleArn <-
       (if negb (truthy_string GATEWAY_ROLE_ARN) then throw role_not_configured
        else ret (tpl GATEWAY_ROLE_ARN)) ;;
     gatewayInfo <-
       Gateway.createGateway send JSON_stringify
         (CreateNoAuthRequest.gateway_name request) roleArn false None
         (CreateNoAuthRequest.description request) ;;
     ret (gateway_reply
            ("Gateway '" ++ CreateNoAuthRequest.gateway_name request
             ++ "' successfully created without authentication") gatewayInfo))
  catch (fun error => throw (internal_server_error error)).

Definition updateGateway (gatewayId : string) (request : UpdateRequest.dto)
  : io reply :=
  try
    (_ <-
       (if negb (includes_string (UpdateRequest.authorizer_type request)
                   authorizer_types)
        then throw bad_authorizer_type else ret tt) ;;
     _ <-
       (if negb (UpdateRequest.protocol_type request =? "MCP")
        then throw bad_protocol_type else ret tt) ;;
     response <-
       Gateway.updateGateway send gatewayId (UpdateRequest.name request)
         (UpdateRequest.protocol_type request)
         (UpdateRequest.authorizer_type request)
         (UpdateRequest.role_arn request)
         (UpdateRequest.description request) None ;;
     ret (gateway_reply
            ("Gateway '" ++ UpdateRequest.name request
             ++ "' successfully updated") response))
  catch (fun error =>
    if instanceof_BadRequestException error then throw error
    else not_found_or_500 error).

Definition deleteGateway (gatewayId : string) : io reply :=
  try
    (_ <- Gateway.deleteGateway send gatewayId ;;
     ret [("gateway_id", Some (JStr gatewayId));
          ("status", Some (JStr "DELETING"))])
  catch (fun error => throw (internal_server_error error)).

End Routes.

End GatewayRoutes.

(** ** services/openapi-generator/openapi-generator.service.ts *)

Module OpenApiGenerator.

(** [s.split(sep)[0]] for a separator that is not empty: what comes
    before the first occurrence of [sep], or all of [s]. *)
Fixpoint before_first (sep s : string) : string :=
  if prefix sep s then EmptyString
  else match s with
       | EmptyString => EmptyString
       | String c rest => String c (before_first sep rest)
       end.

(** [Object.entries(v)] for an object or an array, the properties taken
    in the order JavaScript enumerates them. *)
Fixpoint index_entries (i : nat) (l : list json) : obj :=
  match l with
  | [] => []
  | x :: rest => (decimal (Z.of_nat i), x) :: index_entries (S i) rest
  end.

Definition entries (v : json) : obj :=
  match v with
  | JObj fs => fs
  | JArr l => index_entries 0 l
  | _ => []
  end.

(** The number of properties that [Object.entries] finds in an object or
    an array, and none for anything else. *)
Definition entry_count (v : value) : nat :=
  match v with
  | Some (JObj fs) => List.length fs
  | Some (JArr l) => List.length l
  | _ => 0%nat
  end.

(** [v && typeof v === 'object'] *)
Definition is_object (v : value) : bool :=
  match v with
  | Some (JObj _) | Some (JArr _) => true
  | _ => false
  end.

Definition parameter (place : string) (entry : string * json) : json :=
  let (paramName, paramSchema) := entry in
  JObj [("name", JStr paramName);
        ("in", JStr place);
        ("required", JBool true);
        ("schema",
         if truthy (Some paramSchema) then paramSchema
         else JObj [("type", JStr "string")])].

Definition parameters_of (place : string) (v : value) : list json :=
  match v with
  | Some j => if is_object v then map (parameter place) (entries j) else []
  | None => []
  end.

Definition responses : json :=
  JObj [("200",
         JObj [("description", JStr "Successful response");
               ("content",
                JObj [("application/json",
                       JObj [("schema", JObj [("type", JStr "object")])])])]);
        ("400", JObj [("description", JStr "Bad request")]);
        ("401", JObj [("description", JStr "Unauthorized")]);
        ("500", JObj [("description", JStr "Internal server error")])].

Section Generator.

(** [new URL(url).pathname], or [None] when the URL does not parse, and
    [String.prototype.toLowerCase]. *)
Variable URL_pathname : string -> option string.
Variable toLowerCase : string -> string.

Definition path_of (url : string) : string :=
  match URL_pathname url with
  | Some pathname => or_default (Some pathname) "/"
  | None => "/"
  end.

Definition generateOpenApiSpec (toolName method url : string)
    (queryParams headers bodySchema : value) (description : option string)
  : json :=
  (* Parse URL to extract path *)
  let path := path_of url in
  (* Build parameters array *)
  let parameters :=
    (parameters_of "query" queryParams ++ parameters_of "header" headers)%list in
  (* Build request body if schema provided *)
  let requestBody : obj :=
    match bodySchema with
    | Some schema =>
        if is_object bodySchema
        then [("required", JBool true);
              ("content",
               JObj [("application/json", JObj [("schema", schema)])])]
        else []
    | None => []
    end in
  (* Build the operation object *)
  let operation : obj :=
    [("summary", JStr (or_default description (method ++ " " ++ path)));
     ("description",
      JStr (or_default description
              ("Call " ++ method ++ " endpoint at " ++ url)));
     ("parameters", JArr parameters);
     ("responses", responses)] in
  let operation : obj :=
    if (0 <? List.length requestBody)%nat
    then set_field "requestBody" (JObj requestBody) operation
    else operation in
  (* Build the OpenAPI spec *)
  JObj [("openapi", JStr "3.1.0");
        ("info",
         JObj [("title", JStr toolName);
               ("description",
                JStr (or_default description ("OpenAPI spec for " ++ toolName)));
               ("version", JStr "1.0.0")]);
        ("servers",
         JArr [JObj [("url", JStr (before_first "/api" url));
                     ("description", JStr "Default server")]]);
        ("paths",
         JObj [(path, JObj [(toLowerCase method, JObj operation)])])].

End Generator.

End OpenApiGenerator.

(** ** Reference services

    Concrete remote services on which the functions are run: a control
    plane holding a fixed set of targets, and S3 accounts with and without
    the bucket. *)

Definition resource_not_found : exn :=
  ServiceException "ResourceNotFoundException" None (Some 404%Z)
    "The requested target does not exist".

Definition conflict : exn :=
  ServiceException "ConflictException" None (Some 409%Z)
    "A target with this name already exists".

Fixpoint lookup_target (g t : string) (db : list (string * string * obj))
  : option obj :=
  match db with
  | [] => None
  | (g', t', r) :: rest =>
      if (g' =? g) && (t' =? t) then Some r else lookup_target g t rest
  end.

Definition name_taken (g n : string) (db : list (string * string * obj))
  : bool :=
  existsb (fun '(g', _, r) =>
             (g' =? g) &&
             match string_field "name" r with
             | Some n' => n' =? n
             | None => false
             end) db.

Definition control_plane (db : list (string * string * obj)) : service :=
  fun _ c =>
    match c with
    | GetGatewayTargetCommand g t =>
        match lookup_target g t db with
        | Some r => inr r
        | None => inl resource_not_found
        end
    | UpdateGatewayTargetCommand p =>
        match lookup_target (Update.gatewayIdentifier p) (Update.targetId p) db with
        | Some _ =>
            inr [("targetId", JStr (Update.targetId p));
                 ("name", JStr (Update.name p));
                 ("status", JStr "UPDATING")]
        | None => inl resource_not_found
        end
    | CreateGatewayTargetCommand p =>
        if name_taken (CreateTarget.gatewayIdentifier p) (CreateTarget.name p) db
        then inl conflict
        else inr [("targetId", JStr "T-NEW");
                  ("name", JStr (CreateTarget.name p));
                  ("status", JStr "CREATING")]
    | CreateApiKeyCredentialProviderCommand n _ =>
        inr [("credentialProviderArn", JStr ("arn:provider/" ++ tpl n))]
    | AxiosGet _ => inr [("data", JObj [("openapi", JStr "3.1.0")])]
    | _ => inr []
    end.

(** An account in which the bucket does not exist yet. *)
Definition account_without_bucket : service :=
  fun _ c =>
    match c with
    | HeadBucketCommand _ =>
        inl (ServiceException "NotFound" None (Some 404%Z) "Not Found")
    | _ => inr []
    end.

(** An account in which the bucket appears between the check and the
    creation. *)
Definition account_with_racing_bucket : service :=
  fun _ c =>
    match c with
    | HeadBucketCommand _ =>
        inl (ServiceException "NotFound" (Some "NoSuchBucket") None "Not Found")
    | CreateBucketCommand _ _ =>
        inl (ServiceException "BucketAlreadyOwnedByYou"
               (Some "BucketAlreadyOwnedByYou") (Some 409%Z) "Already yours")
    | _ => inr []
    end.

(** The stored target of the scenario of the specification: its spec is at
    [s3://b/old.json] and it has one credential entry. *)
Definition old_target : obj :=
  [("targetId", JStr "T1");
   ("name", JStr "todos");
   ("description", JStr "old description");
   ("targetConfiguration", target_config "s3://b/old.json");
   ("credentialProviderConfigurations",
    JArr [api_key_credential_config "api_key" (JStr "arn:p1") "HEADER"])].

Definition one_target : list (string * string * obj) := [("G1", "T1", old_target)].

Definition fixed_clock : history -> Z := fun _ => 1700000000999%Z.

Definition fixed_random : history -> nat -> list Byte.byte :=
  fun _ n => repeat Byte.xab n.

Definition no_stringify : json -> string := fun _ => "{}".

Definition fixed_generator :
  string -> string -> string -> value -> value -> value -> option string ->
  json :=
  fun _ _ _ _ _ _ _ => JObj [("openapi", JStr "3.1.0")].

(** The requests on the way to a second target named [todos] on [G1]. *)
Definition todos_spec_uri : string :=
  "s3://specs/gateways/G1/tools/todos/1700000000-abababababababab.json".

Definition todos_provider : command :=
  CreateApiKeyCredentialProviderCommand (Some "todos-placeholder-apikey")
    (Some "placeholder-not-used").

Definition todos_again : CreateTarget.params :=
  CreateTarget.mk "G1" "todos" "OpenAPI target: todos"
    (target_config todos_spec_uri)
    (JArr [api_key_credential_config "X-Placeholder-Auth"
             (JStr "arn:provider/todos-placeholder-apikey") "HEADER"]).

Definition todos_again_history : history :=
  [todos_provider;
   PutObjectCommand "specs"
     "gateways/G1/tools/todos/1700000000-abababababababab.json" "{}"
     "application/json";
   HeadBucketCommand "specs"].

(** An exception of another kind whose message speaks of something not
    found. *)
Definition role_missing : exn :=
  ServiceException "ValidationException" None (Some 400%Z)
    "Execution role not found for this account".

Definition access_denied : exn :=
  ServiceException "AccessDenied" (Some "AccessDenied") (Some 403%Z)
    "Access Denied".

(** A control plane that holds the gateways [known]. *)
Definition gateway_plane (known : list string) : Gateway.service :=
  fun _ c =>
    match c with
    | Gateway.GetGatewayCommand g =>
        if existsb (String.eqb g) known
        then inr [("gatewayId", JStr g); ("name", JStr "main");
                  ("gatewayUrl", JStr ("https://" ++ g ++ ".gateway.example"))]
        else inl resource_not_found
    | Gateway.CreateGatewayCommand p =>
        inr [("gatewayId", JStr "GW-NEW");
             ("gatewayUrl", JStr "https://gw-new.gateway.example");
             ("name", JStr (Gateway.Create.name p));
             ("authorizerType", JStr (Gateway.Create.authorizerType p))]
    | Gateway.UpdateGatewayCommand p =>
        if existsb (String.eqb (Gateway.Update.gatewayIdentifier p)) known
        then inr [("gatewayId", JStr (Gateway.Update.gatewayIdentifier p));
                  ("name", JStr (Gateway.Update.name p))]
        else inl resource_not_found
    | Gateway.DeleteGatewayCommand g =>
        if existsb (String.eqb g) known then inr []
        else inl resource_not_found
    end.

(** A control plane whose answer to a creation lacks the gateway URL. *)
Definition gateway_plane_without_url : Gateway.service :=
  fun _ _ => inr [("gatewayId", JStr "GW-NEW")].

(** A service that refuses everything with a given exception. *)
Definition refusing (e : exn) : service := fun _ _ => inl e.

(** A control plane that lists two targets. *)
Definition listing_plane : service :=
  fun _ c =>
    match c with
    | ListGatewayTargetsCommand _ | ListGatewaysCommand _ =>
        inr [("items",
              JArr [JObj [("targetId", JStr "T1"); ("gatewayId", JStr "G1");
                          ("name", JStr "todos")];
                    JObj [("targetId", JStr "T2"); ("gatewayId", JStr "G2");
                          ("name", JStr "notes")]]);
             ("nextToken", JStr "page-2")]
    | _ => inr []
    end.

(** An account whose bucket may not be inspected. *)
Definition account_with_forbidden_bucket : service :=
  fun _ c =>
    match c with
    | HeadBucketCommand _ => inl access_denied
    | _ => inr []
    end.


(** An HTTP client that downloads a document that is no specification. *)
Definition downloads_no_spec : service :=
  fun _ c =>
    match c with
    | AxiosGet _ => inr [("data", JObj [("title", JStr "not a spec")])]
    | _ => inr []
    end.

(** A URL parser that finds the path [/todos], and a lower-casing of the
    method names in use. *)
Definition todos_pathname : string -> option string := fun _ => Some "/todos".

Definition lower_method (m : string) : string :=
  if m =? "GET" then "get" else if m =? "POST" then "post" else m.

(** The range of [maxResults].  [outside_1_1000] is what the two
    comparisons of the code test: below 1 or above 1000.  [NaN] is not
    within the range, and it is not below 1 or above 1000 either, since it
    compares with nothing. *)
Definition within_1_1000 (m : number) : Prop :=
  match m with
  | Finite q => (1 <= q /\ q <= 1000)%Q
  | _ => False
  end.

Definition outside_1_1000 (m : number) : Prop :=
  match m with
  | Finite q => (q < 1 \/ 1000 < q)%Q
  | Infinity | NegInfinity => True
  | NaN => False
  end.

(** * Properties *)

(** ** Reading a run *)

Definition result_of {A : Type} (r : (exn + A) * history) : exn + A := fst r.
Definition history_of {A : Type} (r : (exn + A) * history) : history := snd r.

(** The last request of a history is not the creation of a target. *)
Definition not_create_head (h : history) : Prop :=
  match h with
  | CreateGatewayTargetCommand _ :: _ => False
  | _ => True
  end.

Lemma truthy_not_both (v : value) : negb (truthy v) && truthy v = false.
Proof. destruct (truthy v); reflexivity. Qed.

Ltac unfold_io :=
  unfold bind, try_catch, ret, throw, lift, client_send in *.

(** Case analysis over a run: every test and every answer of the remote
    service [send] that the run depends on is split, and the run is
    reduced. *)
Ltac crunch send :=
  repeat (cbv beta iota zeta delta [fst snd negb andb orb];
          change (truthy None) with false;
          match goal with
          | H : truthy ?v = _ |- context [truthy ?v] => rewrite H
          | H : send ?h ?c = _ |- context [send ?h ?c] => rewrite H
          | H : splice_s3_uri ?u ?c = _ |- context [splice_s3_uri ?u ?c] =>
              rewrite H
          | |- context [if truthy ?v then _ else _] =>
              destruct (truthy v) eqn:?
          | |- context [match splice_s3_uri ?u ?c with _ => _ end] =>
              destruct (splice_s3_uri u c) eqn:?
          | |- context [match send ?h ?c with _ => _ end] =>
              destruct (send h c) eqn:?
          | |- context [if exn_name ?e =? ?s then _ else _] =>
              destruct (exn_name e =? s) eqn:?
          | |- context [match ?x with Some _ => _ | None => _ end] =>
              is_var x; destruct x
          end).

Ltac run_update send :=
  unfold updateGatewayTarget, getGatewayTarget, history_of, result_of;
  unfold_io; crunch send.

Lemma assoc_set_field_same (k : string) (x : json) (fs : obj) :
  assoc k (set_field k x fs) = Some x.
Proof.
  induction fs as [|[k' v] rest IH]; cbn.
  - rewrite String.eqb_refl. reflexivity.
  - destruct (k' =? k) eqn:E; cbn; rewrite E; [reflexivity | exact IH].
Qed.

Lemma get_object (c : json) (k : string) (v : json) :
  get c k = Some v -> exists fs, c = JObj fs /\ assoc k fs = Some v.
Proof. destruct c; cbn; try discriminate. intros H. eauto. Qed.

Lemma opt_get_object (c : value) (k : string) (v : json) :
  opt_get c k = Some v -> exists fs, c = Some (JObj fs) /\ assoc k fs = Some v.
Proof.
  destruct c as [[]|]; cbn; try discriminate. intros H. eauto.
Qed.

(** Assigning the URI under an [s3] object succeeds, and the URI is then
    read back along the same path. *)
Lemma splice_on_s3_object (c u : json) (f3 : obj) :
  opt_get (opt_get (get c "mcp") "openApiSchema") "s3" = Some (JObj f3) ->
  exists c',
    splice_s3_uri (Some u) (Some c) = inr (Some c')
    /\ s3_uri_of (Some c') = Some u.
Proof.
  intros H.
  destruct (opt_get_object _ _ _ H) as (f2 & H2 & Hs3).
  destruct (opt_get_object _ _ _ H2) as (f1 & H1 & Hschema).
  destruct (get_object _ _ _ H1) as (f0 & -> & Hmcp).
  unfold splice_s3_uri. rewrite H. cbn [truthy].
  cbn [assign s3_uri_path]. rewrite Hmcp, Hschema, Hs3.
  eexists. split; [reflexivity|].
  unfold s3_uri_of. cbn [opt_get get].
  rewrite !assoc_set_field_same. cbn [opt_get get].
  rewrite !assoc_set_field_same. cbn [opt_get get].
  rewrite !assoc_set_field_same. cbn [opt_get get].
  apply assoc_set_field_same.
Qed.

(** The URI read from a configuration whose [s3] member is an object. *)
Lemma s3_uri_under_object (c : json) (f3 : obj) :
  opt_get (opt_get (get c "mcp") "openApiSchema") "s3" = Some (JObj f3) ->
  truthy (Some c) = true /\ s3_uri_of (Some c) = assoc "uri" f3.
Proof.
  intros H.
  destruct (opt_get_object _ _ _ H) as (f2 & H2 & _).
  destruct (opt_get_object _ _ _ H2) as (f1 & H1 & _).
  destruct (get_object _ _ _ H1) as (f0 & -> & _).
  split; [reflexivity|].
  unfold s3_uri_of. cbn [opt_get] in *. rewrite H. reflexivity.
Qed.

(** Without a truthy [s3] member there is no assignment: the configuration
    is left as it is. *)
Lemma splice_without_s3 (u : value) (c : json) :
  truthy (opt_get (opt_get (get c "mcp") "openApiSchema") "s3") = false ->
  splice_s3_uri u (Some c) = inr (Some c).
Proof.
  intros H. unfold splice_s3_uri. rewrite H. destruct u; reflexivity.
Qed.

(** The assignment raises only under an [s3] member that is truthy and not
    an object. *)
Lemma splice_raises (u : value) (c : json) (e : exn) :
  splice_s3_uri u (Some c) = inl e ->
  exists j,
    opt_get (opt_get (get c "mcp") "openApiSchema") "s3" = Some j
    /\ truthy (Some j) = true
    /\ forall fs, j <> JObj fs.
Proof.
  destruct u as [u|]; [|discriminate].
  intros H.
  destruct (opt_get (opt_get (get c "mcp") "openApiSchema") "s3")
    as [j|] eqn:Hs3.
  - exists j. split; [reflexivity|].
    destruct (truthy (Some j)) eqn:Hj.
    + split; [reflexivity|]. intros fs ->.
      destruct (splice_on_s3_object c u fs Hs3) as (c' & Hok & _).
      rewrite Hok in H. discriminate H.
    + unfold splice_s3_uri in H. rewrite Hs3, Hj in H. discriminate H.
  - unfold splice_s3_uri in H. rewrite Hs3 in H. discriminate H.
Qed.

(** The credential configurations of a record are a sequence, or absent;
    the test [if (existingCreds)] then loses nothing. *)
Lemma truthy_sequence_or_absent (v : value) :
  (v = None \/ exists l, v = Some (JArr l)) ->
  (if truthy v then v else None) = v.
Proof. intros [->|[l ->]]; reflexivity. Qed.

Section UpdateProperties.

Variable send : service.
Variables gatewayId targetId targetName : string.

(** What an issued update call carries. *)
Lemma issued_credentials
    (h : history) (cfg : value) (desc : option string) (creds : value)
    (p : Update.params) (h' : history) :
  history_of (updateGatewayTarget send gatewayId targetId targetName
                cfg desc creds h)
  = UpdateGatewayTargetCommand p :: h' ->
  Update.credentialProviderConfigurations p =
  match creds with
  | Some _ => creds
  | None =>
      match send h (GetGatewayTargetCommand gatewayId targetId) with
      | inr rec =>
          if truthy (assoc "credentialProviderConfigurations" rec)
          then assoc "credentialProviderConfigurations" rec
          else None
      | inl _ => None
      end
  end.
Proof.
  run_update send.
  all: intros H; inversion H; subst; reflexivity.
Qed.

Lemma issued_description
    (h : history) (cfg : value) (desc : option string) (creds : value)
    (p : Update.params) (h' : history) :
  history_of (updateGatewayTarget send gatewayId targetId targetName
                cfg desc creds h)
  = UpdateGatewayTargetCommand p :: h' ->
  Update.description p = desc.
Proof.
  run_update send.
  all: intros H; inversion H; subst; reflexivity.
Qed.

Lemma issued_after_read
    (h : history) (rec : obj) (desc : option string) (creds : value) :
  send h (GetGatewayTargetCommand gatewayId targetId) = inr rec ->
  exists p,
    history_of (updateGatewayTarget send gatewayId targetId targetName
                  None desc creds h)
    = UpdateGatewayTargetCommand p
        :: GetGatewayTargetCommand gatewayId targetId :: h
    /\ Update.targetConfiguration p = assoc "targetConfiguration" rec.
Proof.
  intros Hget.
  pose proof (truthy_not_both
                (s3_uri_of (assoc "targetConfiguration" rec))) as Hnb.
  run_update send.
  all: try match goal with
           | H : truthy (s3_uri_of _) = _ |- _ =>
               rewrite H in Hnb; discriminate Hnb
           end.
  all: eexists; split; reflexivity.
Qed.

(** A run reads the current record and then either issues the update
    call or stops on an exception without writing. *)
Lemma update_run_shape
    (h : history) (cfg : value) (desc : option string) (creds : value) :
  let r := updateGatewayTarget send gatewayId targetId targetName
             cfg desc creds h in
  (exists p,
     history_of r
     = UpdateGatewayTargetCommand p
         :: GetGatewayTargetCommand gatewayId targetId :: h)
  \/
  (history_of r = GetGatewayTargetCommand gatewayId targetId :: h
   /\ exists e, result_of r = inl e).
Proof.
  cbv zeta. run_update send.
  all: first [left; eexists; reflexivity
             |right; split; [reflexivity|eexists; reflexivity]].
Qed.

(** After a successful read the update call is issued, unless the new
    configuration has an [s3] member that is truthy and not an object. *)
Lemma update_issued
    (h : history) (rec : obj) (cfg : value) (desc : option string)
    (creds : value) :
  send h (GetGatewayTargetCommand gatewayId targetId) = inr rec ->
  (forall j,
     opt_get (opt_get (opt_get cfg "mcp") "openApiSchema") "s3" = Some j ->
     truthy (Some j) = true -> exists fs, j = JObj fs) ->
  exists p,
    history_of (updateGatewayTarget send gatewayId targetId targetName
                  cfg desc creds h)
    = UpdateGatewayTargetCommand p
        :: GetGatewayTargetCommand gatewayId targetId :: h.
Proof.
  intros Hget Hok.
  run_update send.
  all: try match goal with
           | H : splice_s3_uri _ ?c = inl _ |- _ =>
               destruct c as [c'|]; [|discriminate H];
               apply splice_raises in H;
               destruct H as (j & Hj & Ht & Hn);
               replace (get c' "mcp") with (opt_get (Some c') "mcp") in Hj
                 by (destruct c'; reflexivity);
               destruct (Hok j Hj Ht) as (fs & ->);
               destruct (Hn fs eq_refl)
           end.
  all: eexists; reflexivity.
Qed.

(** C1 (amended): when the read of the current record succeeds and the
    new configuration has an [mcp.openApiSchema.s3] object whose [uri] is
    empty or absent while the record has a non-empty spec URI, the update
    call is issued and the URI of its payload is the URI of the current
    record; a new configuration without an [mcp.openApiSchema.s3] member
    (absent, null or otherwise falsy) is submitted as given. *)
Theorem C1_uri_spliced_into_s3_object
    (h : history) (rec : obj) (c : json)
    (desc : option string) (creds : value) :
  send h (GetGatewayTargetCommand gatewayId targetId) = inr rec ->
  (forall (u : json) (f3 : obj),
     s3_uri_of (assoc "targetConfiguration" rec) = Some u ->
     truthy (Some u) = true ->
     opt_get (opt_get (get c "mcp") "openApiSchema") "s3" = Some (JObj f3) ->
     truthy (assoc "uri" f3) = false ->
     exists p,
       history_of (updateGatewayTarget send gatewayId targetId targetName
                     (Some c) desc creds h)
       = UpdateGatewayTargetCommand p
           :: GetGatewayTargetCommand gatewayId targetId :: h
       /\ s3_uri_of (Update.targetConfiguration p)
          = s3_uri_of (assoc "targetConfiguration" rec))
  /\
  (truthy (Some c) = true ->
   truthy (opt_get (opt_get (get c "mcp") "openApiSchema") "s3") = false ->
   exists p,
     history_of (updateGatewayTarget send gatewayId targetId targetName
                   (Some c) desc creds h)
     = UpdateGatewayTargetCommand p
         :: GetGatewayTargetCommand gatewayId targetId :: h
     /\ Update.targetConfiguration p = Some c).
Proof.
  intros Hget. split.
  - intros u f3 Hold Hu Hs3 Hnew.
    destruct (s3_uri_under_object _ _ Hs3) as [Hc Huri].
    destruct (splice_on_s3_object c u f3 Hs3) as (c' & Hsplice & Hread).
    rewrite <- Huri in Hnew. rewrite <- Hold in Hu, Hsplice, Hread.
    run_update send.
    all: eexists; split; [reflexivity|exact Hread].
  - intros Hc Hs3.
    pose proof (splice_without_s3
                  (s3_uri_of (assoc "targetConfiguration" rec)) c Hs3)
      as Hsplice.
    run_update send.
    all: eexists; split; reflexivity.
Qed.

(** C2 (amended): when the read of the current record fails (as it does
    for a nonexistent pair), the failure is tolerated.  Without a new
    configuration the call fails with the error that the configuration is
    required, and nothing is written.  With a new configuration the update
    call is issued with the caller's values alone, and a
    [ResourceNotFoundException] answered to it becomes the error that the
    target was not found. *)
Theorem C2_failed_read_is_tolerated
    (h : history) (e : exn) (cfg : value) (desc : option string)
    (creds : value) :
  send h (GetGatewayTargetCommand gatewayId targetId) = inl e ->
  (truthy cfg = false ->
   updateGatewayTarget send gatewayId targetId targetName cfg desc creds h
   = (inl config_required, GetGatewayTargetCommand gatewayId targetId :: h))
  /\
  (truthy cfg = true ->
   let p := Update.mk gatewayId targetId targetName cfg creds desc in
   let r := updateGatewayTarget send gatewayId targetId targetName
              cfg desc creds h in
   history_of r
   = UpdateGatewayTargetCommand p
       :: GetGatewayTargetCommand gatewayId targetId :: h
   /\
   (forall e',
      send (GetGatewayTargetCommand gatewayId targetId :: h)
        (UpdateGatewayTargetCommand p) = inl e' ->
      exn_name e' = "ResourceNotFoundException" ->
      result_of r = inl (target_not_found targetId gatewayId))).
Proof.
  intros Hget. split; intros Hcfg.
  - run_update send; reflexivity.
  - cbv zeta. split.
    + run_update send; reflexivity.
    + intros e' Hwrite Hname. apply String.eqb_eq in Hname.
      unfold updateGatewayTarget, getGatewayTarget, result_of. unfold_io.
      rewrite Hget.
      destruct (exn_name e =? "ResourceNotFoundException");
        cbv beta iota zeta delta [fst snd negb andb]; rewrite Hcfg;
        cbv beta iota zeta delta [fst snd negb andb];
        destruct creds, desc; cbv beta iota zeta delta [fst snd];
        unfold Update.with_description,
          Update.with_credentialProviderConfigurations;
        cbn [Update.gatewayIdentifier Update.targetId Update.name
             Update.targetConfiguration Update.description
             Update.credentialProviderConfigurations];
        rewrite Hwrite, Hname; reflexivity.
Qed.

(** C3: credential configurations that the caller provided (an empty
    sequence included) are carried verbatim by every update call that
    [updateGatewayTarget] issues.  When the current record is read, and the
    [mcp.openApiSchema.s3] member of the new configuration, if any, is an
    object, the update call is issued: with the caller's credential
    configurations when provided, and with the record's (a sequence, or
    absent as on the record) when the caller provided none. *)
Theorem C3_credentials_verbatim_or_current
    (h : history) (cfg : value) (desc : option string) :
  (forall (v : json) (p : Update.params) (h' : history),
     history_of (updateGatewayTarget send gatewayId targetId targetName
                   cfg desc (Some v) h)
     = UpdateGatewayTargetCommand p :: h' ->
     Update.credentialProviderConfigurations p = Some v)
  /\
  (forall rec : obj,
     send h (GetGatewayTargetCommand gatewayId targetId) = inr rec ->
     (forall j,
        opt_get (opt_get (opt_get cfg "mcp") "openApiSchema") "s3" = Some j ->
        truthy (Some j) = true -> exists fs, j = JObj fs) ->
     (forall v : json,
        exists p,
          history_of (updateGatewayTarget send gatewayId targetId targetName
                        cfg desc (Some v) h)
          = UpdateGatewayTargetCommand p
              :: GetGatewayTargetCommand gatewayId targetId :: h
          /\ Update.credentialProviderConfigurations p = Some v)
     /\
     ((assoc "credentialProviderConfigurations" rec = None \/
       exists l,
         assoc "credentialProviderConfigurations" rec = Some (JArr l)) ->
      exists p,
        history_of (updateGatewayTarget send gatewayId targetId targetName
                      cfg desc None h)
        = UpdateGatewayTargetCommand p
            :: GetGatewayTargetCommand gatewayId targetId :: h
        /\ Update.credentialProviderConfigurations p
           = assoc "credentialProviderConfigurations" rec)).
Proof.
  split.
  - intros v p h' H. apply (issued_credentials _ _ _ _ _ _ H).
  - intros rec Hget Hok. split.
    + intros v.
      destruct (update_issued h rec cfg desc (Some v) Hget Hok) as (p & Hp).
      exists p. split; [exact Hp|].
      apply (issued_credentials _ _ _ _ _ _ Hp).
    + intros Hseq.
      destruct (update_issued h rec cfg desc None Hget Hok) as (p & Hp).
      exists p. split; [exact Hp|].
      rewrite (issued_credentials _ _ _ _ _ _ Hp), Hget.
      apply truthy_sequence_or_absent, Hseq.
Qed.

(** C4: when the current record is read and the caller omits the new
    configuration, the update call is issued and carries the record's
    [targetConfiguration] in full, hence its spec URI. *)
Theorem C4_omitted_configuration_uses_current
    (h : history) (rec : obj) (desc : option string) (creds : value) :
  send h (GetGatewayTargetCommand gatewayId targetId) = inr rec ->
  exists p,
    history_of (updateGatewayTarget send gatewayId targetId targetName
                  None desc creds h)
    = UpdateGatewayTargetCommand p
        :: GetGatewayTargetCommand gatewayId targetId :: h
    /\ Update.targetConfiguration p = assoc "targetConfiguration" rec
    /\ s3_uri_of (Update.targetConfiguration p)
       = s3_uri_of (assoc "targetConfiguration" rec).
Proof.
  intros Hget.
  destruct (issued_after_read h rec desc creds Hget) as (p & Hp & Hcfg).
  exists p. rewrite Hcfg. split; [exact Hp|split; reflexivity].
Qed.

(** C5 (amended): the description is not reconciled.  Every update call
    carries exactly the caller's description, so none when the caller
    omits it; the fall back to the current record is for the target
    configuration and the credential configurations. *)
Theorem C5_description_is_not_carried_over
    (h : history) (desc : option string) :
  (forall (cfg creds : value) (p : Update.params) (h' : history),
     history_of (updateGatewayTarget send gatewayId targetId targetName
                   cfg desc creds h)
     = UpdateGatewayTargetCommand p :: h' ->
     Update.description p = desc)
  /\
  (forall rec : obj,
     send h (GetGatewayTargetCommand gatewayId targetId) = inr rec ->
     (assoc "credentialProviderConfigurations" rec = None \/
      exists l, assoc "credentialProviderConfigurations" rec = Some (JArr l)) ->
     exists p,
       history_of (updateGatewayTarget send gatewayId targetId targetName
                     None desc None h)
       = UpdateGatewayTargetCommand p
           :: GetGatewayTargetCommand gatewayId targetId :: h
       /\ Update.targetConfiguration p = assoc "targetConfiguration" rec
       /\ Update.credentialProviderConfigurations p
          = assoc "credentialProviderConfigurations" rec
       /\ Update.description p = desc).
Proof.
  split.
  - intros cfg creds p h' H. apply (issued_description _ _ _ _ _ _ H).
  - intros rec Hget Hseq.
    destruct (issued_after_read h rec desc None Hget) as (p & Hp & Hcfg).
    exists p. split; [exact Hp|]. split; [exact Hcfg|]. split.
    + rewrite (issued_credentials _ _ _ _ _ _ Hp), Hget.
      apply truthy_sequence_or_absent, Hseq.
    + apply (issued_description _ _ _ _ _ _ Hp).
Qed.

End UpdateProperties.

(** The scenario of the specification: the stored target has its spec at
    [s3://b/old.json] and one credential entry; the update supplies a
    configuration with an empty URI and no credential field. *)
Example scenario_empty_uri_no_credentials :
  history_of (updateGatewayTarget (control_plane one_target) "G1" "T1" "todos"
                (Some (target_config "")) None None [])
  = [UpdateGatewayTargetCommand
       (Update.mk "G1" "T1" "todos"
          (Some (target_config "s3://b/old.json"))
          (assoc "credentialProviderConfigurations" old_target)
          None);
     GetGatewayTargetCommand "G1" "T1"].
Proof. reflexivity. Qed.

(** The splice on the scenario's target, and a configuration without an
    [s3] member on the same target. *)
Lemma C1_witness :
  (exists p,
     history_of (updateGatewayTarget (control_plane one_target) "G1" "T1"
                   "todos"
                   (Some (JObj [("mcp", JObj [("openApiSchema",
                            JObj [("s3", JObj [("uri", JStr "")])])])]))
                   None None [])
     = [UpdateGatewayTargetCommand p; GetGatewayTargetCommand "G1" "T1"]
     /\ s3_uri_of (Update.targetConfiguration p)
        = s3_uri_of (assoc "targetConfiguration" old_target))
  /\
  (exists p,
     history_of (updateGatewayTarget (control_plane one_target) "G1" "T1"
                   "todos"
                   (Some (JObj [("mcp", JObj [("openApiSchema", JObj [])])]))
                   None None [])
     = [UpdateGatewayTargetCommand p; GetGatewayTargetCommand "G1" "T1"]
     /\ Update.targetConfiguration p
        = Some (JObj [("mcp", JObj [("openApiSchema", JObj [])])])).
Proof.
  split.
  - apply (proj1 (C1_uri_spliced_into_s3_object (control_plane one_target)
                    "G1" "T1" "todos" [] old_target
                    (JObj [("mcp", JObj [("openApiSchema",
                             JObj [("s3", JObj [("uri", JStr "")])])])])
                    None None eq_refl)
             (JStr "s3://b/old.json") [("uri", JStr "")]);
      reflexivity.
  - apply (proj2 (C1_uri_spliced_into_s3_object (control_plane one_target)
                    "G1" "T1" "todos" [] old_target
                    (JObj [("mcp", JObj [("openApiSchema", JObj [])])])
                    None None eq_refl));
      reflexivity.
Defined.

(** A new configuration that has no [s3] object is submitted as it is:
    the URI of the current record is not in the payload. *)
Lemma C1_counterexample :
  exists p,
    history_of (updateGatewayTarget (control_plane one_target) "G1" "T1"
                  "todos"
                  (Some (JObj [("mcp", JObj [("openApiSchema", JObj [])])]))
                  None None [])
    = [UpdateGatewayTargetCommand p; GetGatewayTargetCommand "G1" "T1"]
    /\ s3_uri_of (assoc "targetConfiguration" old_target)
       = Some (JStr "s3://b/old.json")
    /\ s3_uri_of (Update.targetConfiguration p) = None
    /\ s3_uri_of (Update.targetConfiguration p)
       <> s3_uri_of (assoc "targetConfiguration" old_target).
Proof.
  eexists. split; [reflexivity|]. cbn. repeat split. discriminate.
Qed.

(** An update that names a target the control plane does not hold. *)
Lemma C2_witness :
  updateGatewayTarget (control_plane one_target) "G1" "NOPE" "todos"
    None None None []
  = (inl config_required, [GetGatewayTargetCommand "G1" "NOPE"])
  /\
  (let p := Update.mk "G1" "NOPE" "todos"
              (Some (target_config "s3://b/new.json")) None None in
   let r := updateGatewayTarget (control_plane one_target) "G1" "NOPE" "todos"
              (Some (target_config "s3://b/new.json")) None None [] in
   history_of r
   = [UpdateGatewayTargetCommand p; GetGatewayTargetCommand "G1" "NOPE"]
   /\ result_of r = inl (target_not_found "NOPE" "G1")).
Proof.
  split.
  - apply (proj1 (C2_failed_read_is_tolerated (control_plane one_target)
                    "G1" "NOPE" "todos" [] resource_not_found
                    None None None eq_refl)).
    reflexivity.
  - destruct (proj2 (C2_failed_read_is_tolerated (control_plane one_target)
                       "G1" "NOPE" "todos" [] resource_not_found
                       (Some (target_config "s3://b/new.json")) None None
                       eq_refl) eq_refl) as [Hh Hr].
    split; [exact Hh|].
    apply (Hr resource_not_found); reflexivity.
Defined.

(** For a nonexistent pair and a new configuration the write is attempted;
    without a new configuration the error is not that the target was not
    found. *)
Lemma C2_counterexample :
  update_calls
    (history_of (updateGatewayTarget (control_plane one_target) "G1" "NOPE"
                   "todos" (Some (target_config "s3://b/new.json"))
                   None None []))
  = [Update.mk "G1" "NOPE" "todos" (Some (target_config "s3://b/new.json"))
       None None]
  /\ result_of (updateGatewayTarget (control_plane one_target) "G1" "NOPE"
                  "todos" None None None [])
     <> inl (target_not_found "NOPE" "G1").
Proof. split; [reflexivity|discriminate]. Qed.

(** With a new configuration supplied: an explicit empty sequence clears
    the credentials, an omitted one keeps the stored entry; the same with
    the configuration left out, and on a target that could not be read. *)
Lemma C3_witness :
  (exists p,
     history_of (updateGatewayTarget (control_plane one_target) "G1" "T1"
                   "todos"
                   (Some (JObj [("mcp", JObj [("openApiSchema",
                            JObj [("s3",
                              JObj [("uri", JStr "s3://b/new.json")])])])]))
                   None (Some (JArr [])) [])
     = [UpdateGatewayTargetCommand p; GetGatewayTargetCommand "G1" "T1"]
     /\ Update.credentialProviderConfigurations p = Some (JArr []))
  /\
  (exists p,
     history_of (updateGatewayTarget (control_plane one_target) "G1" "T1"
                   "todos"
                   (Some (JObj [("mcp", JObj [("openApiSchema",
                            JObj [("s3", JObj [("uri", JStr "")])])])]))
                   None None [])
     = [UpdateGatewayTargetCommand p; GetGatewayTargetCommand "G1" "T1"]
     /\ Update.credentialProviderConfigurations p
        = assoc "credentialProviderConfigurations" old_target)
  /\
  (exists p,
     history_of (updateGatewayTarget (control_plane one_target) "G1" "T1"
                   "todos" None None (Some (JArr [])) [])
     = [UpdateGatewayTargetCommand p; GetGatewayTargetCommand "G1" "T1"]
     /\ Update.credentialProviderConfigurations p = Some (JArr []))
  /\
  (exists p,
     history_of (updateGatewayTarget (control_plane one_target) "G1" "T1"
                   "todos" None None None [])
     = [UpdateGatewayTargetCommand p; GetGatewayTargetCommand "G1" "T1"]
     /\ Update.credentialProviderConfigurations p
        = assoc "credentialProviderConfigurations" old_target)
  /\
  (exists p,
     history_of (updateGatewayTarget (control_plane one_target) "G1" "NOPE"
                   "todos" (Some (JObj [])) None (Some (JArr [])) [])
     = [UpdateGatewayTargetCommand p; GetGatewayTargetCommand "G1" "NOPE"]
     /\ Update.credentialProviderConfigurations p = Some (JArr [])).
Proof.
  assert (Hobject : forall u j,
            opt_get (opt_get (opt_get
              (Some (JObj [("mcp", JObj [("openApiSchema",
                       JObj [("s3", JObj [("uri", JStr u)])])])]))
              "mcp") "openApiSchema") "s3" = Some j ->
            truthy (Some j) = true -> exists fs, j = JObj fs).
  { intros u j Hj _. injection Hj as <-. eexists. reflexivity. }
  assert (Hnone : forall j,
            opt_get (opt_get (opt_get None "mcp") "openApiSchema") "s3"
            = Some j ->
            truthy (Some j) = true -> exists fs, j = JObj fs).
  { intros j Hj. discriminate Hj. }
  split; [|split; [|split; [|split]]].
  - apply (proj1 (proj2 (C3_credentials_verbatim_or_current
                           (control_plane one_target) "G1" "T1" "todos" []
                           (Some (JObj [("mcp", JObj [("openApiSchema",
                              JObj [("s3",
                                JObj [("uri", JStr "s3://b/new.json")])])])]))
                           None)
                    old_target eq_refl (Hobject "s3://b/new.json"))
             (JArr [])).
  - apply (proj2 (proj2 (C3_credentials_verbatim_or_current
                           (control_plane one_target) "G1" "T1" "todos" []
                           (Some (JObj [("mcp", JObj [("openApiSchema",
                              JObj [("s3", JObj [("uri", JStr "")])])])]))
                           None)
                    old_target eq_refl (Hobject ""))).
    right. eexists. reflexivity.
  - apply (proj1 (proj2 (C3_credentials_verbatim_or_current
                           (control_plane one_target) "G1" "T1" "todos" []
                           None None)
                    old_target eq_refl Hnone)
             (JArr [])).
  - apply (proj2 (proj2 (C3_credentials_verbatim_or_current
                           (control_plane one_target) "G1" "T1" "todos" []
                           None None)
                    old_target eq_refl Hnone)).
    right. eexists. reflexivity.
  - eexists. split; [reflexivity|].
    apply (proj1 (C3_credentials_verbatim_or_current
                    (control_plane one_target) "G1" "NOPE" "todos" []
                    (Some (JObj [])) None)
             (JArr [])
             (Update.mk "G1" "NOPE" "todos" (Some (JObj [])) (Some (JArr []))
                None)
             [GetGatewayTargetCommand "G1" "NOPE"]).
    reflexivity.
Defined.

(** A rename that leaves the configuration out. *)
Lemma C4_witness :
  exists p,
    history_of (updateGatewayTarget (control_plane one_target) "G1" "T1"
                  "renamed" None None None [])
    = [UpdateGatewayTargetCommand p; GetGatewayTargetCommand "G1" "T1"]
    /\ Update.targetConfiguration p = assoc "targetConfiguration" old_target
    /\ s3_uri_of (Update.targetConfiguration p)
       = s3_uri_of (assoc "targetConfiguration" old_target).
Proof.
  apply (C4_omitted_configuration_uses_current (control_plane one_target)
           "G1" "T1" "renamed" [] old_target None None).
  reflexivity.
Defined.

(** An update that leaves everything but the name out. *)
Lemma C5_witness :
  exists p,
    history_of (updateGatewayTarget (control_plane one_target) "G1" "T1"
                  "todos" None None None [])
    = [UpdateGatewayTargetCommand p; GetGatewayTargetCommand "G1" "T1"]
    /\ Update.targetConfiguration p = assoc "targetConfiguration" old_target
    /\ Update.credentialProviderConfigurations p
       = assoc "credentialProviderConfigurations" old_target
    /\ Update.description p = None.
Proof.
  apply (proj2 (C5_description_is_not_carried_over (control_plane one_target)
                  "G1" "T1" "todos" [] None) old_target).
  - reflexivity.
  - right. eexists. reflexivity.
Defined.

(** The stored description is dropped from the payload when the caller
    omits the description. *)
Lemma C5_counterexample :
  exists p,
    history_of (updateGatewayTarget (control_plane one_target) "G1" "T1"
                  "todos" None None None [])
    = [UpdateGatewayTargetCommand p; GetGatewayTargetCommand "G1" "T1"]
    /\ string_field "description" old_target = Some "old description"
    /\ Update.description p <> string_field "description" old_target.
Proof.
  eexists. split; [reflexivity|]. split; [reflexivity|]. discriminate.
Qed.

(** The method of [PUT /gateways/:gatewayId/tools/:targetId] on a
    nonexistent target: with a configuration the write is attempted and
    its rejection is answered 404; without one the answer is 500 and
    nothing is written. *)
Example put_nonexistent_target :
  route 200
    (updateTool (control_plane one_target) "G1" "NOPE"
       (UpdateTool.mk "todos"
          (Some (JObj [("mcp", JObj [("openApiSchema",
                   JObj [("s3", JObj [("uri", JStr "s3://b/new.json")])])])]))
          None None))
    []
  = (mk_response 404
       (BodyStatusMessage 404 "Target 'NOPE' not found on gateway 'G1'" None),
     [UpdateGatewayTargetCommand
        (Update.mk "G1" "NOPE" "todos"
           (Some (JObj [("mcp", JObj [("openApiSchema",
                    JObj [("s3", JObj [("uri", JStr "s3://b/new.json")])])])]))
           None None);
      GetGatewayTargetCommand "G1" "NOPE"])
  /\
  route 200
    (updateTool (control_plane one_target) "G1" "NOPE"
       (UpdateTool.mk "todos" None None None))
    []
  = (mk_response 500
       (BodyStatusError 500
          "target_configuration is required when updating tool if existing target cannot be retrieved"),
     [GetGatewayTargetCommand "G1" "NOPE"]).
Proof. split; reflexivity. Qed.

(** ** The bound on [maxResults] *)

Lemma Qle_bool_false (x y : Q) : Qle_bool x y = false <-> (y < x)%Q.
Proof.
  split; intros H.
  - apply Qnot_le_lt. intros Hle. apply Qle_bool_iff in Hle. congruence.
  - destruct (Qle_bool x y) eqn:E; [|reflexivity].
    apply Qle_bool_iff in E. exfalso. exact (Qlt_not_le _ _ H E).
Qed.

Lemma guard_outside (m : number) :
  outside_1_1000 m ->
  number_lt m (number_of_Z 1) || number_lt (number_of_Z 1000) m = true.
Proof.
  destruct m as [| | |q]; cbn -[Qle_bool]; try tauto.
  intros [H|H]; apply Qle_bool_false in H;
    change (inject_Z 1) with 1%Q; change (inject_Z 1000) with 1000%Q;
    rewrite H; [reflexivity|apply orb_true_r].
Qed.

Lemma guard_within (m : number) :
  within_1_1000 m ->
  number_lt m (number_of_Z 1) || number_lt (number_of_Z 1000) m = false.
Proof.
  destruct m as [| | |q]; cbn -[Qle_bool]; try tauto.
  intros [H1 H2]. apply Qle_bool_iff in H1, H2.
  change (inject_Z 1) with 1%Q; change (inject_Z 1000) with 1000%Q.
  rewrite H1, H2. reflexivity.
Qed.

(** [NaN] is stopped by neither comparison. *)
Remark guard_NaN :
  number_lt NaN (number_of_Z 1) || number_lt (number_of_Z 1000) NaN = false.
Proof. reflexivity. Qed.

(** Every number is below 1 or above 1000, or within the range, or
    [NaN]. *)
Lemma number_cases (m : number) :
  outside_1_1000 m \/ within_1_1000 m \/ m = NaN.
Proof.
  destruct m as [| | |q]; cbn.
  - right. right. reflexivity.
  - left. exact I.
  - left. exact I.
  - destruct (Qlt_le_dec q 1) as [H|H]; [left; left; exact H|].
    destruct (Qlt_le_dec 1000 q) as [H'|H']; [left; right; exact H'|].
    right. left. split; assumption.
Qed.

(** C10 (amended): [listGatewayTargets] and [listGateways] raise
    'maxResults must be between 1 and 1000' before any request is sent
    when [maxResults] is a number below 1 or above 1000; when it is
    undefined, within the range or [NaN], the list request is sent with
    the value unchanged and its answer is the outcome.  These cases cover
    every value of [maxResults]. *)
Theorem C10_maxResults_guard
    (send : service) (gatewayId : string) (nextToken : option string)
    (h : history) :
  (forall m : number,
     outside_1_1000 m ->
     listGatewayTargets send gatewayId (Some m) nextToken h
     = (inl maxResults_error, h)
     /\ listGateways send (Some m) nextToken h = (inl maxResults_error, h))
  /\
  (forall maxResults : option number,
     (maxResults = None \/
      exists m, maxResults = Some m /\ (within_1_1000 m \/ m = NaN)) ->
     (exists p,
        history_of (listGatewayTargets send gatewayId maxResults nextToken h)
        = ListGatewayTargetsCommand p :: h
        /\ ListTargets.maxResults p = maxResults
        /\ result_of (listGatewayTargets send gatewayId maxResults nextToken h)
           = send h (ListGatewayTargetsCommand p))
     /\
     (exists p,
        history_of (listGateways send maxResults nextToken h)
        = ListGatewaysCommand p :: h
        /\ ListGateways.maxResults p = maxResults
        /\ result_of (listGateways send maxResults nextToken h)
           = send h (ListGatewaysCommand p)))
  /\
  (forall m : number, outside_1_1000 m \/ within_1_1000 m \/ m = NaN).
Proof.
  split; [|split; [|exact number_cases]].
  - intros m Hout. apply guard_outside in Hout.
    unfold listGatewayTargets, listGateways. unfold_io.
    rewrite Hout. split; reflexivity.
  - intros maxResults Hin.
    assert (Hguard :
      match maxResults with
      | Some m =>
          number_lt m (number_of_Z 1) || number_lt (number_of_Z 1000) m
      | None => false
      end = false).
    { destruct Hin as [->|(m & -> & [Hm| ->])]; [reflexivity| |].
      - apply guard_within, Hm.
      - exact guard_NaN. }
    unfold listGatewayTargets, listGateways, history_of, result_of.
    unfold_io.
    split;
      [exists (ListTargets.mk gatewayId maxResults
                 (if truthy_string nextToken then nextToken else None))
      |exists (ListGateways.mk maxResults
                 (if truthy_string nextToken then nextToken else None))].
    all: destruct maxResults as [m|]; [rewrite Hguard|].
    all: destruct (truthy_string nextToken).
    all: cbv beta iota zeta delta
           [fst snd ListTargets.gatewayIdentifier ListTargets.maxResults
            ListTargets.nextToken ListGateways.maxResults
            ListGateways.nextToken].
    all: match goal with
         | |- context [match ?answer with inl _ => _ | inr _ => _ end] =>
             destruct answer
         end; repeat split; reflexivity.
Qed.

(** Zero is refused before any request; a thousand is sent, and so is
    [NaN]. *)
Lemma C10_witness :
  (listGatewayTargets (control_plane one_target) "G1"
     (Some (number_of_Z 0)) None []
   = (inl maxResults_error, [])
   /\ listGateways (control_plane one_target) (Some (number_of_Z 0)) None []
      = (inl maxResults_error, []))
  /\
  (exists p,
     history_of (listGatewayTargets (control_plane one_target) "G1"
                   (Some (number_of_Z 1000)) None [])
     = [ListGatewayTargetsCommand p]
     /\ ListTargets.maxResults p = Some (number_of_Z 1000)
     /\ result_of (listGatewayTargets (control_plane one_target) "G1"
                     (Some (number_of_Z 1000)) None [])
        = control_plane one_target [] (ListGatewayTargetsCommand p))
  /\
  (exists p,
     history_of (listGateways (control_plane one_target) (Some NaN) None [])
     = [ListGatewaysCommand p]
     /\ ListGateways.maxResults p = Some NaN
     /\ result_of (listGateways (control_plane one_target) (Some NaN) None [])
        = control_plane one_target [] (ListGatewaysCommand p)).
Proof.
  split; [|split].
  - apply (proj1 (C10_maxResults_guard (control_plane one_target) "G1"
                    None []) (number_of_Z 0)).
    left. reflexivity.
  - apply (proj1 (proj2 (C10_maxResults_guard (control_plane one_target) "G1"
                           None []))
             (Some (number_of_Z 1000))).
    right. exists (number_of_Z 1000). split; [reflexivity|].
    left. split; discriminate.
  - apply (proj1 (proj2 (C10_maxResults_guard (control_plane one_target) "G1"
                           None []))
             (Some NaN)).
    right. exists NaN. split; [reflexivity|]. right. reflexivity.
Defined.

(** [NaN] is defined and not within [1, 1000], and yet neither function
    raises the error: the list request is sent with [NaN] in it. *)
Lemma C10_counterexample :
  ~ within_1_1000 NaN
  /\ history_of (listGatewayTargets (control_plane one_target) "G1"
                   (Some NaN) None [])
     = [ListGatewayTargetsCommand (ListTargets.mk "G1" (Some NaN) None)]
  /\ result_of (listGatewayTargets (control_plane one_target) "G1"
                  (Some NaN) None [])
     <> inl maxResults_error
  /\ history_of (listGateways (control_plane one_target) (Some NaN) None [])
     = [ListGatewaysCommand (ListGateways.mk (Some NaN) None)]
  /\ result_of (listGateways (control_plane one_target) (Some NaN) None [])
     <> inl maxResults_error.
Proof.
  split; [intros H; exact H|].
  split; [reflexivity|]. split; [discriminate|].
  split; [reflexivity|]. discriminate.
Qed.

(** ** The upload of a specification *)

(** Case analysis over a run of the controller and of the services it
    calls. *)
Ltac split_run send :=
  repeat (cbv beta iota zeta delta [fst snd];
          match goal with
          | H : send ?h ?c = _ |- context [send ?h ?c] => rewrite H
          | |- context [match send ?h ?c with _ => _ end] =>
              destruct (send h c) eqn:?
          | |- context [if ?b then _ else _] => destruct b eqn:?
          | |- context [match ?x with Some _ => _ | None => _ end] =>
              destruct x eqn:?
          end).

Lemma truthy_nonempty (b : string) :
  b <> "" -> negb (truthy_string (Some b)) = false.
Proof.
  intros Hb. cbn. destruct (b =? "") eqn:E; [|reflexivity].
  apply String.eqb_eq in E. contradiction.
Qed.

Section UploadProperties.

Variable send : service.
Variable awsRegion : string.
Variable Date_now : history -> Z.
Variable randomBytes : history -> nat -> list Byte.byte.
Variable JSON_stringify : json -> string.

(** C8: with the bucket there, or created because the check reported it
    missing, or found to exist already at creation, the specification is
    put under [gateways/{gatewayId}/tools/{toolName}/{timestamp}-{randomSuffix}.json]
    and the [s3://] URI of that key is returned; the creation is requested
    only when the check reported the bucket missing. *)
Theorem C8_upload_key_and_lazy_bucket
    (specJson : json) (toolName gatewayId bucketName : string) (h : history) :
  bucketName <> "" ->
  let check := HeadBucketCommand bucketName in
  let creation := create_bucket_command awsRegion bucketName in
  let h1 :=
    match send h check with
    | inr _ => check :: h
    | inl _ => creation :: check :: h
    end in
  ((exists r, send h check = inr r) \/
   (exists e, send h check = inl e /\ bucket_missing e = true /\
      ((exists r, send (check :: h) creation = inr r) \/
       (exists e', send (check :: h) creation = inl e' /\
                   bucket_already_there e' = true)))) ->
  let objectKey :=
    "gateways/" ++ gatewayId ++ "/tools/" ++ toolName ++ "/"
    ++ decimal (Date_now h1 / 1000) ++ "-" ++ to_hex (randomBytes h1 8)
    ++ ".json" in
  let put :=
    PutObjectCommand bucketName objectKey (JSON_stringify specJson)
      "application/json" in
  (exists r, send h1 put = inr r) ->
  uploadOpenApiSpec send awsRegion Date_now randomBytes JSON_stringify
    specJson toolName gatewayId (Some bucketName) h
  = (inr ("s3://" ++ bucketName ++ "/" ++ objectKey), put :: h1).
Proof.
  intros Hname check creation h1 Hbucket objectKey put [r Hput].
  unfold uploadOpenApiSpec, ensureS3Bucket, object_key. unfold_io.
  rewrite (truthy_nonempty _ Hname). cbn [tpl].
  subst put objectKey h1. fold check.
  destruct Hbucket as [[r0 Hcheck]|(e & Hcheck & Hmissing & Hcreate)];
    rewrite Hcheck in *.
  - rewrite Hput. reflexivity.
  - rewrite Hmissing. fold creation.
    destruct Hcreate as [[r1 Hc]|(e' & Hc & Hthere)]; rewrite Hc.
    + rewrite Hput. reflexivity.
    + rewrite Hthere. rewrite Hput. reflexivity.
Qed.

End UploadProperties.

(** Eight random bytes give a suffix of sixteen hexadecimal digits. *)
Lemma to_hex_length (bs : list Byte.byte) :
  String.length (to_hex bs) = (2 * List.length bs)%nat.
Proof.
  unfold to_hex.
  induction bs as [|b rest IH]; [reflexivity|].
  destruct rest as [|b' rest']; [reflexivity|].
  change (String.concat "" (map hex_of_byte (b :: b' :: rest')))
    with (hex_of_byte b ++ ""
          ++ String.concat "" (map hex_of_byte (b' :: rest'))).
  cbn [hex_of_byte append String.length]. rewrite IH.
  cbn [List.length]. lia.
Qed.

(** A first upload into an account that has no bucket yet. *)
Lemma C8_witness :
  uploadOpenApiSpec account_without_bucket "eu-west-1" fixed_clock
    fixed_random no_stringify (JObj [("openapi", JStr "3.1.0")])
    "todos" "G1" (Some "specs") []
  = (inr "s3://specs/gateways/G1/tools/todos/1700000000-abababababababab.json",
     [PutObjectCommand "specs"
        "gateways/G1/tools/todos/1700000000-abababababababab.json" "{}"
        "application/json";
      CreateBucketCommand "specs" (Some "eu-west-1");
      HeadBucketCommand "specs"]).
Proof.
  apply (C8_upload_key_and_lazy_bucket account_without_bucket "eu-west-1"
           fixed_clock fixed_random no_stringify
           (JObj [("openapi", JStr "3.1.0")]) "todos" "G1" "specs" []).
  - discriminate.
  - right. eexists. split; [reflexivity|]. split; [reflexivity|].
    left. eexists. reflexivity.
  - eexists. reflexivity.
Defined.

(** The bucket is there: no creation is requested. *)
Example upload_into_existing_bucket :
  history_of (uploadOpenApiSpec (control_plane one_target) "us-east-1"
                fixed_clock fixed_random no_stringify (JObj [])
                "todos" "G1" (Some "specs") [])
  = [PutObjectCommand "specs"
       "gateways/G1/tools/todos/1700000000-abababababababab.json" "{}"
       "application/json";
     HeadBucketCommand "specs"].
Proof. reflexivity. Qed.

(** The bucket appears between the check and the creation: no error. *)
Example upload_with_racing_bucket :
  uploadOpenApiSpec account_with_racing_bucket "us-east-1"
    fixed_clock fixed_random no_stringify (JObj []) "todos" "G1"
    (Some "specs") []
  = (inr "s3://specs/gateways/G1/tools/todos/1700000000-abababababababab.json",
     [PutObjectCommand "specs"
        "gateways/G1/tools/todos/1700000000-abababababababab.json" "{}"
        "application/json";
      CreateBucketCommand "specs" None;
      HeadBucketCommand "specs"]).
Proof. reflexivity. Qed.

(** ** Tool creation *)

Lemma not_api_key (auth : option Auth.dto) :
  (forall a, auth = Some a -> Auth.type a <> "api_key") ->
  match auth with
  | Some a => Auth.type a =? "api_key"
  | None => false
  end = false.
Proof.
  destruct auth as [a|]; [|reflexivity]. intros H.
  apply String.eqb_neq. apply H. reflexivity.
Qed.

(** An exception that reports a conflict comes from the remote service. *)
Lemma conflict_is_no_bad_request (e : exn) :
  exn_name e = "ConflictException" \/ exn_Code e = Some "ConflictException" ->
  instanceof_BadRequestException e = false.
Proof. destruct e; cbn; intros [H|H]; try discriminate; reflexivity. Qed.

Section CreationProperties.

Variable send : service.
Variable awsRegion : string.
Variable OPENAPI_SPECS_BUCKET : string.
Variable Date_now : history -> Z.
Variable randomBytes : history -> nat -> list Byte.byte.
Variable JSON_stringify : json -> string.
Variable generateOpenApiSpec :
  string -> string -> string -> value -> value -> value -> option string ->
  json.

(** [x || ''] on a string that may be [undefined]. *)
Lemma or_default_empty (x : option string) :
  or_default x "" = match x with Some s => s | None => "" end.
Proof. destruct x as [[|c s]|]; reflexivity. Qed.

(** [x || d] on a string that may be [undefined]. *)
Lemma or_default_cases (x : option string) (d : string) :
  or_default x d
  = match x with Some (String a s) => String a s | _ => d end.
Proof. destruct x as [[|c s]|]; reflexivity. Qed.

(** C9: without [api_key] authentication, the first request of
    [registerToolWithGateway] creates the credential provider
    '{targetName}-placeholder-apikey' with the key 'placeholder-not-used';
    once it is created, the request that creates the target carries the
    specification's URI under [mcp.openApiSchema.s3.uri] and exactly one
    credential configuration: of type 'API_KEY', with the ARN of that
    provider (the empty string when the answer has none), the parameter
    'X-Placeholder-Auth' and the location 'HEADER'. *)
Theorem C9_placeholder_credential_provider
    (gatewayId targetName openApiS3Uri : string) (auth : option Auth.dto)
    (description : option string) (h : history) :
  (forall a, auth = Some a -> Auth.type a <> "api_key") ->
  let provider :=
    CreateApiKeyCredentialProviderCommand
      (Some (targetName ++ "-placeholder-apikey"))
      (Some "placeholder-not-used") in
  let r := registerToolWithGateway send gatewayId targetName openApiS3Uri
             auth description h in
  (exists rest, history_of r = (rest ++ provider :: h)%list)
  /\
  (forall created : obj,
     send h provider = inr created ->
     exists p,
       history_of r = CreateGatewayTargetCommand p :: provider :: h
       /\ CreateTarget.gatewayIdentifier p = gatewayId
       /\ CreateTarget.name p = targetName
       /\ CreateTarget.targetConfiguration p
          = JObj [("mcp", JObj [("openApiSchema",
                    JObj [("s3", JObj [("uri", JStr openApiS3Uri)])])])]
       /\ CreateTarget.credentialProviderConfigurations p
          = JArr [JObj [("credentialProviderType", JStr "API_KEY");
                        ("credentialProvider",
                         JObj [("apiKeyCredentialProvider",
                           JObj [("credentialParameterName",
                                  JStr "X-Placeholder-Auth");
                                 ("providerArn",
                                  JStr match string_field
                                               "credentialProviderArn" created
                                       with
                                       | Some arn => arn
                                       | None => ""
                                       end);
                                 ("credentialLocation", JStr "HEADER")])])]]
       /\ (forall target : obj,
             send (provider :: h) (CreateGatewayTargetCommand p) = inr target ->
             result_of r = inr target)).
Proof.
  intros Hauth provider r. apply not_api_key in Hauth.
  assert (Hr : r =
    (credentialProviderArn <-
       createOrGetApiKeyCredentialProvider send
         (Some (targetName ++ "-placeholder-apikey"))
         (Some "placeholder-not-used") ;;
     createGatewayTarget send gatewayId targetName openApiS3Uri
       credentialProviderArn (Some "X-Placeholder-Auth") (Some "HEADER")
       description) h).
  { subst r. unfold registerToolWithGateway.
    destruct auth as [a|]; [rewrite Hauth|]; reflexivity. }
  rewrite Hr. clear Hr r.
  unfold createOrGetApiKeyCredentialProvider, createGatewayTarget,
    history_of, result_of.
  unfold_io. fold provider. split.
  - split_run send.
    all: first [exists [] ; reflexivity | eexists [_]; reflexivity].
  - intros created Hcreated. rewrite Hcreated.
    cbv beta iota zeta delta [fst snd].
    eexists. split; [|split; [|split; [|split; [|split]]]].
    6: { intros target Htarget. rewrite Htarget. reflexivity. }
    2-4: reflexivity.
    2: { rewrite <- or_default_empty. reflexivity. }
    split_run send; reflexivity.
Qed.

(** Every creation route registers the tool through
    [createToolWithSpec]: once the specification is uploaded, the
    requests that follow are those of [registerToolWithGateway] with the
    authentication of the request. *)
Lemma createToolWithSpec_registers
    (gatewayId toolName : string) (spec : json) (auth : option Auth.dto)
    (description : option string) (h h1 : history) (s3Uri : string) :
  uploadOpenApiSpec send awsRegion Date_now randomBytes JSON_stringify
    spec toolName gatewayId (Some OPENAPI_SPECS_BUCKET) h = (inr s3Uri, h1) ->
  history_of (createToolWithSpec send awsRegion OPENAPI_SPECS_BUCKET Date_now
                randomBytes JSON_stringify gatewayId toolName spec auth
                description h)
  = history_of (registerToolWithGateway send gatewayId toolName s3Uri auth
                  description h1).
Proof.
  intros Hup. unfold createToolWithSpec, bind, history_of. rewrite Hup.
  destruct (registerToolWithGateway send gatewayId toolName s3Uri auth
              description h1) as [[e|result] h2]; reflexivity.
Qed.

(** The upload sends at least one request, and none of them creates a
    target. *)
Lemma upload_history
    (spec : json) (toolName gatewayId : string) (bucketName : option string)
    (h : history) :
  not_create_head
    (history_of (uploadOpenApiSpec send awsRegion Date_now randomBytes
                   JSON_stringify spec toolName gatewayId bucketName h)).
Proof.
  unfold uploadOpenApiSpec, ensureS3Bucket, create_bucket_command, history_of.
  unfold_io.
  split_run send; exact I.
Qed.

(** When the request that creates the target is the last one of
    [registerToolWithGateway] and it is rejected, the rejection is the
    outcome: the error raised for a conflict code, else the exception
    itself. *)
Lemma registerToolWithGateway_rejected
    (gatewayId targetName openApiS3Uri : string) (auth : option Auth.dto)
    (description : option string) (h : history)
    (p : CreateTarget.params) (h' : history) (e : exn) :
  not_create_head h ->
  let r := registerToolWithGateway send gatewayId targetName openApiS3Uri
             auth description h in
  history_of r = CreateGatewayTargetCommand p :: h' ->
  send h' (CreateGatewayTargetCommand p) = inl e ->
  result_of r
  = inl (if code_is e "ConflictException"
         then target_exists targetName gatewayId else e).
Proof.
  intros Hh. cbv zeta.
  set (outcome := if code_is e "ConflictException"
                  then target_exists targetName gatewayId else e).
  unfold registerToolWithGateway, createOrGetApiKeyCredentialProvider,
    createGatewayTarget, history_of, result_of.
  unfold_io.
  split_run send.
  all: intros H He; try (rewrite H in Hh; destruct Hh).
  all: inversion H; subst; clear H.
  all: subst outcome.
  all: match goal with
       | H1 : send _ _ = ?a, H2 : send _ _ = inl ?b |- _ =>
           assert (Hab : a = inl b) by exact (eq_trans (eq_sym H1) H2);
           try discriminate Hab; injection Hab as Hab; subst;
           match goal with
           | Hc : code_is b _ = _ |- _ => rewrite Hc; reflexivity
           end
       end.
Qed.

Lemma createToolWithSpec_rejected
    (gatewayId toolName : string) (spec : json) (auth : option Auth.dto)
    (description : option string) (h : history)
    (p : CreateTarget.params) (h' : history) (e : exn) :
  let r := createToolWithSpec send awsRegion OPENAPI_SPECS_BUCKET Date_now
             randomBytes JSON_stringify gatewayId toolName spec auth
             description h in
  history_of r = CreateGatewayTargetCommand p :: h' ->
  send h' (CreateGatewayTargetCommand p) = inl e ->
  result_of r
  = inl (if code_is e "ConflictException"
         then target_exists toolName gatewayId else e).
Proof.
  cbv zeta. unfold createToolWithSpec, bind.
  pose proof (upload_history spec toolName gatewayId
                (Some OPENAPI_SPECS_BUCKET) h) as Hup.
  destruct (uploadOpenApiSpec send awsRegion Date_now randomBytes
              JSON_stringify spec toolName gatewayId
              (Some OPENAPI_SPECS_BUCKET) h) as [[e1|s3Uri] h1].
  - unfold history_of in *. cbn [fst snd] in *.
    intros H. rewrite H in Hup. destruct Hup.
  - unfold history_of in Hup. cbn [snd] in Hup.
    pose proof (registerToolWithGateway_rejected gatewayId toolName s3Uri
                  auth description h1 p h' e Hup) as Hreg.
    cbv zeta in Hreg. unfold history_of, result_of in *.
    destruct (registerToolWithGateway send gatewayId toolName s3Uri auth
                description h1) as [[e2|result] h2];
      cbn [fst snd ret] in *; intros H1 H2; specialize (Hreg H1 H2);
      [injection Hreg as ->; reflexivity | discriminate Hreg].
Qed.

(** A run that stopped before the creation of the target does not end on
    that request. *)
Ltac stopped_before :=
  try match goal with
      | |- context [instanceof_BadRequestException ?x] =>
          destruct (instanceof_BadRequestException x)
      end;
  let H := fresh in intros H; cbn in H; discriminate H.

(** C6: on each of the three creation routes, when the request that
    creates the target is the last one sent and the service rejects it
    with a conflict, the answer is 500 with a [{status, error}] body (and
    so not 409); the error is the message that the target already exists
    when the exception carries the conflict code, else the message of the
    exception. *)
Theorem C6_conflict_answers_500
    (p : CreateTarget.params) (h' : history) (e : exn) :
  exn_name e = "ConflictException" \/ exn_Code e = Some "ConflictException" ->
  send h' (CreateGatewayTargetCommand p) = inl e ->
  let answer (toolName gatewayId : string) :=
    mk_response 500
      (BodyStatusError 500
         (if code_is e "ConflictException"
          then exn_message (target_exists toolName gatewayId)
          else exn_message e)) in
  (forall request : FromSpec.request,
     let r := POST_tools_from_spec send awsRegion OPENAPI_SPECS_BUCKET
                Date_now randomBytes JSON_stringify request [] in
     snd r = CreateGatewayTargetCommand p :: h' ->
     fst r = answer (FromSpec.tool_name request) (FromSpec.gateway_id request))
  /\
  (forall request : FromUrl.request,
     let r := POST_tools_from_url send awsRegion OPENAPI_SPECS_BUCKET
                Date_now randomBytes JSON_stringify request [] in
     snd r = CreateGatewayTargetCommand p :: h' ->
     fst r = answer (FromUrl.tool_name request) (FromUrl.gateway_id request))
  /\
  (forall request : FromApiInfo.request,
     let r := POST_tools_from_api_info send awsRegion OPENAPI_SPECS_BUCKET
                Date_now randomBytes JSON_stringify generateOpenApiSpec
                request [] in
     snd r = CreateGatewayTargetCommand p :: h' ->
     fst r = answer (FromApiInfo.tool_name request)
               (FromApiInfo.gateway_id request)).
Proof.
  intros Hconflict Hsend answer.
  pose proof (conflict_is_no_bad_request e Hconflict) as Hbad.
  assert (Hout : forall toolName gatewayId,
    nest_respond 201
      (inl (internal_server_error
              (if code_is e "ConflictException"
               then target_exists toolName gatewayId else e)))
    = answer toolName gatewayId).
  { intros. subst answer. destruct (code_is e "ConflictException");
      reflexivity. }
  assert (Hkeep : forall toolName gatewayId,
    instanceof_BadRequestException
      (if code_is e "ConflictException"
       then target_exists toolName gatewayId else e) = false).
  { intros. destruct (code_is e "ConflictException");
      [reflexivity|exact Hbad]. }
  split; [|split]; intros request; cbv zeta.
  - unfold POST_tools_from_spec, route, createToolFromSpec, validated_spec.
    unfold_io.
    destruct (validateAuth (FromSpec.auth request)); [stopped_before|].
    destruct (validateOpenApiSpec (FromSpec.openapi_spec request)) as [e0|[]];
      [stopped_before|].
    destruct (FromSpec.openapi_spec request) as [spec|]; [|stopped_before].
    pose proof (createToolWithSpec_rejected (FromSpec.gateway_id request)
                  (FromSpec.tool_name request) spec (FromSpec.auth request)
                  None [] p h' e) as Hrej.
    cbv zeta in Hrej. unfold history_of, result_of in Hrej.
    destruct (createToolWithSpec send awsRegion OPENAPI_SPECS_BUCKET Date_now
                randomBytes JSON_stringify (FromSpec.gateway_id request)
                (FromSpec.tool_name request) spec (FromSpec.auth request)
                None []) as [[e1|created] h1]; cbn [fst snd] in *.
    + destruct (instanceof_BadRequestException e1) eqn:Hi; cbn [fst snd];
        intros H; specialize (Hrej H Hsend); injection Hrej as ->;
        [rewrite Hkeep in Hi; discriminate Hi | apply Hout].
    + intros H. specialize (Hrej H Hsend). discriminate Hrej.
  - unfold POST_tools_from_url, route, createToolFromUrl,
      downloadAndCreateTool, validated_spec.
    unfold_io.
    destruct (validateAuth (FromUrl.auth request)); [stopped_before|].
    destruct (send [] (AxiosGet (FromUrl.openapi_spec_url request)))
      as [e0|response]; [stopped_before|].
    destruct (validateOpenApiSpec (assoc "data" response)) as [e0|[]];
      [stopped_before|].
    destruct (assoc "data" response) as [spec|]; [|stopped_before].
    pose proof (createToolWithSpec_rejected (FromUrl.gateway_id request)
                  (FromUrl.tool_name request) spec (FromUrl.auth request)
                  None [AxiosGet (FromUrl.openapi_spec_url request)] p h' e)
      as Hrej.
    cbv zeta in Hrej. unfold history_of, result_of in Hrej.
    destruct (createToolWithSpec send awsRegion OPENAPI_SPECS_BUCKET Date_now
                randomBytes JSON_stringify (FromUrl.gateway_id request)
                (FromUrl.tool_name request) spec (FromUrl.auth request)
                None [AxiosGet (FromUrl.openapi_spec_url request)])
      as [[e1|created] h1]; cbn [fst snd] in *.
    + intros H. specialize (Hrej H Hsend). injection Hrej as ->.
      apply Hout.
    + intros H. specialize (Hrej H Hsend). discriminate Hrej.
  - unfold POST_tools_from_api_info, route, createToolFromApiInfo.
    unfold_io.
    destruct (validateAuth (FromApiInfo.auth request)); [stopped_before|].
    match goal with
    | |- context [createToolWithSpec _ _ _ _ _ _ ?g ?t ?spec ?a ?d ?h0] =>
        pose proof (createToolWithSpec_rejected g t spec a d h0 p h' e)
          as Hrej;
        cbv zeta in Hrej; unfold history_of, result_of in Hrej;
        destruct (createToolWithSpec send awsRegion OPENAPI_SPECS_BUCKET
                    Date_now randomBytes JSON_stringify g t spec a d h0)
          as [[e1|created] h1]; cbn [fst snd] in *
    end.
    + intros H. specialize (Hrej H Hsend). injection Hrej as ->.
      apply Hout.
    + intros H. specialize (Hrej H Hsend). discriminate Hrej.
Qed.

(** A [BadRequestException] of [validateAuth] is answered 400 by
    [/tools/from-spec], but 500 by [/tools/from-url] and
    [/tools/from-api-info], which wrap it like any other error.  No
    request is sent. *)
Lemma rejected_auth_by_route
    (gatewayId toolName specUrl : string) (spec : value)
    (api_info : ApiInfo.dto) (auth : Auth.dto) (message : string)
    (h : history) :
  validateAuth (Some auth) = inl (BadRequestException message) ->
  POST_tools_from_spec send awsRegion OPENAPI_SPECS_BUCKET Date_now
    randomBytes JSON_stringify
    (FromSpec.mk gatewayId toolName spec (Some auth)) h
  = (mk_response 400 (BodyStatusMessage 400 message (Some "Bad Request")), h)
  /\
  POST_tools_from_url send awsRegion OPENAPI_SPECS_BUCKET Date_now
    randomBytes JSON_stringify
    (FromUrl.mk gatewayId toolName specUrl (Some auth)) h
  = (mk_response 500 (BodyStatusError 500 message), h)
  /\
  POST_tools_from_api_info send awsRegion OPENAPI_SPECS_BUCKET Date_now
    randomBytes JSON_stringify generateOpenApiSpec
    (FromApiInfo.mk gatewayId toolName api_info (Some auth)) h
  = (mk_response 500 (BodyStatusError 500 message), h).
Proof.
  intros Hauth.
  unfold POST_tools_from_spec, POST_tools_from_url, POST_tools_from_api_info,
    route, createToolFromSpec, createToolFromUrl, createToolFromApiInfo.
  unfold_io.
  cbn [FromSpec.auth FromUrl.auth FromApiInfo.auth].
  rewrite Hauth. repeat split.
Qed.

(** C7 at the failing input: an [api_key] authentication without its key.
    [/tools/from-spec] answers 400; [/tools/from-url] and
    [/tools/from-api-info] answer 500 with the message of the validation
    in a [{status, error}] body. *)
Theorem C7_missing_api_key_by_route
    (gatewayId toolName specUrl : string) (spec : value)
    (api_info : ApiInfo.dto) (h : history) :
  let auth := Auth.mk "api_key" (Some "todos-key")
                (Some (AuthConfig.mk None None None)) in
  let message := "api_key is required in auth.config when auth.type is "
                 ++ dquote ++ "api_key" ++ dquote in
  POST_tools_from_spec send awsRegion OPENAPI_SPECS_BUCKET Date_now
    randomBytes JSON_stringify
    (FromSpec.mk gatewayId toolName spec (Some auth)) h
  = (mk_response 400 (BodyStatusMessage 400 message (Some "Bad Request")), h)
  /\
  POST_tools_from_url send awsRegion OPENAPI_SPECS_BUCKET Date_now
    randomBytes JSON_stringify
    (FromUrl.mk gatewayId toolName specUrl (Some auth)) h
  = (mk_response 500 (BodyStatusError 500 message), h)
  /\
  POST_tools_from_api_info send awsRegion OPENAPI_SPECS_BUCKET Date_now
    randomBytes JSON_stringify generateOpenApiSpec
    (FromApiInfo.mk gatewayId toolName api_info (Some auth)) h
  = (mk_response 500 (BodyStatusError 500 message), h).
Proof.
  cbv zeta. apply rejected_auth_by_route. reflexivity.
Qed.

(** What [validateAuth] rejects: an [api_key] authentication whose key or
    provider name is missing or empty. *)
Lemma validateAuth_rejects (auth : Auth.dto) :
  Auth.type auth = "api_key" ->
  truthy_string (match Auth.config auth with
                 | Some c => AuthConfig.api_key c
                 | None => None
                 end) = false
  \/ truthy_string (Auth.provider_name auth) = false ->
  exists message, validateAuth (Some auth) = inl (BadRequestException message).
Proof.
  intros Htype Hmissing. unfold validateAuth.
  rewrite Htype. cbn [String.eqb Ascii.eqb Bool.eqb negb].
  destruct (truthy_string
              (match Auth.config auth with
               | Some c => AuthConfig.api_key c
               | None => None
               end)) eqn:Hkey; cbn [negb]; [|eauto].
  destruct Hmissing as [Hm|Hm]; [discriminate|].
  rewrite Hm. cbn [negb]. eauto.
Qed.

End CreationProperties.

(** A second target named [todos] on [G1], through [/tools/from-spec]. *)
Lemma C6_witness :
  fst (POST_tools_from_spec (control_plane one_target) "us-east-1" "specs"
         fixed_clock fixed_random no_stringify
         (FromSpec.mk "G1" "todos" (Some (JObj [("openapi", JStr "3.1.0")]))
            None) [])
  = mk_response 500
      (BodyStatusError 500 "A target with this name already exists").
Proof.
  apply (proj1 (C6_conflict_answers_500 (control_plane one_target)
                  "us-east-1" "specs" fixed_clock fixed_random no_stringify
                  fixed_generator todos_again todos_again_history conflict
                  (or_introl eq_refl) eq_refl)
           (FromSpec.mk "G1" "todos"
              (Some (JObj [("openapi", JStr "3.1.0")])) None)).
  reflexivity.
Defined.

(** A registration without authentication. *)
Lemma C9_witness :
  exists p,
    history_of (registerToolWithGateway (control_plane []) "G1" "todos"
                  "s3://specs/gateways/G1/tools/todos/1700000000-abababababababab.json"
                  None None [])
    = [CreateGatewayTargetCommand p;
       CreateApiKeyCredentialProviderCommand
         (Some "todos-placeholder-apikey") (Some "placeholder-not-used")]
    /\ CreateTarget.targetConfiguration p
       = JObj [("mcp", JObj [("openApiSchema",
                 JObj [("s3", JObj [("uri",
                   JStr "s3://specs/gateways/G1/tools/todos/1700000000-abababababababab.json")])])])]
    /\ CreateTarget.credentialProviderConfigurations p
       = JArr [JObj [("credentialProviderType", JStr "API_KEY");
                     ("credentialProvider",
                      JObj [("apiKeyCredentialProvider",
                        JObj [("credentialParameterName",
                               JStr "X-Placeholder-Auth");
                              ("providerArn",
                               JStr "arn:provider/todos-placeholder-apikey");
                              ("credentialLocation", JStr "HEADER")])])]].
Proof.
  assert (Hauth : forall a, @None Auth.dto = Some a ->
                            Auth.type a <> "api_key").
  { intros a H. discriminate H. }
  destruct (proj2 (C9_placeholder_credential_provider (control_plane [])
                     "G1" "todos"
                     "s3://specs/gateways/G1/tools/todos/1700000000-abababababababab.json"
                     None None [] Hauth)
              [("credentialProviderArn",
                JStr "arn:provider/todos-placeholder-apikey")] eq_refl)
    as (p & Hp & _ & _ & Hconfig & Hcreds & _).
  exists p. split; [exact Hp|split; [exact Hconfig|exact Hcreds]].
Defined.

(** * Further properties of the services and routes *)

(** ** Reading, listing and deleting tools *)

Lemma includes_app_right (needle a b : string) :
  includes needle b = true -> includes needle (a ++ b) = true.
Proof.
  intros H. induction a as [|c a IH]; [exact H|].
  cbn [append includes]. rewrite IH. apply orb_true_r.
Qed.

Lemma target_not_found_message (targetId gatewayId : string) :
  includes "not found" (exn_message (target_not_found targetId gatewayId))
  = true.
Proof.
  unfold target_not_found. cbn [exn_message].
  apply (includes_app_right _ "Target '").
  apply includes_app_right. reflexivity.
Qed.

Lemma map_items_nonnull (f : json -> reply) (l : list json) :
  Forall (fun item => item <> JNull) l ->
  AppController.map_items f l = inr (map f l).
Proof.
  induction 1 as [|item rest Hitem _ IH]; [reflexivity|].
  cbn [AppController.map_items map]. rewrite IH.
  destruct item; try reflexivity. contradiction.
Qed.

Section ToolRouteProperties.

Variable send : service.

(** X1: a target that the service does not know is answered 404 by the
    routes that read and delete a tool, with the message that names the
    target and the gateway, after the one request. *)
Theorem unknown_tool_is_404
    (gatewayId targetId : string) (h : history) (e : exn) :
  exn_name e = "ResourceNotFoundException" ->
  let refusal :=
    AppController.Refused
      (mk_response 404
         (BodyStatusMessage 404
            ("Target '" ++ targetId ++ "' not found on gateway '"
             ++ gatewayId ++ "'") None)) in
  (send h (GetGatewayTargetCommand gatewayId targetId) = inl e ->
   AppController.serve 200 (AppController.getTool send gatewayId targetId) h
   = (refusal, GetGatewayTargetCommand gatewayId targetId :: h))
  /\
  (send h (DeleteGatewayTargetCommand gatewayId targetId) = inl e ->
   AppController.serve 200 (AppController.deleteTool send gatewayId targetId) h
   = (refusal, DeleteGatewayTargetCommand gatewayId targetId :: h)).
Proof.
  intros Hname refusal. apply String.eqb_eq in Hname.
  pose proof (target_not_found_message targetId gatewayId) as Hmsg.
  split; intros Hsend.
  - unfold AppController.serve, AppController.getTool, getGatewayTarget,
      AppController.not_found_or_500.
    unfold_io. rewrite Hsend, Hname, Hmsg. reflexivity.
  - unfold AppController.serve, AppController.deleteTool, deleteGatewayTarget,
      AppController.not_found_or_500.
    unfold_io. rewrite Hsend, Hname, Hmsg. reflexivity.
Qed.

(** X2: for any other exception the status follows the text of its
    message: 404 when the message contains 'not found', whatever the
    kind of the exception, and 500 with a [{status, error}] body
    otherwise. *)
Theorem status_follows_message_text
    (gatewayId targetId : string) (h : history) (e : exn) :
  exn_name e <> "ResourceNotFoundException" ->
  let refusal :=
    AppController.Refused
      (if includes "not found" (exn_message e)
       then mk_response 404 (BodyStatusMessage 404 (exn_message e) None)
       else mk_response 500 (BodyStatusError 500 (exn_message e))) in
  (send h (GetGatewayTargetCommand gatewayId targetId) = inl e ->
   AppController.serve 200 (AppController.getTool send gatewayId targetId) h
   = (refusal, GetGatewayTargetCommand gatewayId targetId :: h))
  /\
  (send h (DeleteGatewayTargetCommand gatewayId targetId) = inl e ->
   AppController.serve 200 (AppController.deleteTool send gatewayId targetId) h
   = (refusal, DeleteGatewayTargetCommand gatewayId targetId :: h)).
Proof.
  intros Hname refusal. apply String.eqb_neq in Hname. subst refusal.
  split; intros Hsend.
  - unfold AppController.serve, AppController.getTool, getGatewayTarget,
      AppController.not_found_or_500.
    unfold_io. rewrite Hsend, Hname.
    destruct (includes "not found" (exn_message e)); reflexivity.
  - unfold AppController.serve, AppController.deleteTool, deleteGatewayTarget,
      AppController.not_found_or_500.
    unfold_io. rewrite Hsend, Hname.
    destruct (includes "not found" (exn_message e)); reflexivity.
Qed.

(** X3: on the two list routes a [maxResults] outside [1, 1000] is
    answered 500 with the message of the bound in a [{status, error}]
    body, and no request is sent: the [BadRequestException] of the route
    is wrapped by its own [catch]. *)
Theorem list_routes_bound_is_500
    (gatewayId : string) (m : number) (nextToken : option string)
    (h : history) :
  outside_1_1000 m ->
  let refusal :=
    AppController.Refused
      (mk_response 500
         (BodyStatusError 500 "maxResults must be between 1 and 1000")) in
  AppController.serve 200
    (AppController.listGateways send (Some m) nextToken) h = (refusal, h)
  /\
  AppController.serve 200
    (AppController.listTools send gatewayId (Some m) nextToken) h
  = (refusal, h).
Proof.
  intros Hout refusal. apply guard_outside in Hout.
  unfold AppController.serve, AppController.listGateways,
    AppController.listTools, AppController.check_maxResults.
  unfold_io. rewrite Hout. split; reflexivity.
Qed.

(** X4: when the list request is answered, the list routes answer 200
    with one summary per item, in the order of the answer, the count in
    the message and the token of the next page; an answer without
    [items] gives the empty list. *)
Theorem list_routes_summarise
    (gatewayId : string) (nextToken : option string) (h : history)
    (response : obj) :
  let token := if truthy_string nextToken then nextToken else None in
  let targets :=
    ListGatewayTargetsCommand (ListTargets.mk gatewayId None token) in
  let gateways := ListGatewaysCommand (ListGateways.mk None token) in
  (forall l,
     send h targets = inr response ->
     assoc "items" response = Some (JArr l) ->
     Forall (fun item => item <> JNull) l ->
     AppController.serve 200
       (AppController.listTools send gatewayId None nextToken) h
     = (AppController.Answered 200
          (AppController.mk_listing "success"
             (AppController.retrieved (List.length l) "target(s)")
             (map AppController.target_summary l)
             (assoc "nextToken" response)),
        targets :: h))
  /\
  (send h gateways = inr response ->
   assoc "items" response = None ->
   AppController.serve 200
     (AppController.listGateways send None nextToken) h
   = (AppController.Answered 200
        (AppController.mk_listing "success" "Retrieved 0 gateway(s)" []
           (assoc "nextToken" response)),
      gateways :: h)).
Proof.
  cbv zeta. split.
  - intros l Hsend Hitems Hnonnull.
    unfold AppController.serve, AppController.listTools,
      AppController.check_maxResults, listGatewayTargets,
      AppController.items_or_empty.
    unfold_io.
    destruct (truthy_string nextToken);
      cbv beta iota zeta
        delta [fst snd ListTargets.gatewayIdentifier ListTargets.maxResults
               ListTargets.nextToken];
      rewrite Hsend, Hitems; cbn [truthy];
      rewrite (map_items_nonnull _ _ Hnonnull);
      cbv beta iota zeta; rewrite length_map; reflexivity.
  - intros Hsend Hitems.
    unfold AppController.serve, AppController.listGateways,
      AppController.check_maxResults, listGateways,
      AppController.items_or_empty.
    unfold_io.
    destruct (truthy_string nextToken);
      cbv beta iota zeta
        delta [fst snd ListGateways.maxResults ListGateways.nextToken];
      rewrite Hsend, Hitems; reflexivity.
Qed.

End ToolRouteProperties.

Lemma unknown_tool_is_404_witness :
  AppController.serve 200
    (AppController.getTool (control_plane one_target) "G1" "NOPE") []
  = (AppController.Refused
       (mk_response 404
          (BodyStatusMessage 404 "Target 'NOPE' not found on gateway 'G1'"
             None)),
     [GetGatewayTargetCommand "G1" "NOPE"]).
Proof.
  apply (proj1 (unknown_tool_is_404 (control_plane one_target) "G1" "NOPE" []
                  resource_not_found eq_refl)).
  reflexivity.
Defined.

Lemma status_follows_message_text_witness :
  AppController.serve 200
    (AppController.deleteTool (refusing role_missing) "G1" "T1") []
  = (AppController.Refused
       (mk_response 404
          (BodyStatusMessage 404 "Execution role not found for this account"
             None)),
     [DeleteGatewayTargetCommand "G1" "T1"]).
Proof.
  assert (Hname : exn_name role_missing <> "ResourceNotFoundException")
    by discriminate.
  apply (proj2 (status_follows_message_text (refusing role_missing)
                  "G1" "T1" [] role_missing Hname)).
  reflexivity.
Defined.

Lemma list_routes_bound_is_500_witness :
  AppController.serve 200
    (AppController.listTools listing_plane "G1" (Some (number_of_Z 1001)) None)
    []
  = (AppController.Refused
       (mk_response 500
          (BodyStatusError 500 "maxResults must be between 1 and 1000")),
     []).
Proof.
  apply (proj2 (list_routes_bound_is_500 listing_plane "G1"
                  (number_of_Z 1001) None [] (or_intror eq_refl))).
Defined.

Lemma list_routes_summarise_witness :
  exists first second,
    AppController.serve 200
      (AppController.listTools listing_plane "G1" None None) []
    = (AppController.Answered 200
         (AppController.mk_listing "success" "Retrieved 2 target(s)"
            [first; second] (Some (JStr "page-2"))),
       [ListGatewayTargetsCommand (ListTargets.mk "G1" None None)]).
Proof.
  eexists. eexists.
  apply (proj1 (list_routes_summarise listing_plane "G1" None [] _)
           _ eq_refl eq_refl).
  repeat constructor; discriminate.
Defined.

(** ** Validation *)

(** X5: [validateAuth] accepts exactly the absent authentication, the
    authentication of another type, and the [api_key] authentication
    whose key and provider name are both non-empty; what it raises is
    always a [BadRequestException]. *)
Theorem validateAuth_accepts_iff (auth : option Auth.dto) :
  (validateAuth auth = inr tt <->
   match auth with
   | None => True
   | Some a =>
       Auth.type a <> "api_key" \/
       (truthy_string (match Auth.config a with
                       | Some c => AuthConfig.api_key c
                       | None => None
                       end) = true
        /\ truthy_string (Auth.provider_name a) = true)
   end)
  /\
  (forall e, validateAuth auth = inl e ->
             instanceof_BadRequestException e = true).
Proof.
  unfold validateAuth. destruct auth as [a|].
  2: { split; [tauto|discriminate]. }
  destruct (Auth.type a =? "api_key") eqn:Htype; cbn [negb].
  - apply String.eqb_eq in Htype.
    destruct (truthy_string
                (match Auth.config a with
                 | Some c => AuthConfig.api_key c
                 | None => None
                 end)); cbn [negb].
    + destruct (truthy_string (Auth.provider_name a)); cbn [negb].
      * split; [tauto|discriminate].
      * split; [|intros e H; injection H as <-; reflexivity].
        split; [discriminate|]. intros [H|[_ H]]; [contradiction|discriminate].
    + split; [|intros e H; injection H as <-; reflexivity].
      split; [discriminate|]. intros [H|[H _]]; [contradiction|discriminate].
  - apply String.eqb_neq in Htype. split; [tauto|discriminate].
Qed.

(** X6: [validateOpenApiSpec] accepts a document exactly when its
    [openapi] or its [swagger] property is truthy, so a document that is
    no object is refused; it refuses with a [BadRequestException], except
    for [null] and [undefined], on which reading the property raises a
    [TypeError]. *)
Theorem validateOpenApiSpec_accepts_iff (spec : value) :
  (validateOpenApiSpec spec = inr tt <->
   exists j, spec = Some j /\ j <> JNull /\
             (truthy (get j "openapi") = true \/
              truthy (get j "swagger") = true))
  /\
  (forall e, validateOpenApiSpec spec = inl e ->
     match spec with
     | None | Some JNull => exists m, e = TypeError m
     | Some _ =>
         e = BadRequestException
               "OpenAPI spec must contain 'openapi' or 'swagger' field"
     end).
Proof.
  unfold validateOpenApiSpec.
  destruct spec as [j|].
  2: { split; [|intros e H; injection H as <-; eauto].
       split; [discriminate|]. intros (j & H & _). discriminate H. }
  assert (Hcases :
    j = JNull \/
    (j <> JNull /\
     validateOpenApiSpec (Some j)
     = if negb (truthy (get j "openapi")) && negb (truthy (get j "swagger"))
       then inl (BadRequestException
                   "OpenAPI spec must contain 'openapi' or 'swagger' field")
       else inr tt)).
  { destruct j; [left; reflexivity|right; split; [discriminate|reflexivity]..]. }
  destruct Hcases as [->|[Hnonnull Hrun]].
  - split; [|intros e H; injection H as <-; eauto].
    split; [discriminate|]. intros (j & H & Hj & _).
    injection H as <-. contradiction.
  - unfold validateOpenApiSpec in Hrun. rewrite Hrun.
    assert (Haccept :
      truthy (get j "openapi") = true \/ truthy (get j "swagger") = true ->
      exists j', Some j = Some j' /\ j' <> JNull /\
                 (truthy (get j' "openapi") = true \/
                  truthy (get j' "swagger") = true)).
    { intros H. exists j. auto. }
    destruct (truthy (get j "openapi")) eqn:Ho; cbn [negb andb].
    { split; [split; auto|discriminate]. }
    destruct (truthy (get j "swagger")) eqn:Hs; cbn [negb andb].
    { split; [split; auto|discriminate]. }
    split.
    + split; [discriminate|].
      intros (j' & H & _ & Hk). injection H as <-.
      rewrite Ho, Hs in Hk. destruct Hk; discriminate.
    + intros e H. injection H as <-. destruct j; try reflexivity.
      contradiction.
Qed.

Lemma validateAuth_accepts_iff_witness :
  validateAuth
    (Some (Auth.mk "api_key" (Some "todos-key")
             (Some (AuthConfig.mk (Some "s3cr3t") None None))))
  = inr tt
  /\ instanceof_BadRequestException
       (BadRequestException
          ("auth.provider_name is required when auth.type is "
           ++ dquote ++ "api_key" ++ dquote)) = true.
Proof.
  split.
  - apply (proj1 (validateAuth_accepts_iff _)). right. split; reflexivity.
  - apply (proj2 (validateAuth_accepts_iff
                    (Some (Auth.mk "api_key" None
                             (Some (AuthConfig.mk (Some "s3cr3t") None None)))))).
    reflexivity.
Defined.

Lemma validateOpenApiSpec_accepts_iff_witness :
  validateOpenApiSpec (Some (JObj [("swagger", JStr "2.0")])) = inr tt
  /\ (exists m, TypeError "Cannot read properties of null" = TypeError m).
Proof.
  split.
  - apply (proj1 (validateOpenApiSpec_accepts_iff _)).
    eexists. split; [reflexivity|]. split; [discriminate|].
    right. reflexivity.
  - apply (proj2 (validateOpenApiSpec_accepts_iff (Some JNull))).
    reflexivity.
Defined.

(** ** Creating a tool: upload, credential provider, target *)

Section RegistrationProperties.

Variable send : service.
Variable awsRegion : string.
Variable OPENAPI_SPECS_BUCKET : string.
Variable Date_now : history -> Z.
Variable randomBytes : history -> nat -> list Byte.byte.
Variable JSON_stringify : json -> string.

(** The request that creates a target comes right after a request that
    created a credential provider, and carries the ARN that was answered,
    the URI it was given, and the names of the tool and the gateway. *)
Lemma register_target_request
    (gatewayId targetName openApiS3Uri : string) (auth : option Auth.dto)
    (description : option string) (h : history)
    (p : CreateTarget.params) (h' : history) :
  not_create_head h ->
  history_of (registerToolWithGateway send gatewayId targetName openApiS3Uri
                auth description h)
  = CreateGatewayTargetCommand p :: h' ->
  exists providerName apiKey created paramName location,
    h' = CreateApiKeyCredentialProviderCommand providerName apiKey :: h
    /\ send h (CreateApiKeyCredentialProviderCommand providerName apiKey)
       = inr created
    /\ CreateTarget.credentialProviderConfigurations p
       = JArr [api_key_credential_config paramName
                 (JStr (or_default
                          (string_field "credentialProviderArn" created) ""))
                 location]
    /\ CreateTarget.targetConfiguration p = target_config openApiS3Uri
    /\ CreateTarget.name p = targetName
    /\ CreateTarget.gatewayIdentifier p = gatewayId.
Proof.
  intros Hh.
  unfold registerToolWithGateway, createOrGetApiKeyCredentialProvider,
    createGatewayTarget, history_of.
  unfold_io.
  split_run send.
  all: intros H; try (rewrite H in Hh; destruct Hh).
  all: inversion H; subst; clear H.
  all: do 5 eexists; split; [reflexivity|]; split; [eassumption|];
    repeat split.
Qed.

(** A successful upload ends on the request that put the object, and
    returns the URI of the bucket and key of that request. *)
Lemma upload_put_request
    (spec : json) (toolName gatewayId : string) (bucketName : option string)
    (h : history) (s3Uri : string) :
  result_of (uploadOpenApiSpec send awsRegion Date_now randomBytes
               JSON_stringify spec toolName gatewayId bucketName h)
  = inr s3Uri ->
  exists bucket key rest,
    history_of (uploadOpenApiSpec send awsRegion Date_now randomBytes
                  JSON_stringify spec toolName gatewayId bucketName h)
    = PutObjectCommand bucket key (JSON_stringify spec) "application/json"
        :: rest
    /\ s3Uri = "s3://" ++ bucket ++ "/" ++ key.
Proof.
  unfold uploadOpenApiSpec, ensureS3Bucket, create_bucket_command,
    history_of, result_of.
  unfold_io.
  split_run send.
  all: intros H; try discriminate H.
  all: injection H as <-; do 3 eexists; split; reflexivity.
Qed.

(** X7: with an [api_key] authentication, [registerToolWithGateway]
    first creates the credential provider with the caller's provider name
    and key; the target is then created with the specification's URI
    under [mcp.openApiSchema.s3.uri] and exactly one credential
    configuration: of type 'API_KEY', with the answered ARN, and with the
    caller's parameter name and location, or 'api_key' and
    'QUERY_PARAMETER' where they are missing or empty. *)
Theorem register_with_api_key
    (gatewayId targetName openApiS3Uri : string) (a : Auth.dto)
    (c : AuthConfig.dto) (description : option string) (h : history)
    (created : obj) :
  Auth.type a = "api_key" ->
  Auth.config a = Some c ->
  let provider :=
    CreateApiKeyCredentialProviderCommand (Auth.provider_name a)
      (AuthConfig.api_key c) in
  send h provider = inr created ->
  exists p,
    history_of (registerToolWithGateway send gatewayId targetName openApiS3Uri
                  (Some a) description h)
    = CreateGatewayTargetCommand p :: provider :: h
    /\ CreateTarget.gatewayIdentifier p = gatewayId
    /\ CreateTarget.name p = targetName
    /\ CreateTarget.targetConfiguration p
       = JObj [("mcp", JObj [("openApiSchema",
                 JObj [("s3", JObj [("uri", JStr openApiS3Uri)])])])]
    /\ CreateTarget.credentialProviderConfigurations p
       = JArr [JObj [("credentialProviderType", JStr "API_KEY");
                     ("credentialProvider",
                      JObj [("apiKeyCredentialProvider",
                        JObj [("credentialParameterName",
                               JStr match AuthConfig.api_key_param_name c with
                                    | Some (String x name) => String x name
                                    | _ => "api_key"
                                    end);
                              ("providerArn",
                               JStr match string_field
                                            "credentialProviderArn" created
                                    with
                                    | Some arn => arn
                                    | None => ""
                                    end);
                              ("credentialLocation",
                               JStr match AuthConfig.api_key_location c with
                                    | Some (String x location) =>
                                        String x location
                                    | _ => "QUERY_PARAMETER"
                                    end)])])]]
    /\ result_of (registerToolWithGateway send gatewayId targetName
                    openApiS3Uri (Some a) description h)
       = match send (provider :: h) (CreateGatewayTargetCommand p) with
         | inr target => inr target
         | inl e =>
             inl (if code_is e "ConflictException"
                  then target_exists targetName gatewayId else e)
         end.
Proof.
  intros Htype Hconfig provider Hcreated. apply String.eqb_eq in Htype.
  unfold registerToolWithGateway, createOrGetApiKeyCredentialProvider,
    createGatewayTarget, history_of, result_of.
  unfold_io. rewrite Htype, Hconfig. fold provider.
  cbv beta iota zeta delta [fst snd]. rewrite Hcreated.
  cbv beta iota zeta delta [fst snd].
  eexists. split.
  { match goal with
    | |- context [match ?answer with inl _ => _ | inr _ => _ end] =>
        destruct answer as [e|target]
    end; [destruct (code_is e "ConflictException")|]; reflexivity. }
  split; [reflexivity|]. split; [reflexivity|]. split; [reflexivity|].
  split.
  { rewrite <- or_default_empty, <- !or_default_cases. reflexivity. }
  cbv beta iota zeta delta [fst snd].
  match goal with
  | |- context [match ?answer with inl _ => _ | inr _ => _ end] =>
      destruct answer as [e|target]
  end; [destruct (code_is e "ConflictException")|]; reflexivity.
Qed.


(** X9: whenever [createToolWithSpec] asks for a target to be created, it
    has put the specification in the bucket and then created a credential
    provider; the target carries, under [mcp.openApiSchema.s3.uri], the
    URI 's3://{bucket}/{key}' of that very object, and exactly one
    credential configuration, of type 'API_KEY' and with the ARN that
    the creation of that provider answered. *)
Theorem target_points_at_uploaded_object
    (gatewayId toolName : string) (spec : json) (auth : option Auth.dto)
    (description : option string) (h : history)
    (p : CreateTarget.params) (h' : history) :
  history_of (createToolWithSpec send awsRegion OPENAPI_SPECS_BUCKET Date_now
                randomBytes JSON_stringify gatewayId toolName spec auth
                description h)
  = CreateGatewayTargetCommand p :: h' ->
  exists providerName apiKey created paramName location bucket key rest,
    h' = CreateApiKeyCredentialProviderCommand providerName apiKey
           :: PutObjectCommand bucket key (JSON_stringify spec)
                "application/json"
           :: rest
    /\ CreateTarget.targetConfiguration p
       = JObj [("mcp", JObj [("openApiSchema",
                 JObj [("s3",
                   JObj [("uri",
                          JStr ("s3://" ++ bucket ++ "/" ++ key))])])])]
    /\ send (PutObjectCommand bucket key (JSON_stringify spec)
               "application/json" :: rest)
         (CreateApiKeyCredentialProviderCommand providerName apiKey)
       = inr created
    /\ CreateTarget.credentialProviderConfigurations p
       = JArr [JObj [("credentialProviderType", JStr "API_KEY");
                     ("credentialProvider",
                      JObj [("apiKeyCredentialProvider",
                        JObj [("credentialParameterName", JStr paramName);
                              ("providerArn",
                               JStr match string_field
                                            "credentialProviderArn" created
                                    with
                                    | Some arn => arn
                                    | None => ""
                                    end);
                              ("credentialLocation", JStr location)])])]]
    /\ CreateTarget.name p = toolName
    /\ CreateTarget.gatewayIdentifier p = gatewayId.
Proof.
  unfold createToolWithSpec, bind.
  pose proof (upload_history send awsRegion Date_now randomBytes
                JSON_stringify spec toolName gatewayId
                (Some OPENAPI_SPECS_BUCKET) h) as Hup.
  pose proof (upload_put_request spec toolName gatewayId
                (Some OPENAPI_SPECS_BUCKET) h) as Hput.
  unfold history_of, result_of in *.
  destruct (uploadOpenApiSpec send awsRegion Date_now randomBytes
              JSON_stringify spec toolName gatewayId
              (Some OPENAPI_SPECS_BUCKET) h) as [[e1|s3Uri] h1];
    cbn [fst snd] in *.
  - intros H. rewrite H in Hup. destruct Hup.
  - destruct (Hput s3Uri eq_refl) as (bucket & key & rest & -> & ->).
    pose proof (register_target_request gatewayId toolName
                  ("s3://" ++ bucket ++ "/" ++ key) auth description
                  _ p h' Hup) as Hreg.
    unfold history_of in Hreg.
    destruct (registerToolWithGateway send gatewayId toolName
                ("s3://" ++ bucket ++ "/" ++ key) auth description _)
      as [[e2|result] h2]; cbn [fst snd ret] in *; intros H;
      destruct (Hreg H)
        as (providerName & apiKey & created & paramName & location
            & -> & Hcreated & Hcreds & Hcfg & Hname & Hgw);
      rewrite or_default_empty in Hcreds;
      exists providerName, apiKey, created, paramName, location,
             bucket, key, rest; repeat split; assumption.
Qed.

(** X10: a bucket that may not be inspected stops the creation at once:
    when the check of the bucket is refused with anything but a missing
    bucket, [createToolWithSpec] fails with that exception and has sent
    nothing else -- no bucket is created, nothing is uploaded, no
    credential provider and no target is created. *)
Theorem forbidden_bucket_stops_creation
    (gatewayId toolName : string) (spec : json) (auth : option Auth.dto)
    (description : option string) (h : history) (e : exn) :
  OPENAPI_SPECS_BUCKET <> "" ->
  send h (HeadBucketCommand OPENAPI_SPECS_BUCKET) = inl e ->
  bucket_missing e = false ->
  createToolWithSpec send awsRegion OPENAPI_SPECS_BUCKET Date_now randomBytes
    JSON_stringify gatewayId toolName spec auth description h
  = (inl e, HeadBucketCommand OPENAPI_SPECS_BUCKET :: h).
Proof.
  intros Hname Hcheck Hmissing.
  unfold createToolWithSpec, uploadOpenApiSpec, ensureS3Bucket.
  unfold_io. rewrite (truthy_nonempty _ Hname). cbn [tpl].
  rewrite Hcheck, Hmissing. reflexivity.
Qed.

(** X11: without a bucket name (undefined or empty) the upload asks STS
    for the account and then proceeds as with the bucket
    [agentcore-gateways-targets-openapi-specs-{account}-{region}], the
    account reading [undefined] when the answer has none. *)
Theorem upload_default_bucket
    (spec : json) (toolName gatewayId : string) (bucketName : option string)
    (h : history) (identity : obj) :
  truthy_string bucketName = false ->
  send h GetCallerIdentityCommand = inr identity ->
  uploadOpenApiSpec send awsRegion Date_now randomBytes JSON_stringify
    spec toolName gatewayId bucketName h
  = uploadOpenApiSpec send awsRegion Date_now randomBytes JSON_stringify
      spec toolName gatewayId
      (Some ("agentcore-gateways-targets-openapi-specs-"
             ++ tpl (string_field "Account" identity) ++ "-" ++ awsRegion))
      (GetCallerIdentityCommand :: h).
Proof.
  intros Hname Hsts.
  unfold uploadOpenApiSpec, ensureS3Bucket. unfold_io.
  rewrite Hname. cbn [negb]. rewrite Hsts. reflexivity.
Qed.

End RegistrationProperties.

Section CreationRouteProperties.

Variable send : service.
Variable awsRegion : string.
Variable OPENAPI_SPECS_BUCKET : string.
Variable Date_now : history -> Z.
Variable randomBytes : history -> nat -> list Byte.byte.
Variable JSON_stringify : json -> string.

(** X12: a document that is no specification is answered 400 by
    [/tools/from-spec] before any request, but 500 by [/tools/from-url],
    which has only downloaded it; neither uploads nor registers
    anything. *)
Theorem invalid_document_by_route
    (gatewayId toolName specUrl : string) (auth : option Auth.dto)
    (response : obj) (message : string) (h : history) :
  validateAuth auth = inr tt ->
  send h (AxiosGet specUrl) = inr response ->
  validateOpenApiSpec (assoc "data" response)
  = inl (BadRequestException message) ->
  POST_tools_from_url send awsRegion OPENAPI_SPECS_BUCKET Date_now
    randomBytes JSON_stringify
    (FromUrl.mk gatewayId toolName specUrl auth) h
  = (mk_response 500 (BodyStatusError 500 message), AxiosGet specUrl :: h)
  /\
  POST_tools_from_spec send awsRegion OPENAPI_SPECS_BUCKET Date_now
    randomBytes JSON_stringify
    (FromSpec.mk gatewayId toolName (assoc "data" response) auth) h
  = (mk_response 400 (BodyStatusMessage 400 message (Some "Bad Request")), h).
Proof.
  intros Hauth Hget Hspec.
  unfold POST_tools_from_url, POST_tools_from_spec, route, createToolFromUrl,
    createToolFromSpec, downloadAndCreateTool, validated_spec.
  unfold_io.
  cbn [FromUrl.auth FromUrl.openapi_spec_url FromSpec.auth
       FromSpec.openapi_spec].
  rewrite Hauth. cbv beta iota zeta delta [fst snd].
  rewrite Hget. cbv beta iota zeta delta [fst snd].
  rewrite Hspec. split; reflexivity.
Qed.

(** X13: the whole creation on [/tools/from-spec], without [api_key]
    authentication and with the bucket there: the bucket is checked, the
    specification is put, the placeholder provider and then the target
    are created, in this order, and the answer is 201 with the URI of the
    object as [openapi_spec_path] and the fields of the created target. *)
Theorem from_spec_creates_in_order
    (gatewayId toolName : string) (spec : json) (auth : option Auth.dto)
    (checked stored provided target : obj) :
  (forall a, auth = Some a -> Auth.type a <> "api_key") ->
  validateOpenApiSpec (Some spec) = inr tt ->
  OPENAPI_SPECS_BUCKET <> "" ->
  let check := HeadBucketCommand OPENAPI_SPECS_BUCKET in
  let objectKey :=
    "gateways/" ++ gatewayId ++ "/tools/" ++ toolName ++ "/"
    ++ decimal (Date_now [check] / 1000) ++ "-"
    ++ to_hex (randomBytes [check] 8) ++ ".json" in
  let put :=
    PutObjectCommand OPENAPI_SPECS_BUCKET objectKey (JSON_stringify spec)
      "application/json" in
  let s3Uri := "s3://" ++ OPENAPI_SPECS_BUCKET ++ "/" ++ objectKey in
  let provider :=
    CreateApiKeyCredentialProviderCommand
      (Some (toolName ++ "-placeholder-apikey"))
      (Some "placeholder-not-used") in
  let creation :=
    CreateGatewayTargetCommand
      (CreateTarget.mk gatewayId toolName ("OpenAPI target: " ++ toolName)
         (target_config s3Uri)
         (JArr [api_key_credential_config "X-Placeholder-Auth"
                  (JStr (or_default
                           (string_field "credentialProviderArn" provided) ""))
                  "HEADER"])) in
  send [] check = inr checked ->
  send [check] put = inr stored ->
  send [put; check] provider = inr provided ->
  send [provider; put; check] creation = inr target ->
  exists reply,
    POST_tools_from_spec send awsRegion OPENAPI_SPECS_BUCKET Date_now
      randomBytes JSON_stringify
      (FromSpec.mk gatewayId toolName (Some spec) auth) []
    = (mk_response 201 (BodyReply reply), [creation; provider; put; check])
    /\ In ("status", Some (JStr "success")) reply
    /\ In ("openapi_spec_path", Some (JStr s3Uri)) reply
    /\ In ("target_id", assoc "targetId" target) reply
    /\ In ("target_status", assoc "status" target) reply.
Proof.
  intros Hauth Hspec Hname check objectKey put s3Uri provider creation
    Hcheck Hput Hprovider Hcreation.
  apply not_api_key in Hauth.
  assert (Hvalid : validateAuth auth = inr tt).
  { unfold validateAuth. destruct auth as [a|]; [rewrite Hauth|];
      reflexivity. }
  unfold POST_tools_from_spec, route, createToolFromSpec, validated_spec,
    createToolWithSpec, uploadOpenApiSpec, ensureS3Bucket, object_key,
    registerToolWithGateway, createOrGetApiKeyCredentialProvider,
    createGatewayTarget.
  unfold_io.
  cbn [FromSpec.auth FromSpec.openapi_spec FromSpec.gateway_id
       FromSpec.tool_name].
  rewrite Hvalid, Hspec, (truthy_nonempty _ Hname). cbn [tpl].
  fold check. rewrite Hcheck. cbv beta iota zeta delta [fst snd].
  fold objectKey. fold put. rewrite Hput.
  cbv beta iota zeta delta [fst snd]. fold s3Uri.
  assert (Hdefaults :
    match auth with
    | Some a =>
        if Auth.type a =? "api_key"
        then
          match Auth.config a with
          | Some c =>
              @ret (option string * option string * string * string)
                (AuthConfig.api_key c, Auth.provider_name a,
                 or_default (AuthConfig.api_key_param_name c) "api_key",
                 or_default (AuthConfig.api_key_location c) "QUERY_PARAMETER")
          | None => throw (TypeError "Cannot read properties of undefined")
          end
        else
          ret (Some "placeholder-not-used",
               Some (toolName ++ "-placeholder-apikey"),
               "X-Placeholder-Auth", "HEADER")
    | None =>
        ret (Some "placeholder-not-used",
             Some (toolName ++ "-placeholder-apikey"),
             "X-Placeholder-Auth", "HEADER")
    end
    = ret (Some "placeholder-not-used",
           Some (toolName ++ "-placeholder-apikey"),
           "X-Placeholder-Auth", "HEADER")).
  { destruct auth as [a|]; [rewrite Hauth|]; reflexivity. }
  unfold ret, throw in Hdefaults. rewrite Hdefaults.
  cbv beta iota zeta delta [fst snd]. fold provider. rewrite Hprovider.
  cbv beta iota zeta delta [fst snd truthy_string].
  fold creation. rewrite Hcreation.
  eexists. split; [reflexivity|].
  cbn [In]. repeat split.
  all: solve [repeat (first [left; reflexivity | right])].
Qed.

End CreationRouteProperties.

Lemma register_with_api_key_witness :
  exists p,
    history_of (registerToolWithGateway (control_plane []) "G1" "todos"
                  "s3://specs/gateways/G1/tools/todos/1700000000-abababababababab.json"
                  (Some (Auth.mk "api_key" (Some "todos-key")
                           (Some (AuthConfig.mk (Some "s3cr3t") None None))))
                  None [])
    = [CreateGatewayTargetCommand p;
       CreateApiKeyCredentialProviderCommand (Some "todos-key")
         (Some "s3cr3t")]
    /\ CreateTarget.targetConfiguration p
       = JObj [("mcp", JObj [("openApiSchema",
                 JObj [("s3", JObj [("uri",
                   JStr "s3://specs/gateways/G1/tools/todos/1700000000-abababababababab.json")])])])]
    /\ CreateTarget.credentialProviderConfigurations p
       = JArr [JObj [("credentialProviderType", JStr "API_KEY");
                     ("credentialProvider",
                      JObj [("apiKeyCredentialProvider",
                        JObj [("credentialParameterName", JStr "api_key");
                              ("providerArn", JStr "arn:provider/todos-key");
                              ("credentialLocation",
                               JStr "QUERY_PARAMETER")])])]].
Proof.
  destruct (register_with_api_key (control_plane []) "G1" "todos"
              "s3://specs/gateways/G1/tools/todos/1700000000-abababababababab.json"
              (Auth.mk "api_key" (Some "todos-key")
                 (Some (AuthConfig.mk (Some "s3cr3t") None None)))
              (AuthConfig.mk (Some "s3cr3t") None None) None []
              [("credentialProviderArn", JStr "arn:provider/todos-key")]
              eq_refl eq_refl eq_refl)
    as (p & Hp & _ & _ & Hconfig & Hcreds & _).
  exists p. split; [exact Hp|split; [exact Hconfig|exact Hcreds]].
Defined.


Lemma target_points_at_uploaded_object_witness :
  exists p,
    history_of (createToolWithSpec (control_plane one_target) "us-east-1"
                  "specs" fixed_clock fixed_random no_stringify
                  "G1" "todos" (JObj []) None None [])
    = [CreateGatewayTargetCommand p;
       CreateApiKeyCredentialProviderCommand
         (Some "todos-placeholder-apikey") (Some "placeholder-not-used");
       PutObjectCommand "specs"
         "gateways/G1/tools/todos/1700000000-abababababababab.json" "{}"
         "application/json";
       HeadBucketCommand "specs"]
    /\ CreateTarget.targetConfiguration p
       = JObj [("mcp", JObj [("openApiSchema",
                 JObj [("s3", JObj [("uri",
                   JStr "s3://specs/gateways/G1/tools/todos/1700000000-abababababababab.json")])])])]
    /\ CreateTarget.credentialProviderConfigurations p
       = JArr [JObj [("credentialProviderType", JStr "API_KEY");
                     ("credentialProvider",
                      JObj [("apiKeyCredentialProvider",
                        JObj [("credentialParameterName",
                               JStr "X-Placeholder-Auth");
                              ("providerArn",
                               JStr "arn:provider/todos-placeholder-apikey");
                              ("credentialLocation", JStr "HEADER")])])]].
Proof.
  exists todos_again.
  destruct (target_points_at_uploaded_object (control_plane one_target)
              "us-east-1" "specs" fixed_clock fixed_random no_stringify
              "G1" "todos" (JObj []) None None []
              todos_again todos_again_history eq_refl)
    as (providerName & apiKey & created & paramName & location & bucket
        & key & rest & Hh & Hcfg & Hsend & Hcreds & _).
  unfold todos_again_history, todos_provider in Hh.
  injection Hh as <- <- <- <- <-.
  cbn in Hsend. injection Hsend as <-.
  split; [reflexivity|]. split; [exact Hcfg|].
  rewrite Hcreds. unfold todos_again in Hcreds. cbn in Hcreds.
  injection Hcreds as <- <-. reflexivity.
Defined.

Lemma forbidden_bucket_stops_creation_witness :
  createToolWithSpec account_with_forbidden_bucket "us-east-1" "specs"
    fixed_clock fixed_random no_stringify "G1" "todos" (JObj []) None None []
  = (inl access_denied, [HeadBucketCommand "specs"]).
Proof.
  apply (forbidden_bucket_stops_creation account_with_forbidden_bucket
           "us-east-1" "specs" fixed_clock fixed_random no_stringify
           "G1" "todos" (JObj []) None None [] access_denied).
  - discriminate.
  - reflexivity.
  - reflexivity.
Defined.

Lemma upload_default_bucket_witness :
  uploadOpenApiSpec (control_plane []) "us-east-1" fixed_clock fixed_random
    no_stringify (JObj []) "todos" "G1" None []
  = uploadOpenApiSpec (control_plane []) "us-east-1" fixed_clock fixed_random
      no_stringify (JObj []) "todos" "G1"
      (Some "agentcore-gateways-targets-openapi-specs-undefined-us-east-1")
      [GetCallerIdentityCommand].
Proof.
  apply (upload_default_bucket (control_plane []) "us-east-1" fixed_clock
           fixed_random no_stringify (JObj []) "todos" "G1" None [] []);
    reflexivity.
Defined.

Lemma invalid_document_by_route_witness :
  POST_tools_from_url downloads_no_spec "us-east-1" "specs" fixed_clock
    fixed_random no_stringify
    (FromUrl.mk "G1" "todos" "https://example.com/doc.json" None) []
  = (mk_response 500
       (BodyStatusError 500
          "OpenAPI spec must contain 'openapi' or 'swagger' field"),
     [AxiosGet "https://example.com/doc.json"]).
Proof.
  apply (proj1 (invalid_document_by_route downloads_no_spec "us-east-1"
                  "specs" fixed_clock fixed_random no_stringify
                  "G1" "todos" "https://example.com/doc.json" None
                  [("data", JObj [("title", JStr "not a spec")])]
                  "OpenAPI spec must contain 'openapi' or 'swagger' field"
                  [] eq_refl eq_refl eq_refl)).
Defined.

Lemma from_spec_creates_in_order_witness :
  exists reply,
    POST_tools_from_spec (control_plane []) "us-east-1" "specs" fixed_clock
      fixed_random no_stringify
      (FromSpec.mk "G1" "todos" (Some (JObj [("openapi", JStr "3.1.0")]))
         None) []
    = (mk_response 201 (BodyReply reply),
       CreateGatewayTargetCommand todos_again :: todos_again_history)
    /\ In ("openapi_spec_path", Some (JStr todos_spec_uri)) reply
    /\ In ("target_id", Some (JStr "T-NEW")) reply.
Proof.
  assert (Hauth : forall a, @None Auth.dto = Some a ->
                            Auth.type a <> "api_key").
  { intros a H. discriminate H. }
  assert (Hbucket : "specs" <> "") by discriminate.
  destruct (from_spec_creates_in_order (control_plane []) "us-east-1" "specs"
              fixed_clock fixed_random no_stringify "G1" "todos"
              (JObj [("openapi", JStr "3.1.0")]) None
              [] []
              [("credentialProviderArn",
                JStr "arn:provider/todos-placeholder-apikey")]
              [("targetId", JStr "T-NEW"); ("name", JStr "todos");
               ("status", JStr "CREATING")]
              Hauth eq_refl Hbucket eq_refl eq_refl eq_refl eq_refl)
    as (reply & Hrun & _ & Hpath & Hid & _).
  exists reply. split; [exact Hrun|]. split; [exact Hpath|exact Hid].
Defined.

(** ** The generated specification *)

Lemma index_entries_length (i : nat) (l : list json) :
  List.length (OpenApiGenerator.index_entries i l) = List.length l.
Proof.
  revert i. induction l as [|x rest IH]; intros i; [reflexivity|].
  cbn [OpenApiGenerator.index_entries List.length]. rewrite IH. reflexivity.
Qed.

Lemma prefix_before_first (sep s : string) :
  prefix (OpenApiGenerator.before_first sep s) s = true.
Proof.
  induction s as [|c rest IH]; cbn [OpenApiGenerator.before_first].
  - destruct (prefix sep ""); reflexivity.
  - destruct (prefix sep (String c rest)); [reflexivity|].
    cbn [prefix]. destruct (ascii_dec c c); [exact IH|contradiction].
Qed.

Lemma prefix_trans (a b c : string) :
  prefix a b = true -> prefix b c = true -> prefix a c = true.
Proof.
  revert b c. induction a as [|x a IH]; intros b c Hab Hbc;
    [destruct c; reflexivity|].
  destruct b as [|y b]; [discriminate Hab|].
  destruct c as [|z c]; [discriminate Hbc|].
  cbn [prefix] in *.
  destruct (ascii_dec x y) as [->|]; [|discriminate Hab].
  destruct (ascii_dec y z) as [->|]; [|discriminate Hbc].
  eapply IH; eassumption.
Qed.

Lemma prefix_append (a b : string) :
  prefix a b = true -> exists rest, b = a ++ rest.
Proof.
  revert b. induction a as [|x a IH]; intros b H.
  - exists b. reflexivity.
  - destruct b as [|y b]; [discriminate H|]. cbn [prefix] in H.
    destruct (ascii_dec x y) as [->|]; [|discriminate H].
    destruct (IH b H) as [rest ->]. exists rest. reflexivity.
Qed.

Section GeneratorProperties.

Variable URL_pathname : string -> option string.
Variable toLowerCase : string -> string.

(** X14: whatever it is given, the generator produces a document that
    [validateOpenApiSpec] accepts. *)
Theorem generated_spec_is_valid
    (toolName method url : string) (queryParams headers bodySchema : value)
    (description : option string) :
  validateOpenApiSpec
    (Some (OpenApiGenerator.generateOpenApiSpec URL_pathname toLowerCase
         toolName method url queryParams headers bodySchema
             description))
  = inr tt.
Proof. reflexivity. Qed.

(** X15: the operation is found under the path of the URL (or [/]) and
    the lower-cased method; it has one parameter per property of the
    query parameters and of the headers, all of them required, and none
    for what is absent or no object. *)
Theorem generated_parameters
    (toolName method url : string) (queryParams headers bodySchema : value)
    (description : option string) :
  exists operation parameters,
    opt_get
      (opt_get
         (get (OpenApiGenerator.generateOpenApiSpec URL_pathname toLowerCase
                 toolName method url queryParams headers bodySchema
                 description) "paths")
         (OpenApiGenerator.path_of URL_pathname url))
      (toLowerCase method)
    = Some (JObj operation)
    /\ assoc "parameters" operation = Some (JArr parameters)
    /\ List.length parameters
       = (OpenApiGenerator.entry_count queryParams
          + OpenApiGenerator.entry_count headers)%nat
    /\ Forall (fun p => get p "required" = Some (JBool true)) parameters.
Proof.
  assert (Hlen : forall place v,
    List.length (OpenApiGenerator.parameters_of place v) = OpenApiGenerator.entry_count v).
  { intros place [[]|]; cbn; try reflexivity.
    - rewrite length_map. apply index_entries_length.
    - apply length_map. }
  assert (Hreq : forall place v,
    Forall (fun p => get p "required" = Some (JBool true))
      (OpenApiGenerator.parameters_of place v)).
  { intros place v. unfold OpenApiGenerator.parameters_of.
    destruct v as [j|]; [|constructor].
    destruct (OpenApiGenerator.is_object (Some j)); [|constructor].
    apply Forall_map. apply Forall_forall. intros [k x] _. reflexivity. }
  unfold OpenApiGenerator.generateOpenApiSpec.
  cbn [get assoc String.eqb Ascii.eqb Bool.eqb opt_get].
  rewrite !String.eqb_refl. cbn [opt_get get assoc].
  rewrite !String.eqb_refl.
  match goal with
  | |- context [if ?b then set_field _ _ _ else _] => destruct b
  end.
  all: eexists; eexists; split; [reflexivity|]; split; [reflexivity|];
    split; [rewrite length_app, !Hlen; reflexivity
           |apply Forall_app; split; apply Hreq].
Qed.

(** X16: the operation has a request body exactly when the body schema
    is an object or an array, and the schema of its JSON content is then
    the body schema. *)
Theorem generated_request_body
    (toolName method url : string) (queryParams headers bodySchema : value)
    (description : option string) :
  let operation :=
    opt_get
      (opt_get
         (get (OpenApiGenerator.generateOpenApiSpec URL_pathname toLowerCase
                 toolName method url queryParams headers bodySchema
                 description) "paths")
         (OpenApiGenerator.path_of URL_pathname url))
      (toLowerCase method) in
  (OpenApiGenerator.is_object bodySchema = true ->
   opt_get (opt_get (opt_get (opt_get operation "requestBody") "content")
              "application/json") "schema"
   = bodySchema)
  /\
  (OpenApiGenerator.is_object bodySchema = false ->
   opt_get operation "requestBody" = None).
Proof.
  cbv zeta. unfold OpenApiGenerator.generateOpenApiSpec.
  cbn [get assoc String.eqb Ascii.eqb Bool.eqb opt_get].
  rewrite !String.eqb_refl. cbn [opt_get get assoc].
  rewrite !String.eqb_refl.
  split; intros Hobj.
  - destruct bodySchema as [schema|]; [|discriminate Hobj].
    rewrite Hobj. reflexivity.
  - destruct bodySchema as [schema|]; [rewrite Hobj|]; reflexivity.
Qed.

(** X17: the server URL of the specification is the part of the URL
    before the first '/api': it is a prefix of the URL, it contains no
    '/api', and it is the whole URL when the URL contains none. *)
Theorem server_url_is_cut_at_api (url : string) :
  (exists rest, url = OpenApiGenerator.before_first "/api" url ++ rest)
  /\ includes "/api" (OpenApiGenerator.before_first "/api" url) = false
  /\ (includes "/api" url = false ->
      OpenApiGenerator.before_first "/api" url = url).
Proof.
  split; [|split].
  - apply prefix_append, prefix_before_first.
  - induction url as [|c rest IH].
    + reflexivity.
    + cbn [OpenApiGenerator.before_first].
      destruct (prefix "/api" (String c rest)) eqn:Hp; [reflexivity|].
      cbn [includes]. rewrite IH, orb_false_r.
      destruct (prefix "/api"
                  (String c (OpenApiGenerator.before_first "/api" rest)))
        eqn:Hq; [|reflexivity].
      rewrite <- Hp. symmetry.
      apply (prefix_trans _ _ _ Hq).
      cbn [prefix]. destruct (ascii_dec c c); [|contradiction].
      apply prefix_before_first.
  - induction url as [|c rest IH]; intros H.
    + reflexivity.
    + cbn [includes] in H. apply orb_false_iff in H. destruct H as [Hp Hrest].
      cbn [OpenApiGenerator.before_first]. rewrite Hp, (IH Hrest).
      reflexivity.
Qed.

(** X18: so for every URL on a host whose name begins with [api.], the
    server of the generated specification is [https:/]. *)
Theorem api_host_loses_its_server
    (toolName method rest : string) (queryParams headers bodySchema : value)
    (description : option string) :
  get (OpenApiGenerator.generateOpenApiSpec URL_pathname toLowerCase
         toolName method ("https://api." ++ rest) queryParams headers
         bodySchema description) "servers"
  = Some (JArr [JObj [("url", JStr "https:/");
                      ("description", JStr "Default server")]]).
Proof. reflexivity. Qed.

End GeneratorProperties.

Lemma generated_request_body_witness :
  opt_get
    (opt_get
       (opt_get
          (opt_get
             (opt_get
                (opt_get
                   (get (OpenApiGenerator.generateOpenApiSpec todos_pathname
                           lower_method "todos" "POST"
                           "https://example.com/todos" None None
                           (Some (JObj [("type", JStr "object")])) None)
                      "paths") "/todos") "post") "requestBody") "content")
       "application/json") "schema"
  = Some (JObj [("type", JStr "object")]).
Proof.
  apply (proj1 (generated_request_body todos_pathname lower_method "todos"
                  "POST" "https://example.com/todos" None None
                  (Some (JObj [("type", JStr "object")])) None)).
  reflexivity.
Defined.

Lemma server_url_is_cut_at_api_witness :
  OpenApiGenerator.before_first "/api" "https://example.com/todos"
  = "https://example.com/todos".
Proof.
  apply (proj2 (proj2 (server_url_is_cut_at_api "https://example.com/todos"))).
  reflexivity.
Defined.

(** ** Gateways *)

Ltac unfold_gateway_io :=
  unfold Gateway.route, Gateway.bind, Gateway.try_catch, Gateway.ret,
    Gateway.throw, Gateway.client_send in *.

Lemma gateway_not_found_message (gatewayId : string) :
  includes "not found" (exn_message (Gateway.gateway_not_found gatewayId))
  = true.
Proof.
  unfold Gateway.gateway_not_found. cbn [exn_message].
  apply (includes_app_right _ "Gateway '").
  apply includes_app_right. reflexivity.
Qed.

Section GatewayProperties.

Variable send : Gateway.service.
Variable JSON_stringify : json -> string.
Variable GATEWAY_ROLE_ARN : option string.

(** X19: an authenticated gateway needs both [client_id] and
    [discovery_url]: when either is missing or empty, [createGateway]
    fails with the error that names them and sends nothing. *)
Theorem authenticated_gateway_needs_both_fields
    (gatewayName roleArn : string) (authConfig : value)
    (description : option string) (h : Gateway.history) :
  truthy (opt_get authConfig "client_id") = false
  \/ truthy (opt_get authConfig "discovery_url") = false ->
  Gateway.createGateway send JSON_stringify gatewayName roleArn true
    authConfig description h
  = (inl Gateway.auth_fields_required, h).
Proof.
  intros Hmissing.
  assert (Htest : negb (truthy (opt_get authConfig "client_id"))
                  || negb (truthy (opt_get authConfig "discovery_url"))
                  = true).
  { destruct Hmissing as [H|H]; rewrite H;
      [reflexivity|apply orb_true_r]. }
  unfold Gateway.createGateway, Gateway.createGatewayWithAuth.
  unfold_gateway_io. rewrite Htest. reflexivity.
Qed.

(** The outcome of [POST /gateways] for a request that has the role and
    the three Cognito settings. *)
Lemma createGateway_route_outcome
    (gatewayName roleArn : string) (description : option string)
    (c : Gateway.Cognito.dto) (h : Gateway.history) :
  GATEWAY_ROLE_ARN = Some roleArn ->
  roleArn <> "" ->
  truthy_string (Gateway.Cognito.user_pool_id c) = true ->
  truthy_string (Gateway.Cognito.client_id c) = true ->
  truthy_string (Gateway.Cognito.discovery_url c) = true ->
  let creation :=
    Gateway.CreateGatewayCommand
      (Gateway.Create.mk gatewayName "MCP" "CUSTOM_JWT" roleArn description) in
  Gateway.route 201
    (GatewayRoutes.createGateway send JSON_stringify GATEWAY_ROLE_ARN
       (Gateway.CreateRequest.mk gatewayName description (Some c))) h
  = (match send h creation with
     | inl e => mk_response 500 (BodyStatusError 500 (exn_message e))
     | inr response =>
         if negb (truthy (assoc "gatewayId" response))
            || negb (truthy (assoc "gatewayUrl" response))
         then mk_response 500
                (BodyStatusError 500
                   ("Invalid gateway response: "
                    ++ JSON_stringify (JObj response)))
         else mk_response 201
                (BodyReply
                   (Gateway.gateway_reply
                      ("Gateway '" ++ gatewayName ++ "' successfully created")
                      response))
     end,
     creation :: h).
Proof.
  intros Hrole Hnonempty Hpool Hclient Hurl creation.
  unfold GatewayRoutes.createGateway, GatewayRoutes.cognito_field,
    Gateway.createGateway, Gateway.createGatewayWithAuth.
  unfold_gateway_io.
  cbn [Gateway.CreateRequest.auth_config Gateway.CreateRequest.gateway_name
       Gateway.CreateRequest.description].
  rewrite Hrole, (truthy_nonempty _ Hnonempty), Hpool, Hclient, Hurl.
  destruct (Gateway.Cognito.client_id c) as [client|];
    [|discriminate Hclient].
  destruct (Gateway.Cognito.discovery_url c) as [url|];
    [|discriminate Hurl].
  cbn [negb orb tpl opt_get get assoc String.eqb Ascii.eqb Bool.eqb truthy].
  cbn [truthy_string] in Hclient, Hurl. rewrite Hclient, Hurl.
  cbn [negb orb]. fold creation.
  destruct (send h creation) as [e|response]; [reflexivity|].
  cbv beta iota zeta delta [fst snd].
  destruct (negb (truthy (assoc "gatewayId" response))
            || negb (truthy (assoc "gatewayUrl" response))); reflexivity.
Qed.

(** X20: the Cognito settings of [POST /gateways] are checked for
    presence and then dropped: two requests that differ only in the
    values of [user_pool_id], [client_id] and [discovery_url] run
    alike, and the one request they send creates a CUSTOM_JWT gateway
    from the name, the role and the description alone. *)
Theorem cognito_settings_are_not_sent
    (gatewayName roleArn : string) (description : option string)
    (first second : Gateway.Cognito.dto) (h : Gateway.history) :
  GATEWAY_ROLE_ARN = Some roleArn ->
  roleArn <> "" ->
  (forall c, c = first \/ c = second ->
     truthy_string (Gateway.Cognito.user_pool_id c) = true
     /\ truthy_string (Gateway.Cognito.client_id c) = true
     /\ truthy_string (Gateway.Cognito.discovery_url c) = true) ->
  let run c :=
    Gateway.route 201
      (GatewayRoutes.createGateway send JSON_stringify GATEWAY_ROLE_ARN
         (Gateway.CreateRequest.mk gatewayName description (Some c))) h in
  run first = run second
  /\ snd (run first)
     = Gateway.CreateGatewayCommand
         (Gateway.Create.mk gatewayName "MCP" "CUSTOM_JWT" roleArn description)
       :: h.
Proof.
  intros Hrole Hnonempty Hfields run.
  destruct (Hfields first (or_introl eq_refl)) as (Hp1 & Hc1 & Hu1).
  destruct (Hfields second (or_intror eq_refl)) as (Hp2 & Hc2 & Hu2).
  subst run. cbv beta.
  rewrite (createGateway_route_outcome gatewayName roleArn description first h
             Hrole Hnonempty Hp1 Hc1 Hu1).
  rewrite (createGateway_route_outcome gatewayName roleArn description second h
             Hrole Hnonempty Hp2 Hc2 Hu2).
  split; reflexivity.
Qed.

(** X21: a gateway that was created but whose answer lacks the
    identifier or the URL is reported as an error: the creation request
    has been sent, and [createGateway] fails with
    'Invalid gateway response: ' followed by the answer. *)
Theorem incomplete_gateway_answer_is_an_error
    (gatewayName roleArn : string) (description : option string)
    (h : Gateway.history) (response : obj) :
  let creation :=
    Gateway.CreateGatewayCommand
      (Gateway.Create.mk gatewayName "MCP" "NONE" roleArn description) in
  send h creation = inr response ->
  truthy (assoc "gatewayId" response) = false
  \/ truthy (assoc "gatewayUrl" response) = false ->
  Gateway.createGateway send JSON_stringify gatewayName roleArn false None
    description h
  = (inl (Error ("Invalid gateway response: "
                 ++ JSON_stringify (JObj response))),
     creation :: h).
Proof.
  intros creation Hsend Hmissing.
  assert (Htest : negb (truthy (assoc "gatewayId" response))
                  || negb (truthy (assoc "gatewayUrl" response)) = true).
  { destruct Hmissing as [H|H]; rewrite H;
      [reflexivity|apply orb_true_r]. }
  unfold Gateway.createGateway, Gateway.createGatewayWithoutAuth.
  unfold_gateway_io. fold creation. rewrite Hsend.
  cbv beta iota zeta delta [fst snd]. rewrite Htest. reflexivity.
Qed.

(** X22: the preconditions that the two creation methods check themselves
    are answered 500, not 400, and nothing is sent: without
    GATEWAY_ROLE_ARN on both routes, and on [POST /gateways] also when
    one of the three Cognito settings is the empty string.  (Settings
    that are not strings are refused before the method runs; the
    requests here are those with three strings.) *)
Theorem gateway_preconditions_are_500
    (h : Gateway.history) :
  (truthy_string GATEWAY_ROLE_ARN = false ->
   forall simple : Gateway.CreateNoAuthRequest.dto,
     Gateway.route 201
       (GatewayRoutes.createGatewayNoAuth send JSON_stringify GATEWAY_ROLE_ARN
          simple) h
     = (mk_response 500
          (BodyStatusError 500
             "GATEWAY_ROLE_ARN environment variable is not configured"),
        h))
  /\
  (truthy_string GATEWAY_ROLE_ARN = false ->
   forall (request : Gateway.CreateRequest.dto)
          (settings : Gateway.Cognito.dto),
     Gateway.CreateRequest.auth_config request = Some settings ->
     Gateway.Cognito.accepted settings = true ->
     Gateway.route 201
       (GatewayRoutes.createGateway send JSON_stringify GATEWAY_ROLE_ARN
          request) h
     = (mk_response 500
          (BodyStatusError 500
             "GATEWAY_ROLE_ARN environment variable is not configured"),
        h))
  /\
  (truthy_string GATEWAY_ROLE_ARN = true ->
   forall (request : Gateway.CreateRequest.dto)
          (settings : Gateway.Cognito.dto),
     Gateway.CreateRequest.auth_config request = Some settings ->
     Gateway.Cognito.accepted settings = true ->
     Gateway.Cognito.user_pool_id settings = Some ""
     \/ Gateway.Cognito.client_id settings = Some ""
     \/ Gateway.Cognito.discovery_url settings = Some "" ->
     Gateway.route 201
       (GatewayRoutes.createGateway send JSON_stringify GATEWAY_ROLE_ARN
          request) h
     = (mk_response 500
          (BodyStatusError 500
             "Missing required auth_config fields: user_pool_id, client_id, discovery_url"),
        h)).
Proof.
  split; [|split].
  - intros Hrole simple.
    unfold GatewayRoutes.createGatewayNoAuth.
    unfold_gateway_io. rewrite Hrole. reflexivity.
  - intros Hrole request settings _ _.
    unfold GatewayRoutes.createGateway.
    unfold_gateway_io. rewrite Hrole. reflexivity.
  - intros Hrole request settings Hsettings _ Hempty.
    assert (Htest :
      negb (truthy_string
              (GatewayRoutes.cognito_field Gateway.Cognito.user_pool_id
                 (Some settings)))
      || negb (truthy_string
                 (GatewayRoutes.cognito_field Gateway.Cognito.client_id
                    (Some settings)))
      || negb (truthy_string
                 (GatewayRoutes.cognito_field Gateway.Cognito.discovery_url
                    (Some settings))) = true).
    { unfold GatewayRoutes.cognito_field.
      destruct Hempty as [H|[H|H]]; rewrite H; cbn [truthy_string negb];
        rewrite ?orb_true_r; reflexivity. }
    unfold GatewayRoutes.createGateway.
    unfold_gateway_io. rewrite Hrole. cbn [negb].
    cbv beta iota zeta delta [fst snd]. rewrite Hsettings.
    rewrite Htest. reflexivity.
Qed.

End GatewayProperties.

Lemma includes_string_In (x : string) (l : list string) :
  GatewayRoutes.includes_string x l = true <-> In x l.
Proof.
  unfold GatewayRoutes.includes_string. rewrite existsb_exists. split.
  - intros (y & Hy & Heq). apply String.eqb_eq in Heq. subst y. exact Hy.
  - intros H. exists x. split; [exact H|apply String.eqb_refl].
Qed.

Section GatewayUpdateProperties.

Variable send : Gateway.service.

(** X23: [PUT /gateways/:id] answers 400 and sends nothing when the
    authorizer type is not one of CUSTOM_JWT, AWS_IAM and NONE, or when
    it is but the protocol type is not MCP. *)
Theorem updateGateway_validates_first
    (gatewayId : string) (request : Gateway.UpdateRequest.dto)
    (h : Gateway.history) :
  (~ In (Gateway.UpdateRequest.authorizer_type request)
        ["CUSTOM_JWT"; "AWS_IAM"; "NONE"] ->
   Gateway.route 200 (GatewayRoutes.updateGateway send gatewayId request) h
   = (mk_response 400
        (BodyStatusMessage 400
           "authorizer_type must be one of: CUSTOM_JWT, AWS_IAM, NONE"
           (Some "Bad Request")),
      h))
  /\
  (In (Gateway.UpdateRequest.authorizer_type request)
      ["CUSTOM_JWT"; "AWS_IAM"; "NONE"] ->
   Gateway.UpdateRequest.protocol_type request <> "MCP" ->
   Gateway.route 200 (GatewayRoutes.updateGateway send gatewayId request) h
   = (mk_response 400
        (BodyStatusMessage 400 "protocol_type must be MCP"
           (Some "Bad Request")),
      h)).
Proof.
  split.
  - intros Htype.
    assert (Htest : GatewayRoutes.includes_string
                      (Gateway.UpdateRequest.authorizer_type request)
                      Gateway.authorizer_types = false).
    { destruct (GatewayRoutes.includes_string _ _) eqn:E; [|reflexivity].
      apply includes_string_In in E. contradiction. }
    unfold GatewayRoutes.updateGateway. unfold_gateway_io.
    rewrite Htest. reflexivity.
  - intros Htype Hprotocol.
    apply includes_string_In in Htype. apply String.eqb_neq in Hprotocol.
    unfold GatewayRoutes.updateGateway. unfold_gateway_io.
    unfold Gateway.authorizer_types. rewrite Htype, Hprotocol. reflexivity.
Qed.

(** X24: a valid [PUT /gateways/:id] sends one update that carries the
    name, the two types, the role and the description of the request and
    no authorizer configuration; success is answered 200 with the fields
    of the gateway, an unknown gateway 404 with the message that names
    it. *)
Theorem updateGateway_sends_no_authorizer_configuration
    (gatewayId : string) (request : Gateway.UpdateRequest.dto)
    (h : Gateway.history) :
  In (Gateway.UpdateRequest.authorizer_type request)
     ["CUSTOM_JWT"; "AWS_IAM"; "NONE"] ->
  Gateway.UpdateRequest.protocol_type request = "MCP" ->
  let update :=
    Gateway.UpdateGatewayCommand
      (Gateway.Update.mk gatewayId (Gateway.UpdateRequest.name request) "MCP"
         (Gateway.UpdateRequest.authorizer_type request)
         (Gateway.UpdateRequest.role_arn request)
         (Gateway.UpdateRequest.description request) None) in
  let r :=
    Gateway.route 200 (GatewayRoutes.updateGateway send gatewayId request) h in
  snd r = update :: h
  /\
  (forall response, send h update = inr response ->
     fst r
     = mk_response 200
         (BodyReply
            (Gateway.gateway_reply
               ("Gateway '" ++ Gateway.UpdateRequest.name request
                ++ "' successfully updated") response)))
  /\
  (forall e, send h update = inl e ->
     exn_name e = "ResourceNotFoundException" ->
     fst r
     = mk_response 404
         (BodyStatusMessage 404 ("Gateway '" ++ gatewayId ++ "' not found")
            None)).
Proof.
  intros Htype Hprotocol update r.
  apply includes_string_In in Htype.
  assert (Hrun : r =
    match send h update with
    | inr response =>
        (mk_response 200
           (BodyReply
              (Gateway.gateway_reply
                 ("Gateway '" ++ Gateway.UpdateRequest.name request
                  ++ "' successfully updated") response)),
         update :: h)
    | inl e =>
        let error :=
          if exn_name e =? "ResourceNotFoundException"
          then Gateway.gateway_not_found gatewayId else e in
        (nest_respond 200
           (inl (if instanceof_BadRequestException error then error
                 else if includes "not found" (exn_message error)
                      then HttpException (PayloadText (exn_message error))
                             NOT_FOUND
                      else internal_server_error error)),
         update :: h)
    end).
  { subst r update.
    unfold GatewayRoutes.updateGateway, Gateway.updateGateway,
      GatewayRoutes.not_found_or_500.
    unfold_gateway_io.
    unfold Gateway.authorizer_types. rewrite Htype, Hprotocol.
    cbn [negb String.eqb Ascii.eqb Bool.eqb].
    cbv beta iota zeta delta [fst snd].
    destruct (Gateway.UpdateRequest.description request) as [d|];
      cbn [Gateway.Update.gatewayIdentifier Gateway.Update.name
           Gateway.Update.protocolType Gateway.Update.authorizerType
           Gateway.Update.roleArn Gateway.Update.description
           Gateway.Update.authorizerConfiguration];
      match goal with
      | |- context [match ?answer with inl _ => _ | inr _ => _ end] =>
          destruct answer as [e|response]
      end; try reflexivity;
      destruct (exn_name e =? "ResourceNotFoundException");
      cbv beta iota zeta delta [fst snd];
      match goal with
      | |- context [instanceof_BadRequestException ?x] =>
          destruct (instanceof_BadRequestException x)
      end; try reflexivity;
      match goal with
      | |- context [includes "not found" ?m] =>
          destruct (includes "not found" m)
      end; reflexivity. }
  rewrite Hrun. split; [|split].
  - destruct (send h update); reflexivity.
  - intros response Hsend. rewrite Hsend. reflexivity.
  - intros e Hsend Hname. apply String.eqb_eq in Hname.
    rewrite Hsend. cbv zeta. rewrite Hname.
    cbn [instanceof_BadRequestException Gateway.gateway_not_found fst].
    rewrite (gateway_not_found_message gatewayId). reflexivity.
Qed.

(** X25: [GET /gateways/:id] answers 404 with the message that names the
    gateway when the service does not know it, and 200 with the fields
    of the gateway otherwise. *)
Theorem getGateway_route_answers
    (gatewayId : string) (h : Gateway.history) :
  let r := Gateway.route 200 (GatewayRoutes.getGateway send gatewayId) h in
  (forall e, send h (Gateway.GetGatewayCommand gatewayId) = inl e ->
     exn_name e = "ResourceNotFoundException" ->
     r = (mk_response 404
            (BodyStatusMessage 404 ("Gateway '" ++ gatewayId ++ "' not found")
               None),
          Gateway.GetGatewayCommand gatewayId :: h))
  /\
  (forall response, send h (Gateway.GetGatewayCommand gatewayId) = inr response ->
     r = (mk_response 200
            (BodyReply
               (Gateway.gateway_reply
                  ("Gateway '" ++ tpl (string_field "name" response)
                   ++ "' retrieved successfully") response)),
          Gateway.GetGatewayCommand gatewayId :: h)).
Proof.
  cbv zeta.
  unfold GatewayRoutes.getGateway, Gateway.getGateway,
    GatewayRoutes.not_found_or_500.
  unfold_gateway_io. split.
  - intros e Hsend Hname. apply String.eqb_eq in Hname.
    rewrite Hsend, Hname. cbv beta iota zeta delta [fst snd].
    rewrite (gateway_not_found_message gatewayId). reflexivity.
  - intros response Hsend. rewrite Hsend. reflexivity.
Qed.

(** X26: [DELETE /gateways/:id] answers a success with the identifier of
    the path and the status DELETING, whatever the service answered; any
    failure, an unknown gateway included, is answered 500 with the
    message of the exception -- this route has no 404. *)
Theorem deleteGateway_route_answers
    (gatewayId : string) (h : Gateway.history) :
  let r := Gateway.route 200 (GatewayRoutes.deleteGateway send gatewayId) h in
  (forall response,
     send h (Gateway.DeleteGatewayCommand gatewayId) = inr response ->
     r = (mk_response 200
            (BodyReply [("gateway_id", Some (JStr gatewayId));
                        ("status", Some (JStr "DELETING"))]),
          Gateway.DeleteGatewayCommand gatewayId :: h))
  /\
  (forall e,
     send h (Gateway.DeleteGatewayCommand gatewayId) = inl e ->
     r = (mk_response 500 (BodyStatusError 500 (exn_message e)),
          Gateway.DeleteGatewayCommand gatewayId :: h)).
Proof.
  cbv zeta.
  unfold GatewayRoutes.deleteGateway, Gateway.deleteGateway.
  unfold_gateway_io. split.
  - intros response Hsend. rewrite Hsend. reflexivity.
  - intros e Hsend. rewrite Hsend. reflexivity.
Qed.

End GatewayUpdateProperties.

Lemma authenticated_gateway_needs_both_fields_witness :
  Gateway.createGateway (gateway_plane []) no_stringify "main" "arn:role" true
    (Some (JObj [("client_id", JStr "app")])) None []
  = (inl Gateway.auth_fields_required, []).
Proof.
  apply (authenticated_gateway_needs_both_fields (gateway_plane [])
           no_stringify "main" "arn:role"
           (Some (JObj [("client_id", JStr "app")])) None []).
  right. reflexivity.
Defined.

Lemma cognito_settings_are_not_sent_witness :
  Gateway.route 201
    (GatewayRoutes.createGateway (gateway_plane []) no_stringify
       (Some "arn:role")
       (Gateway.CreateRequest.mk "main" None
          (Some (Gateway.Cognito.mk (Some "pool-1") (Some "app-1")
                   (Some "https://one.example/.well-known")))))
    []
  = Gateway.route 201
      (GatewayRoutes.createGateway (gateway_plane []) no_stringify
         (Some "arn:role")
         (Gateway.CreateRequest.mk "main" None
            (Some (Gateway.Cognito.mk (Some "pool-2") (Some "app-2")
                     (Some "https://two.example/.well-known")))))
      [].
Proof.
  assert (Hrole : "arn:role" <> "") by discriminate.
  apply (cognito_settings_are_not_sent (gateway_plane []) no_stringify
           (Some "arn:role") "main" "arn:role" None
           (Gateway.Cognito.mk (Some "pool-1") (Some "app-1")
              (Some "https://one.example/.well-known"))
           (Gateway.Cognito.mk (Some "pool-2") (Some "app-2")
              (Some "https://two.example/.well-known"))
           [] eq_refl Hrole).
  intros c [->| ->]; repeat split.
Defined.

Lemma incomplete_gateway_answer_is_an_error_witness :
  Gateway.createGateway gateway_plane_without_url no_stringify "main"
    "arn:role" false None None []
  = (inl (Error "Invalid gateway response: {}"),
     [Gateway.CreateGatewayCommand
        (Gateway.Create.mk "main" "MCP" "NONE" "arn:role" None)]).
Proof.
  apply (incomplete_gateway_answer_is_an_error gateway_plane_without_url
           no_stringify "main" "arn:role" None []
           [("gatewayId", JStr "GW-NEW")] eq_refl).
  right. reflexivity.
Defined.

Lemma gateway_preconditions_are_500_witness :
  Gateway.route 201
    (GatewayRoutes.createGatewayNoAuth (gateway_plane []) no_stringify None
       (Gateway.CreateNoAuthRequest.mk "main" None)) []
  = (mk_response 500
       (BodyStatusError 500
          "GATEWAY_ROLE_ARN environment variable is not configured"),
     [])
  /\
  Gateway.route 201
    (GatewayRoutes.createGateway (gateway_plane []) no_stringify None
       (Gateway.CreateRequest.mk "main" None
          (Some (Gateway.Cognito.mk (Some "pool") (Some "app")
                   (Some "https://idp")))))
    []
  = (mk_response 500
       (BodyStatusError 500
          "GATEWAY_ROLE_ARN environment variable is not configured"),
     [])
  /\
  Gateway.route 201
    (GatewayRoutes.createGateway (gateway_plane []) no_stringify
       (Some "arn:role")
       (Gateway.CreateRequest.mk "main" None
          (Some (Gateway.Cognito.mk (Some "") (Some "app")
                   (Some "https://idp")))))
    []
  = (mk_response 500
       (BodyStatusError 500
          "Missing required auth_config fields: user_pool_id, client_id, discovery_url"),
     []).
Proof.
  split; [|split].
  - apply (proj1 (gateway_preconditions_are_500 (gateway_plane [])
                    no_stringify None []) eq_refl
             (Gateway.CreateNoAuthRequest.mk "main" None)).
  - apply (proj1 (proj2 (gateway_preconditions_are_500 (gateway_plane [])
                           no_stringify None [])) eq_refl
             (Gateway.CreateRequest.mk "main" None
                (Some (Gateway.Cognito.mk (Some "pool") (Some "app")
                         (Some "https://idp"))))
             (Gateway.Cognito.mk (Some "pool") (Some "app")
                (Some "https://idp"))
             eq_refl eq_refl).
  - apply (proj2 (proj2 (gateway_preconditions_are_500 (gateway_plane [])
                           no_stringify (Some "arn:role") [])) eq_refl
             (Gateway.CreateRequest.mk "main" None
                (Some (Gateway.Cognito.mk (Some "") (Some "app")
                         (Some "https://idp"))))
             (Gateway.Cognito.mk (Some "") (Some "app") (Some "https://idp"))
             eq_refl eq_refl).
    left. reflexivity.
Defined.

Lemma updateGateway_validates_first_witness :
  Gateway.route 200
    (GatewayRoutes.updateGateway (gateway_plane ["GW1"]) "GW1"
       (Gateway.UpdateRequest.mk "main" "MCP" "OAUTH" "arn:role" None)) []
  = (mk_response 400
       (BodyStatusMessage 400
          "authorizer_type must be one of: CUSTOM_JWT, AWS_IAM, NONE"
          (Some "Bad Request")),
     [])
  /\
  Gateway.route 200
    (GatewayRoutes.updateGateway (gateway_plane ["GW1"]) "GW1"
       (Gateway.UpdateRequest.mk "main" "A2A" "NONE" "arn:role" None)) []
  = (mk_response 400
       (BodyStatusMessage 400 "protocol_type must be MCP"
          (Some "Bad Request")),
     []).
Proof.
  split.
  - apply (proj1 (updateGateway_validates_first (gateway_plane ["GW1"]) "GW1"
                    (Gateway.UpdateRequest.mk "main" "MCP" "OAUTH" "arn:role"
                       None) [])).
    cbn [Gateway.UpdateRequest.authorizer_type In].
    intros [H|[H|[H|H]]]; try discriminate H; exact H.
  - apply (proj2 (updateGateway_validates_first (gateway_plane ["GW1"]) "GW1"
                    (Gateway.UpdateRequest.mk "main" "A2A" "NONE" "arn:role"
                       None) [])).
    + right. right. left. reflexivity.
    + discriminate.
Defined.

Lemma updateGateway_sends_no_authorizer_configuration_witness :
  snd (Gateway.route 200
         (GatewayRoutes.updateGateway (gateway_plane []) "GW9"
            (Gateway.UpdateRequest.mk "main" "MCP" "CUSTOM_JWT" "arn:role"
               (Some "renamed"))) [])
  = [Gateway.UpdateGatewayCommand
       (Gateway.Update.mk "GW9" "main" "MCP" "CUSTOM_JWT" "arn:role"
          (Some "renamed") None)]
  /\
  fst (Gateway.route 200
         (GatewayRoutes.updateGateway (gateway_plane []) "GW9"
            (Gateway.UpdateRequest.mk "main" "MCP" "CUSTOM_JWT" "arn:role"
               (Some "renamed"))) [])
  = mk_response 404 (BodyStatusMessage 404 "Gateway 'GW9' not found" None).
Proof.
  destruct (updateGateway_sends_no_authorizer_configuration (gateway_plane [])
              "GW9"
              (Gateway.UpdateRequest.mk "main" "MCP" "CUSTOM_JWT" "arn:role"
                 (Some "renamed")) []
              (or_introl eq_refl) eq_refl)
    as (Hsent & _ & Hunknown).
  split; [exact Hsent|].
  apply (Hunknown resource_not_found); reflexivity.
Defined.

Lemma getGateway_route_answers_witness :
  Gateway.route 200 (GatewayRoutes.getGateway (gateway_plane []) "GW9") []
  = (mk_response 404 (BodyStatusMessage 404 "Gateway 'GW9' not found" None),
     [Gateway.GetGatewayCommand "GW9"]).
Proof.
  apply (proj1 (getGateway_route_answers (gateway_plane []) "GW9" [])
           resource_not_found); reflexivity.
Defined.

Lemma deleteGateway_route_answers_witness :
  Gateway.route 200 (GatewayRoutes.deleteGateway (gateway_plane []) "GW9") []
  = (mk_response 500
       (BodyStatusError 500 "The requested target does not exist"),
     [Gateway.DeleteGatewayCommand "GW9"]).
Proof.
  apply (proj2 (deleteGateway_route_answers (gateway_plane []) "GW9" [])
           resource_not_found).
  reflexivity.
Defined.

(** ** More on the update of a target *)

Section MoreUpdateProperties.

Variable send : service.
Variables gatewayId targetId targetName : string.

(** X27: every update call carries the gateway, the target and the name
    that the caller gave. *)
Theorem update_keeps_identity
    (h : history) (cfg : value) (desc : option string) (creds : value)
    (p : Update.params) (h' : history) :
  history_of (updateGatewayTarget send gatewayId targetId targetName
                cfg desc creds h)
  = UpdateGatewayTargetCommand p :: h' ->
  Update.gatewayIdentifier p = gatewayId
  /\ Update.targetId p = targetId
  /\ Update.name p = targetName.
Proof.
  run_update send.
  all: intros H; inversion H; subst; repeat split.
Qed.

(** X28: a new configuration that brings its own non-empty URI is
    submitted as it is: the stored URI never replaces it. *)
Theorem provided_uri_is_kept
    (h : history) (cfg : value) (desc : option string) (creds : value)
    (p : Update.params) (h' : history) :
  truthy (s3_uri_of cfg) = true ->
  history_of (updateGatewayTarget send gatewayId targetId targetName
                cfg desc creds h)
  = UpdateGatewayTargetCommand p :: h' ->
  Update.targetConfiguration p = cfg.
Proof.
  intros Huri.
  assert (Hcfg : truthy cfg = true).
  { destruct cfg as [[]|]; try discriminate Huri; reflexivity. }
  run_update send.
  all: intros H; inversion H; subst; reflexivity.
Qed.

(** X29: a new configuration whose [s3] member is a non-empty string is
    not repaired: the stored URI cannot be assigned into a string, so
    the call raises a [TypeError] after the read and writes nothing. *)
Theorem string_s3_stops_update
    (h : history) (rec : obj) (c u : json) (text : string)
    (desc : option string) (creds : value) :
  send h (GetGatewayTargetCommand gatewayId targetId) = inr rec ->
  s3_uri_of (assoc "targetConfiguration" rec) = Some u ->
  truthy (Some u) = true ->
  opt_get (opt_get (get c "mcp") "openApiSchema") "s3" = Some (JStr text) ->
  text <> "" ->
  exists m,
    updateGatewayTarget send gatewayId targetId targetName (Some c) desc
      creds h
    = (inl (TypeError m), GetGatewayTargetCommand gatewayId targetId :: h).
Proof.
  intros Hget Hold Hu Hs3 Htext.
  destruct (opt_get_object _ _ _ Hs3) as (f2 & H2 & Hs3').
  destruct (opt_get_object _ _ _ H2) as (f1 & H1 & Hschema).
  destruct (get_object _ _ _ H1) as (f0 & -> & Hmcp).
  assert (Hsplice :
    splice_s3_uri (s3_uri_of (assoc "targetConfiguration" rec))
      (Some (JObj f0))
    = inl (TypeError "Cannot create property on a primitive")).
  { rewrite Hold. unfold splice_s3_uri. rewrite Hs3.
    cbn [truthy]. apply String.eqb_neq in Htext. rewrite Htext. cbn [negb].
    cbn [assign s3_uri_path]. rewrite Hmcp, Hschema, Hs3'. reflexivity. }
  assert (Hnew : truthy (s3_uri_of (Some (JObj f0))) = false).
  { unfold s3_uri_of. cbn [opt_get] in *. rewrite Hs3. reflexivity. }
  rewrite <- Hold in Hu.
  eexists.
  unfold updateGatewayTarget, getGatewayTarget. unfold_io.
  rewrite Hget. cbn [truthy negb].
  cbv beta iota zeta delta [fst snd negb andb].
  rewrite Hnew, Hu, Hsplice. reflexivity.
Qed.

End MoreUpdateProperties.

Lemma update_keeps_identity_witness :
  exists p,
    history_of (updateGatewayTarget (control_plane one_target) "G1" "T1"
                  "renamed" None None None [])
    = [UpdateGatewayTargetCommand p; GetGatewayTargetCommand "G1" "T1"]
    /\ Update.gatewayIdentifier p = "G1"
    /\ Update.targetId p = "T1"
    /\ Update.name p = "renamed".
Proof.
  eexists. split; [reflexivity|].
  eapply (update_keeps_identity (control_plane one_target) "G1" "T1"
            "renamed" [] None None None).
  reflexivity.
Defined.

Lemma provided_uri_is_kept_witness :
  exists p,
    history_of (updateGatewayTarget (control_plane one_target) "G1" "T1"
                  "todos" (Some (target_config "s3://b/new.json")) None None
                  [])
    = [UpdateGatewayTargetCommand p; GetGatewayTargetCommand "G1" "T1"]
    /\ Update.targetConfiguration p = Some (target_config "s3://b/new.json").
Proof.
  eexists. split; [reflexivity|].
  eapply (provided_uri_is_kept (control_plane one_target) "G1" "T1" "todos"
            [] (Some (target_config "s3://b/new.json")) None None).
  - reflexivity.
  - reflexivity.
Defined.

Lemma string_s3_stops_update_witness :
  exists m,
    updateGatewayTarget (control_plane one_target) "G1" "T1" "todos"
      (Some (JObj [("mcp",
                    JObj [("openApiSchema", JObj [("s3", JStr "later")])])]))
      None None []
    = (inl (TypeError m), [GetGatewayTargetCommand "G1" "T1"]).
Proof.
  assert (Htext : "later" <> "") by discriminate.
  apply (string_s3_stops_update (control_plane one_target) "G1" "T1" "todos"
           [] old_target
           (JObj [("mcp",
                   JObj [("openApiSchema", JObj [("s3", JStr "later")])])])
           (JStr "s3://b/old.json") "later" None None
           eq_refl eq_refl eq_refl eq_refl Htext).
Defined.
